(** * OpenXR / CloudXR client: session state machine, input relay and frame compositor

    A shallow embedding of the per-tick logic of [OpenXrProgram]
    (app/src/main/src/openxr_program.cpp): [PollEvents],
    [HandleSessionStateChangedEvent], [PollActions], [RenderFrame] and
    [RenderLayer].

    The OpenXR runtime and the CloudXR client are external: every call into
    them is answered by an oracle record ([Runtime]) and, when it has an effect
    outside the program, recorded in a trace of [Event]s.  Member variables live
    in [World]; the mutable locals of a function live next to it in the state of
    a small state-and-exception monad. *)

From Stdlib Require Import ZArith Bool Lia.
From Stdlib Require Import Floats.SpecFloat.
From stdpp Require Import base list gmap strings.

Local Open Scope string_scope.
Local Open Scope list_scope.
Local Open Scope Z_scope.

(** ** Scalars of the OpenXR and CloudXR headers *)

(** [float] is IEEE binary32. *)
Definition float := spec_float.
Definition f32_prec : Z := 24.
Definition f32_emax : Z := 128.
Definition f32_of_Z (z : Z) : float := binary_normalize f32_prec f32_emax z 0 false.
Definition f32_div : float -> float -> float := SFdiv f32_prec f32_emax.
Definition f32_mul : float -> float -> float := SFmul f32_prec f32_emax.
Definition f32_sub : float -> float -> float := SFsub f32_prec f32_emax.
(** [a > b] on floats *)
Definition f32_gt (a b : float) : bool := SFltb b a.
Definition f32_zero : float := S754_zero false.
Definition f32_one : float := f32_of_Z 1.
(** A decimal literal [n/d] written with an [f] suffix: the binary32 nearest
    to the quotient. *)
Definition f32_lit (n d : Z) : float := f32_div (f32_of_Z n) (f32_of_Z d).

Definition XrResult := Z.
Definition XR_SUCCESS : XrResult := 0.
Definition XR_EVENT_UNAVAILABLE : XrResult := 4.
Definition XR_FAILED (r : XrResult) : bool := r <? 0.
Definition XR_UNQUALIFIED_SUCCESS (r : XrResult) : bool := r =? 0.

(** [XrBool32] is a [uint32_t]; the code compares it with [XR_TRUE]. *)
Definition XrBool32 := Z.
Definition XR_TRUE : XrBool32 := 1.
Definition XR_FALSE : XrBool32 := 0.

Definition XrTime := Z.
Definition XrSession := Z.
Definition XrSwapchain := Z.
Definition XR_NULL_HANDLE : Z := 0.

Definition XR_VIEW_STATE_ORIENTATION_VALID_BIT : Z := 1.
Definition XR_VIEW_STATE_POSITION_VALID_BIT : Z := 2.
Definition XR_SPACE_LOCATION_ORIENTATION_VALID_BIT : Z := 1.
Definition XR_SPACE_LOCATION_POSITION_VALID_BIT : Z := 2.

Definition uint32 (z : Z) : Z := z mod 2 ^ 32.
Definition uint64 (z : Z) : Z := z mod 2 ^ 64.
(** The conversion to [int32_t]: the value congruent modulo 2^32 that lies in
    [-2^31, 2^31). *)
Definition int32 (z : Z) : Z := (z + 2 ^ 31) mod 2 ^ 32 - 2 ^ 31.

Module Side.
Definition LEFT : nat := 0.
Definition RIGHT : nat := 1.
Definition COUNT : nat := 2.
End Side.

Inductive XrSessionState :=
| XR_SESSION_STATE_UNKNOWN
| XR_SESSION_STATE_IDLE
| XR_SESSION_STATE_READY
| XR_SESSION_STATE_SYNCHRONIZED
| XR_SESSION_STATE_VISIBLE
| XR_SESSION_STATE_FOCUSED
| XR_SESSION_STATE_STOPPING
| XR_SESSION_STATE_LOSS_PENDING
| XR_SESSION_STATE_EXITING.

(** ** Geometry and composition structures *)

Record XrVector2f := { v2_x : float; v2_y : float }.
Record XrVector3f := { v3_x : float; v3_y : float; v3_z : float }.
Record XrQuaternionf := { q_x : float; q_y : float; q_z : float; q_w : float }.
Record XrPosef := { orientation : XrQuaternionf; position : XrVector3f }.
Record XrFovf := { angleLeft : float; angleRight : float; angleUp : float; angleDown : float }.
Record XrView := { view_pose : XrPosef; view_fov : XrFovf }.

Definition zero_v2 : XrVector2f := {| v2_x := f32_zero; v2_y := f32_zero |}.
Definition zero_v3 : XrVector3f := {| v3_x := f32_zero; v3_y := f32_zero; v3_z := f32_zero |}.
Definition zero_quat : XrQuaternionf :=
  {| q_x := f32_zero; q_y := f32_zero; q_z := f32_zero; q_w := f32_zero |}.
Definition zero_pose : XrPosef := {| orientation := zero_quat; position := zero_v3 |}.
Definition zero_fov : XrFovf :=
  {| angleLeft := f32_zero; angleRight := f32_zero; angleUp := f32_zero; angleDown := f32_zero |}.

Record XrRect2Di := { offset : Z * Z; extent : Z * Z }.
Record XrSwapchainSubImage :=
  { sub_swapchain : XrSwapchain; imageRect : XrRect2Di; imageArrayIndex : Z }.
Record XrCompositionLayerProjectionView :=
  { pose : XrPosef; fov : XrFovf; subImage : XrSwapchainSubImage }.

(** [{XR_TYPE_COMPOSITION_LAYER_PROJECTION_VIEW}]: every other member zero. *)
Definition new_projection_view : XrCompositionLayerProjectionView :=
  {| pose := zero_pose; fov := zero_fov;
     subImage := {| sub_swapchain := XR_NULL_HANDLE;
                    imageRect := {| offset := (0, 0); extent := (0, 0) |};
                    imageArrayIndex := 0 |} |}.

(** [layer.views] points into the caller's vector; the model keeps the
    elements it points at. *)
Record XrCompositionLayerProjection :=
  { layer_space : Z; viewCount : Z; views : list XrCompositionLayerProjectionView }.

Definition new_layer : XrCompositionLayerProjection :=
  {| layer_space := XR_NULL_HANDLE; viewCount := 0; views := [] |}.

(** [struct Swapchain]: [width] and [height] are [int32_t], as are the members
    of the [XrExtent2Di] they are copied into; a [uint32_t] stored in them is
    converted with [int32]. *)
Record Swapchain := { handle : XrSwapchain; width : Z; height : Z }.

Record XrFrameEndInfoEXT := { useHeadposeExt : Z; gsIndex : Z }.

Record XrFrameEndInfo :=
  { next : XrFrameEndInfoEXT;
    displayTime : XrTime;
    environmentBlendMode : Z;
    layerCount : Z;
    layers : list XrCompositionLayerProjection }.

(** [std::array<T, Side::COUNT>] and [T x[2]]: two slots, indexed by hand. *)
Record array2 (A : Type) := { slot0 : A; slot1 : A }.
Arguments slot0 {A} _.
Arguments slot1 {A} _.

Definition at2 {A} (a : array2 A) (i : nat) : A :=
  match i with O => slot0 a | _ => slot1 a end.
Definition upd2 {A} (i : nat) (x : A) (a : array2 A) : array2 A :=
  match i with
  | O => {| slot0 := x; slot1 := slot1 a |}
  | _ => {| slot0 := slot0 a; slot1 := x |}
  end.

(** ** CloudXR structures *)

(** A 3x4 row-major matrix of floats. *)
Definition cxrMatrix34 := list float.

Record cxrVideoFrame := { texture : Z }.

Record cxrFramesLatched :=
  { poseID : Z; poseMatrix : cxrMatrix34; frames : list cxrVideoFrame }.

Record cxrControllerTrackingState :=
  { booleanComps : Z; scalarComps : list float }.

Record cxrVRTrackingState := { controller : array2 cxrControllerTrackingState }.

(** The members of [cxrButtonId] and [cxrAnalogId] the program names.  The
    enumerations belong to the CloudXR SDK headers. *)
Record cxrButtonId :=
  { cxrButton_System : Z;
    cxrButton_Trigger_Touch : Z;
    cxrButton_A : Z;
    cxrButton_B : Z;
    cxrButton_X : Z;
    cxrButton_Y : Z }.

Record cxrAnalogId :=
  { cxrAnalog_Trigger : nat;
    cxrAnalog_JoystickX : nat;
    cxrAnalog_JoystickY : nat;
    cxrAnalog_Grip : nat;
    cxrAnalog_Num : nat }.

(** ** Action states *)

Record XrActionStateBoolean :=
  { b_currentState : XrBool32; b_changedSinceLastSync : XrBool32; b_isActive : XrBool32 }.
Record XrActionStateFloat := { f_currentState : float; f_isActive : XrBool32 }.
Record XrActionStateVector2f := { v_currentState : XrVector2f; v_isActive : XrBool32 }.
Record XrActionStatePose := { p_isActive : XrBool32 }.

(** The action handles of [InputState], by member name. *)
Inductive Action :=
| grabAction | poseAction | vibrateAction | quitAction
| touchpadAction | homeAction | backAction | sideAction
| triggerAction | joystickAction | batteryAction
| RockerTouchAction | TriggerTouchAction | ThumbrestTouchAction | GripAction
| AAction | BAction | XAction | YAction
| ATouchAction | BTouchAction | XTouchAction | YTouchAction.

Record XrSpaceLocation := { locationFlags : Z; loc_pose : XrPosef }.
Record XrSpaceVelocity := { linearVelocity : XrVector3f; angularVelocity : XrVector3f }.
Record XrFrameState := { predictedDisplayTime : XrTime; shouldRender : XrBool32 }.

Record XrViewLocation :=
  { lv_result : XrResult;
    viewStateFlags : Z;
    lv_gsIndex : Z;
    viewCountOutput : Z;
    lv_views : list XrView }.

(** ** Events of the runtime queue *)

Record XrEventDataSessionStateChanged :=
  { ev_session : XrSession; ev_state : XrSessionState; ev_time : XrTime }.

Inductive XrEvent :=
| XR_TYPE_EVENT_DATA_EVENTS_LOST (lostEventCount : Z)
| XR_TYPE_EVENT_DATA_INSTANCE_LOSS_PENDING (lossTime : XrTime)
| XR_TYPE_EVENT_DATA_SESSION_STATE_CHANGED (ev : XrEventDataSessionStateChanged)
| XR_TYPE_EVENT_CONTROLLER_STATE_CHANGED (controller_id status eventtype : Z)
| XR_TYPE_EVENT_DATA_INTERACTION_PROFILE_CHANGED
| XR_TYPE_EVENT_DATA_REFERENCE_SPACE_CHANGE_PENDING
| XR_TYPE_EVENT_OTHER (type : Z).

(** What one [xrPollEvent] call hands back. *)
Definition PollResult : Type := XrResult * XrEvent.

(** ** The runtime and the CloudXR client, as an oracle for one tick *)

Record Runtime :=
  { xrBeginSession : XrResult;
    xrEndSession : XrResult;
    xrEnumerateBoundSourcesForAction : Action -> XrResult * string;
    xrSyncActions : XrResult;
    xrGetActionStateFloat : Action -> nat -> XrResult * XrActionStateFloat;
    xrGetActionStateBoolean : Action -> nat -> XrResult * XrActionStateBoolean;
    xrGetActionStateVector2f : Action -> nat -> XrResult * XrActionStateVector2f;
    xrGetActionStatePose : Action -> nat -> XrResult * XrActionStatePose;
    xrApplyHapticFeedback : nat -> XrResult;
    xrRequestExitSession : XrResult;
    xrWaitFrame : XrResult * XrFrameState;
    xrBeginFrame : XrResult;
    xrEndFrame : XrResult;
    xrLocateViews : XrViewLocation;
    xrLocateSpace_aim : nat -> XrResult * XrSpaceLocation;
    xrLocateSpace_view : XrResult * XrSpaceLocation * XrSpaceVelocity;
    LatchFrame : bool * cxrFramesLatched;
    xrAcquireSwapchainImage : XrSwapchain -> XrResult * Z;
    xrWaitSwapchainImage : XrSwapchain -> XrResult;
    xrReleaseSwapchainImage : XrSwapchain -> XrResult }.

(** ** Observable effects *)

Inductive Level := Verbose | Info | Warning | Error.

Inductive Event :=
| EvLog (lvl : Level) (msg : string)
| EvXrBeginSession
| EvXrEndSession
| EvXrRequestExitSession
| EvXrApplyHapticFeedback (hand : nat)
| EvSetTrackingState (ts : cxrVRTrackingState)
| EvSetSenserPoseState (head : XrPosef) (lin ang : XrVector3f) (handPose : list XrPosef)
| EvLatchFrame (framevaild : bool)
| EvReleaseFrame (fl : cxrFramesLatched)
| EvXrWaitFrame
| EvXrBeginFrame
| EvXrEndFrame (info : XrFrameEndInfo)
| EvXrAcquireSwapchainImage (sc : XrSwapchain)
| EvXrWaitSwapchainImage (sc : XrSwapchain)
| EvRenderView (view : XrCompositionLayerProjectionView) (image : Z) (format : Z) (tex : Z)
| EvXrReleaseSwapchainImage (sc : XrSwapchain).

(** ** Program state *)

Record InputState :=
  { handScale : array2 float;
    handXYPos : array2 XrVector2f;
    handActive : array2 XrBool32 }.

Record World :=
  { m_session : XrSession;
    m_appSpace : Z;
    m_environmentBlendMode : Z;
    m_configViews : list (Z * Z);
    m_swapchains : list Swapchain;
    m_swapchainImages : gmap Z (list Z);
    m_views : list XrView;
    m_colorSwapchainFormat : Z;
    m_sessionState : XrSessionState;
    m_sessionRunning : bool;
    m_input : InputState;
    m_cloudxr : bool;
    mGsIndex : Z;
    xrFrameEndInfoEXT : XrFrameEndInfoEXT;
    trace : list Event }.

Definition with_sessionState (v : XrSessionState) (w : World) : World :=
  {| m_session := m_session w; m_appSpace := m_appSpace w;
     m_environmentBlendMode := m_environmentBlendMode w;
     m_configViews := m_configViews w; m_swapchains := m_swapchains w;
     m_swapchainImages := m_swapchainImages w; m_views := m_views w;
     m_colorSwapchainFormat := m_colorSwapchainFormat w;
     m_sessionState := v; m_sessionRunning := m_sessionRunning w;
     m_input := m_input w; m_cloudxr := m_cloudxr w; mGsIndex := mGsIndex w;
     xrFrameEndInfoEXT := xrFrameEndInfoEXT w; trace := trace w |}.

Definition with_sessionRunning (v : bool) (w : World) : World :=
  {| m_session := m_session w; m_appSpace := m_appSpace w;
     m_environmentBlendMode := m_environmentBlendMode w;
     m_configViews := m_configViews w; m_swapchains := m_swapchains w;
     m_swapchainImages := m_swapchainImages w; m_views := m_views w;
     m_colorSwapchainFormat := m_colorSwapchainFormat w;
     m_sessionState := m_sessionState w; m_sessionRunning := v;
     m_input := m_input w; m_cloudxr := m_cloudxr w; mGsIndex := mGsIndex w;
     xrFrameEndInfoEXT := xrFrameEndInfoEXT w; trace := trace w |}.

Definition with_input (v : InputState) (w : World) : World :=
  {| m_session := m_session w; m_appSpace := m_appSpace w;
     m_environmentBlendMode := m_environmentBlendMode w;
     m_configViews := m_configViews w; m_swapchains := m_swapchains w;
     m_swapchainImages := m_swapchainImages w; m_views := m_views w;
     m_colorSwapchainFormat := m_colorSwapchainFormat w;
     m_sessionState := m_sessionState w; m_sessionRunning := m_sessionRunning w;
     m_input := v; m_cloudxr := m_cloudxr w; mGsIndex := mGsIndex w;
     xrFrameEndInfoEXT := xrFrameEndInfoEXT w; trace := trace w |}.

Definition with_views (v : list XrView) (w : World) : World :=
  {| m_session := m_session w; m_appSpace := m_appSpace w;
     m_environmentBlendMode := m_environmentBlendMode w;
     m_configViews := m_configViews w; m_swapchains := m_swapchains w;
     m_swapchainImages := m_swapchainImages w; m_views := v;
     m_colorSwapchainFormat := m_colorSwapchainFormat w;
     m_sessionState := m_sessionState w; m_sessionRunning := m_sessionRunning w;
     m_input := m_input w; m_cloudxr := m_cloudxr w; mGsIndex := mGsIndex w;
     xrFrameEndInfoEXT := xrFrameEndInfoEXT w; trace := trace w |}.

Definition with_GsIndex (v : Z) (w : World) : World :=
  {| m_session := m_session w; m_appSpace := m_appSpace w;
     m_environmentBlendMode := m_environmentBlendMode w;
     m_configViews := m_configViews w; m_swapchains := m_swapchains w;
     m_swapchainImages := m_swapchainImages w; m_views := m_views w;
     m_colorSwapchainFormat := m_colorSwapchainFormat w;
     m_sessionState := m_sessionState w; m_sessionRunning := m_sessionRunning w;
     m_input := m_input w; m_cloudxr := m_cloudxr w; mGsIndex := v;
     xrFrameEndInfoEXT := xrFrameEndInfoEXT w; trace := trace w |}.

Definition with_FrameEndInfoEXT (v : XrFrameEndInfoEXT) (w : World) : World :=
  {| m_session := m_session w; m_appSpace := m_appSpace w;
     m_environmentBlendMode := m_environmentBlendMode w;
     m_configViews := m_configViews w; m_swapchains := m_swapchains w;
     m_swapchainImages := m_swapchainImages w; m_views := m_views w;
     m_colorSwapchainFormat := m_colorSwapchainFormat w;
     m_sessionState := m_sessionState w; m_sessionRunning := m_sessionRunning w;
     m_input := m_input w; m_cloudxr := m_cloudxr w; mGsIndex := mGsIndex w;
     xrFrameEndInfoEXT := v; trace := trace w |}.

Definition with_trace (v : list Event) (w : World) : World :=
  {| m_session := m_session w; m_appSpace := m_appSpace w;
     m_environmentBlendMode := m_environmentBlendMode w;
     m_configViews := m_configViews w; m_swapchains := m_swapchains w;
     m_swapchainImages := m_swapchainImages w; m_views := m_views w;
     m_colorSwapchainFormat := m_colorSwapchainFormat w;
     m_sessionState := m_sessionState w; m_sessionRunning := m_sessionRunning w;
     m_input := m_input w; m_cloudxr := m_cloudxr w; mGsIndex := mGsIndex w;
     xrFrameEndInfoEXT := xrFrameEndInfoEXT w; trace := v |}.

(** ** A state-and-exception monad

    A computation runs on the members ([World]) and on the locals [L] of the
    function it belongs to; it returns, or it throws and leaves the state it
    had reached. *)

Inductive Exn :=
| CheckFailed (what : string)
| XrResultError (res : XrResult) (originator : string)
| Undefined (what : string).

Inductive Outcome (L A : Type) :=
| Ret (a : A) (w : World) (l : L)
| Thrown (e : Exn) (w : World) (l : L).
Arguments Ret {L A} a w l.
Arguments Thrown {L A} e w l.

Definition M (L A : Type) : Type := World -> L -> Outcome L A.

Definition ret {L A} (a : A) : M L A := fun w l => Ret a w l.

Definition bind {L A B} (m : M L A) (k : A -> M L B) : M L B :=
  fun w l =>
    match m w l with
    | Ret a w' l' => k a w' l'
    | Thrown e w' l' => Thrown e w' l'
    end.

Notation "x <- c ;; k" := (bind c (fun x => k))
  (at level 100, c at next level, right associativity).
Notation "c ;; k" := (bind c (fun _ => k))
  (at level 100, right associativity).

Definition throw {L A} (e : Exn) : M L A := fun w l => Thrown e w l.
Definition member {L A} (f : World -> A) : M L A := fun w l => Ret (f w) w l.
Definition local {L A} (f : L -> A) : M L A := fun w l => Ret (f l) w l.
Definition set_member {L} (f : World -> World) : M L unit := fun w l => Ret tt (f w) l.
Definition set_local {L} (f : L -> L) : M L unit := fun w l => Ret tt w (f l).

Definition emit {L} (e : Event) : M L unit :=
  set_member (fun w => with_trace (trace w ++ [e]) w).

Definition Log_Write {L} (lvl : Level) (msg : string) : M L unit := emit (EvLog lvl msg).

Definition when {L} (c : bool) (m : M L unit) : M L unit := if c then m else ret tt.

(** [for (x : xs) body] *)
Fixpoint for_each {L A} (xs : list A) (body : A -> M L unit) : M L unit :=
  match xs with
  | [] => ret tt
  | x :: xs' => body x ;; for_each xs' body
  end.

(** Run a callee on fresh locals [l0]; its final locals come back with its
    return value (reference parameters). *)
Definition call {L L' A} (l0 : L') (m : M L' A) : M L (A * L') :=
  fun w l =>
    match m w l0 with
    | Ret a w' l' => Ret (a, l') w' l
    | Thrown e w' _ => Thrown e w' l
    end.

(** Modelled from the spec: the checking macros of [check.h], which is not
    among the sources.  "Any failure of a required runtime call whose return
    code indicates a broken handle or invalid call sequence" aborts: [CHECK]
    throws when its condition is false, [CHECK_XRCMD] and [CHECK_XRRESULT]
    throw when the result is a failure code, [THROW_XR] always throws. *)
Definition CHECK {L} (c : bool) (what : string) : M L unit :=
  if c then ret tt else throw (CheckFailed what).
Definition THROW_XR {L A} (xr : XrResult) (cmd : string) : M L A :=
  throw (XrResultError xr cmd).
Definition CHECK_XRRESULT {L} (res : XrResult) (cmd : string) : M L unit :=
  if XR_FAILED res then THROW_XR res cmd else ret tt.
Definition CHECK_XRCMD {L} (res : XrResult) (cmd : string) : M L unit :=
  CHECK_XRRESULT res cmd.

(** Reads and writes of fixed-size arrays.  An index outside the array is
    undefined behaviour in the source. *)
Definition array_get {L A} (l : list A) (i : nat) (what : string) : M L A :=
  match l !! i with
  | Some x => ret x
  | None => throw (Undefined what)
  end.

Definition array_set {A} (l : list A) (i : nat) (x : A) : option (list A) :=
  if decide (i < length l)%nat then Some (<[i := x]> l) else None.

(** ** Session state machine *)

(** The two [bool*] out-parameters of [PollEvents]. *)
Record Flags := { exitRenderLoop : bool; requestRestart : bool }.

Definition set_exitRenderLoop (v : bool) (f : Flags) : Flags :=
  {| exitRenderLoop := v; requestRestart := requestRestart f |}.
Definition set_requestRestart (v : bool) (f : Flags) : Flags :=
  {| exitRenderLoop := exitRenderLoop f; requestRestart := v |}.

(** [TryReadNextEvent], given what [xrPollEvent] answered: the event, or
    [None] for [nullptr].  The pending queue holds the answers to come; once
    it is empty [xrPollEvent] answers [XR_EVENT_UNAVAILABLE].  The member
    [m_eventDataBuffer], which every call resets and [xrPollEvent] fills, is
    the storage of the answer: it is not a member of [World], the event it
    holds is the value handed to the loop.  The [xrPollEvent] call itself is
    not an [Event] of the trace. *)
Definition TryReadNextEvent {L} (r : PollResult) : M L (option XrEvent) :=
  let '(xr, baseHeader) := r in
  if xr =? XR_SUCCESS then
    match baseHeader with
    | XR_TYPE_EVENT_DATA_EVENTS_LOST _ => Log_Write Warning "%d events lost"
    | _ => ret tt
    end ;;
    ret (Some baseHeader)
  else if xr =? XR_EVENT_UNAVAILABLE then ret None
  else THROW_XR xr "xrPollEvent".

Definition HandleSessionStateChangedEvent (rt : Runtime)
    (stateChangedEvent : XrEventDataSessionStateChanged) : M Flags unit :=
  oldState <- member m_sessionState ;;
  set_member (with_sessionState (ev_state stateChangedEvent)) ;;
  Log_Write Info "XrEventDataSessionStateChanged: state %s->%s session=%lld time=%lld" ;;
  session <- member m_session ;;
  if negb (ev_session stateChangedEvent =? XR_NULL_HANDLE)
     && negb (ev_session stateChangedEvent =? session) then
    Log_Write Error "XrEventDataSessionStateChanged for unknown session"
    (* return *)
  else
    sessionState <- member m_sessionState ;;
    match sessionState with
    | XR_SESSION_STATE_READY =>
        CHECK (negb (session =? XR_NULL_HANDLE)) "m_session != XR_NULL_HANDLE" ;;
        emit EvXrBeginSession ;;
        CHECK_XRCMD (xrBeginSession rt) "xrBeginSession" ;;
        set_member (with_sessionRunning true)
    | XR_SESSION_STATE_STOPPING =>
        CHECK (negb (session =? XR_NULL_HANDLE)) "m_session != XR_NULL_HANDLE" ;;
        set_member (with_sessionRunning false) ;;
        emit EvXrEndSession ;;
        CHECK_XRCMD (xrEndSession rt) "xrEndSession"
    | XR_SESSION_STATE_EXITING =>
        set_local (set_exitRenderLoop true) ;;
        (* Do not attempt to restart because user closed this session. *)
        set_local (set_requestRestart false)
    | XR_SESSION_STATE_LOSS_PENDING =>
        set_local (set_exitRenderLoop true) ;;
        (* Poll for a new instance. *)
        set_local (set_requestRestart true)
    | _ => ret tt
    end.

(** [LogActionSourceName]: the enumeration of the bound sources and of their
    localized names is one oracle answer, a result code and the joined names. *)
Definition LogActionSourceName {L} (rt : Runtime) (action : Action) (actionName : string)
    : M L unit :=
  let '(res, sourceName) := xrEnumerateBoundSourcesForAction rt action in
  CHECK_XRCMD res "xrEnumerateBoundSourcesForAction" ;;
  Log_Write Info
    (actionName ++ " action is bound to "
       ++ (if decide (sourceName = EmptyString) then "nothing" else sourceName))%string.

(** How a [switch] case inside the polling loop leaves: [break] goes on with
    the loop, [return] leaves [PollEvents]. *)
Inductive Control := Break | Return.

Definition PollEvents_switch (rt : Runtime) (event : XrEvent) : M Flags Control :=
  match event with
  | XR_TYPE_EVENT_DATA_INSTANCE_LOSS_PENDING _ =>
      Log_Write Warning "XrEventDataInstanceLossPending by %lld" ;;
      set_local (set_exitRenderLoop true) ;;
      set_local (set_requestRestart true) ;;
      ret Return
  | XR_TYPE_EVENT_DATA_SESSION_STATE_CHANGED sessionStateChangedEvent =>
      HandleSessionStateChangedEvent rt sessionStateChangedEvent ;;
      ret Break
  | XR_TYPE_EVENT_CONTROLLER_STATE_CHANGED _ _ _ =>
      Log_Write Info "controller event callback controller %d, status %d  eventtype %d" ;;
      ret Break
  | XR_TYPE_EVENT_DATA_INTERACTION_PROFILE_CHANGED =>
      LogActionSourceName rt grabAction "Grab" ;;
      LogActionSourceName rt quitAction "Quit" ;;
      LogActionSourceName rt poseAction "Pose" ;;
      LogActionSourceName rt vibrateAction "Vibrate" ;;
      ret Break
  | _ =>
      Log_Write Info "Ignoring event type %d" ;;
      ret Break
  end.

(** [while (const XrEventDataBaseHeader* event = TryReadNextEvent()) ...]:
    every iteration takes one answer off the queue; what is left of the queue
    is returned. *)
Fixpoint PollEvents_loop (rt : Runtime) (queue : list PollResult)
    : M Flags (list PollResult) :=
  match queue with
  | [] => ret [] (* XR_EVENT_UNAVAILABLE: TryReadNextEvent returns nullptr *)
  | r :: rest =>
      event <- TryReadNextEvent r ;;
      match event with
      | None => ret rest
      | Some event =>
          c <- PollEvents_switch rt event ;;
          match c with
          | Return => ret rest
          | Break => PollEvents_loop rt rest
          end
      end
  end.

Definition PollEvents (rt : Runtime) (queue : list PollResult) : M Flags (list PollResult) :=
  set_local (fun _ => {| exitRenderLoop := false; requestRestart := false |}) ;;
  (* Process all pending messages. *)
  PollEvents_loop rt queue.

Definition IsSessionRunning (w : World) : bool := m_sessionRunning w.

Definition IsSessionFocused (w : World) : bool :=
  match m_sessionState w with XR_SESSION_STATE_FOCUSED => true | _ => false end.

(** ** Input relay *)

(** The locals of [PollActions]. *)
Record PollLocals := { ret_ : bool; trackingState : cxrVRTrackingState }.

Definition set_ret (v : bool) (l : PollLocals) : PollLocals :=
  {| ret_ := v; trackingState := trackingState l |}.
Definition set_trackingState (v : cxrVRTrackingState) (l : PollLocals) : PollLocals :=
  {| ret_ := ret_ l; trackingState := v |}.

Definition set_handScale {L} (hand : nat) (v : float) : M L unit :=
  set_member (fun w =>
    with_input {| handScale := upd2 hand v (handScale (m_input w));
                  handXYPos := handXYPos (m_input w);
                  handActive := handActive (m_input w) |} w).

Definition set_handXYPos {L} (hand : nat) (v : XrVector2f) : M L unit :=
  set_member (fun w =>
    with_input {| handScale := handScale (m_input w);
                  handXYPos := upd2 hand v (handXYPos (m_input w));
                  handActive := handActive (m_input w) |} w).

Definition set_handActive {L} (v : array2 XrBool32) : M L unit :=
  set_member (fun w =>
    with_input {| handScale := handScale (m_input w);
                  handXYPos := handXYPos (m_input w);
                  handActive := v |} w).

Definition get_ActionStateFloat {L} (rt : Runtime) (a : Action) (hand : nat)
    : M L XrActionStateFloat :=
  let '(res, v) := xrGetActionStateFloat rt a hand in
  CHECK_XRCMD res "xrGetActionStateFloat" ;; ret v.

Definition get_ActionStateBoolean {L} (rt : Runtime) (a : Action) (hand : nat)
    : M L XrActionStateBoolean :=
  let '(res, v) := xrGetActionStateBoolean rt a hand in
  CHECK_XRCMD res "xrGetActionStateBoolean" ;; ret v.

Definition get_ActionStateVector2f {L} (rt : Runtime) (a : Action) (hand : nat)
    : M L XrActionStateVector2f :=
  let '(res, v) := xrGetActionStateVector2f rt a hand in
  CHECK_XRCMD res "xrGetActionStateVector2f" ;; ret v.

Definition get_ActionStatePose {L} (rt : Runtime) (a : Action) (hand : nat)
    : M L XrActionStatePose :=
  let '(res, v) := xrGetActionStatePose rt a hand in
  CHECK_XRCMD res "xrGetActionStatePose" ;; ret v.

Section CloudXR.

(** The enumerators of the CloudXR SDK and the two pose-matrix decoders of
    [CloudXRClient] (cloudXRClient.h), none of which is among the sources. *)
Variable btn : cxrButtonId.
Variable ana : cxrAnalogId.
Variable cxrToQuaternion : cxrMatrix34 -> XrQuaternionf.
Variable cxrGetTranslation : cxrMatrix34 -> XrVector3f.

(** [cxrVRTrackingState trackingState{}] *)
Definition zero_controller : cxrControllerTrackingState :=
  {| booleanComps := 0; scalarComps := replicate (cxrAnalog_Num ana) f32_zero |}.
Definition zero_trackingState : cxrVRTrackingState :=
  {| controller := {| slot0 := zero_controller; slot1 := zero_controller |} |}.

(** [trackingState.controller[hand].booleanComps |= 1UL << button] *)
Definition or_bit (hand : nat) (button : Z) (l : PollLocals) : PollLocals :=
  let c := at2 (controller (trackingState l)) hand in
  set_trackingState
    {| controller :=
         upd2 hand {| booleanComps := Z.lor (booleanComps c) (uint64 (Z.shiftl 1 button));
                      scalarComps := scalarComps c |}
              (controller (trackingState l)) |} l.

Definition or_booleanComps (hand : nat) (button : Z) : M PollLocals unit :=
  set_local (or_bit hand button).

(** [trackingState.controller[hand].scalarComps[analog] = v] *)
Definition set_scalarComps (hand : nat) (analog : nat) (v : float) : M PollLocals unit :=
  ts <- local trackingState ;;
  let c := at2 (controller ts) hand in
  match array_set (scalarComps c) analog v with
  | Some comps =>
      set_local (set_trackingState
        {| controller :=
             upd2 hand {| booleanComps := booleanComps c; scalarComps := comps |}
                  (controller ts) |})
  | None => throw (Undefined "scalarComps index")
  end.

(** The body of [for (auto hand : {Side::LEFT, Side::RIGHT})] in [PollActions]. *)
Definition PollActions_hand (rt : Runtime) (hand : nat) : M PollLocals unit :=
  grabValue <- get_ActionStateFloat rt grabAction hand ;;
  when (f_isActive grabValue =? XR_TRUE) (
    (* Scale the rendered hand by 1.0f (open) to 0.5f (fully squeezed). *)
    set_handScale hand (f32_sub f32_one (f32_mul (f32_lit 1 2) (f_currentState grabValue))) ;;
    when (f32_gt (f_currentState grabValue) (f32_lit 9 10)) (
      emit (EvXrApplyHapticFeedback hand) ;;
      CHECK_XRCMD (xrApplyHapticFeedback rt hand) "xrApplyHapticFeedback")) ;;

  quitValue <- get_ActionStateBoolean rt quitAction hand ;;
  when ((b_isActive quitValue =? XR_TRUE) && (b_changedSinceLastSync quitValue =? XR_TRUE)
        && (b_currentState quitValue =? XR_TRUE)) (
    emit EvXrRequestExitSession ;;
    CHECK_XRCMD (xrRequestExitSession rt) "xrRequestExitSession") ;;

  touchpadValue <- get_ActionStateBoolean rt touchpadAction hand ;;
  (* joystick key down/up *)
  when ((b_isActive touchpadValue =? XR_TRUE)
        && (b_changedSinceLastSync touchpadValue =? XR_TRUE)) (
    if b_currentState touchpadValue =? XR_TRUE then
      Log_Write Error "pico keyevent  touchpadValue pressed %d" ;;
      set_handScale hand (f32_div (f32_lit 1 100) (f32_lit 1 10))
    else
      Log_Write Error "pico keyevent  touchpadValue released %d" ;;
      set_handScale hand f32_one) ;;

  (* home button *)
  homeValue <- get_ActionStateBoolean rt homeAction hand ;;
  when (b_isActive homeValue =? XR_TRUE) (
    when (b_changedSinceLastSync homeValue =? XR_TRUE) (
      if b_currentState homeValue =? XR_TRUE then
        Log_Write Error "pico keyevent  homekey pressed %d xxx" ;;
        or_booleanComps hand (cxrButton_System btn)
      else
        Log_Write Error "pico keyevent  homekey released %d xxx")) ;;

  backValue <- get_ActionStateBoolean rt backAction hand ;;
  when ((b_isActive backValue =? XR_TRUE) && (b_changedSinceLastSync backValue =? XR_TRUE)) (
    if b_currentState backValue =? XR_TRUE then
      Log_Write Error "pico keyevent  backkey pressed %d"
    else
      Log_Write Error "pico keyevent  backkey released %d" ;;
      set_local (set_ret true)) ;;

  sideValue <- get_ActionStateBoolean rt sideAction hand ;;
  when ((b_isActive sideValue =? XR_TRUE) && (b_changedSinceLastSync sideValue =? XR_TRUE)) (
    if b_currentState sideValue =? XR_TRUE then
      Log_Write Error "pico keyevent  sidekey pressed %d" ;;
      set_handScale hand (f32_div (f32_lit 1 4) (f32_lit 1 10))
    else
      Log_Write Error "pico keyevent  sidekey released %d" ;;
      set_handScale hand f32_one) ;;

  (* trigger value *)
  triggerValue <- get_ActionStateFloat rt triggerAction hand ;;
  when (f_isActive triggerValue =? XR_TRUE) (
    let trigger := f_currentState triggerValue in
    set_scalarComps hand (cxrAnalog_Trigger ana) trigger) ;;

  (* joystick x/y *)
  joystickValue <- get_ActionStateVector2f rt joystickAction hand ;;
  when (v_isActive joystickValue =? XR_TRUE) (
    set_handXYPos hand (v_currentState joystickValue) ;;
    set_scalarComps hand (cxrAnalog_JoystickX ana) (v2_x (v_currentState joystickValue)) ;;
    set_scalarComps hand (cxrAnalog_JoystickY ana) (v2_y (v_currentState joystickValue))) ;;

  batteryValue <- get_ActionStateFloat rt batteryAction hand ;;
  when (f_isActive batteryValue =? XR_TRUE) (ret tt) ;;

  RockerTouch <- get_ActionStateBoolean rt RockerTouchAction hand ;;
  when (b_isActive RockerTouch =? XR_TRUE) (
    when ((b_changedSinceLastSync RockerTouch =? XR_TRUE)
          && (b_currentState RockerTouch =? XR_TRUE)) (
      Log_Write Error "pico keyevent  RockerTouch click %d")) ;;

  (* trigger touch *)
  TriggerTouch <- get_ActionStateBoolean rt TriggerTouchAction hand ;;
  when (b_isActive TriggerTouch =? XR_TRUE) (
    when ((b_changedSinceLastSync TriggerTouch =? XR_TRUE)
          && (b_currentState TriggerTouch =? XR_TRUE)) (
      Log_Write Error "pico keyevent  TriggerTouch click %d" ;;
      or_booleanComps hand (cxrButton_Trigger_Touch btn))) ;;

  ThumbrestTouch <- get_ActionStateBoolean rt ThumbrestTouchAction hand ;;
  when (b_isActive ThumbrestTouch =? XR_TRUE) (
    when ((b_changedSinceLastSync ThumbrestTouch =? XR_TRUE)
          && (b_currentState ThumbrestTouch =? XR_TRUE)) (
      Log_Write Error "pico keyevent  ThumbrestTouch click %d")) ;;

  gripValue <- get_ActionStateFloat rt GripAction hand ;;
  when (f_isActive gripValue =? XR_TRUE) (
    set_scalarComps hand (cxrAnalog_Grip ana) (f_currentState gripValue)) ;;

  BValue <- get_ActionStateBoolean rt BAction hand ;;
  when ((b_isActive BValue =? XR_TRUE) && (b_changedSinceLastSync BValue =? XR_TRUE)) (
    if b_currentState BValue =? XR_TRUE then
      Log_Write Error "pico keyevent  Bkey pressed %d" ;;
      set_handScale hand (f32_div (f32_lit 15 100) (f32_lit 1 10)) ;;
      or_booleanComps hand (cxrButton_B btn)
    else
      Log_Write Error "pico keyevent  Bkey released %d" ;;
      set_handScale hand f32_one) ;;

  YValue <- get_ActionStateBoolean rt YAction hand ;;
  when ((b_isActive YValue =? XR_TRUE) && (b_changedSinceLastSync YValue =? XR_TRUE)) (
    if b_currentState YValue =? XR_TRUE then
      Log_Write Error "pico keyevent  Ykey pressed %d" ;;
      set_handScale hand (f32_div (f32_lit 15 100) (f32_lit 1 10)) ;;
      or_booleanComps hand (cxrButton_Y btn)
    else
      Log_Write Error "pico keyevent  Ykey released %d" ;;
      set_handScale hand f32_one) ;;

  AValue <- get_ActionStateBoolean rt AAction hand ;;
  when ((b_isActive AValue =? XR_TRUE) && (b_changedSinceLastSync AValue =? XR_TRUE)) (
    if b_currentState AValue =? XR_TRUE then
      Log_Write Error "pico keyevent  Akey pressed %d" ;;
      set_handScale hand (f32_div (f32_lit 5 100) (f32_lit 1 10)) ;;
      or_booleanComps hand (cxrButton_A btn)
    else
      Log_Write Error "pico keyevent  Akey released %d" ;;
      set_handScale hand f32_one) ;;

  (* x button *)
  XValue <- get_ActionStateBoolean rt XAction hand ;;
  when ((b_isActive XValue =? XR_TRUE) && (b_changedSinceLastSync XValue =? XR_TRUE)) (
    if b_currentState XValue =? XR_TRUE then
      Log_Write Error "pico keyevent  Xkey pressed %d" ;;
      set_handScale hand (f32_div (f32_lit 5 100) (f32_lit 1 10)) ;;
      or_booleanComps hand (cxrButton_X btn)
    else
      Log_Write Error "pico keyevent  Xkey released %d" ;;
      set_handScale hand f32_one) ;;

  Atouch <- get_ActionStateBoolean rt ATouchAction hand ;;
  when (b_isActive Atouch =? XR_TRUE) (
    when ((b_changedSinceLastSync Atouch =? XR_TRUE) && (b_currentState Atouch =? XR_TRUE)) (
      Log_Write Error "pico keyevent  Atouch %d")) ;;

  Xtouch <- get_ActionStateBoolean rt XTouchAction hand ;;
  when (b_isActive Xtouch =? XR_TRUE) (
    when ((b_changedSinceLastSync Xtouch =? XR_TRUE) && (b_currentState Xtouch =? XR_TRUE)) (
      Log_Write Error "pico keyevent  Xtouch %d")) ;;

  Btouch <- get_ActionStateBoolean rt BTouchAction hand ;;
  when (b_isActive Btouch =? XR_TRUE) (
    when ((b_changedSinceLastSync Btouch =? XR_TRUE) && (b_currentState Btouch =? XR_TRUE)) (
      Log_Write Error "pico keyevent  Btouch %d")) ;;

  Ytouch <- get_ActionStateBoolean rt YTouchAction hand ;;
  when (b_isActive Ytouch =? XR_TRUE) (
    when ((b_changedSinceLastSync Ytouch =? XR_TRUE) && (b_currentState Ytouch =? XR_TRUE)) (
      Log_Write Error "pico keyevent  Ytouch %d")) ;;

  poseState <- get_ActionStatePose rt poseAction hand ;;
  handActive0 <- member (fun w => handActive (m_input w)) ;;
  set_handActive (upd2 hand (p_isActive poseState) handActive0).

Definition PollActions (rt : Runtime) : M PollLocals bool :=
  set_local (set_ret false) ;;
  set_handActive {| slot0 := XR_FALSE; slot1 := XR_FALSE |} ;;
  (* Sync actions *)
  CHECK_XRCMD (xrSyncActions rt) "xrSyncActions" ;;
  set_local (set_trackingState zero_trackingState) ;;
  (* Get pose and grab action state and start haptic vibrate when hand is 90% squeezed. *)
  for_each [Side.LEFT; Side.RIGHT] (PollActions_hand rt) ;;
  cloudxr <- member m_cloudxr ;;
  when cloudxr (
    trackingState <- local trackingState ;;
    emit (EvSetTrackingState trackingState)) ;;
  local ret_.

(** ** Frame compositor *)

(** The reference parameters and the mutable locals of [RenderLayer].
    [pose_] is [XrPosef pose[Side::COUNT]]: a slot holds [None] until it is
    first assigned. *)
Record RenderLocals :=
  { projectionLayerViews : list XrCompositionLayerProjectionView;
    layer : XrCompositionLayerProjection;
    handPose : list XrPosef;
    pose_ : list (option XrPosef) }.

Definition set_projectionLayerViews (v : list XrCompositionLayerProjectionView)
    (l : RenderLocals) : RenderLocals :=
  {| projectionLayerViews := v; layer := layer l; handPose := handPose l; pose_ := pose_ l |}.
Definition set_layer (v : XrCompositionLayerProjection) (l : RenderLocals) : RenderLocals :=
  {| projectionLayerViews := projectionLayerViews l; layer := v;
     handPose := handPose l; pose_ := pose_ l |}.
Definition set_handPose (v : list XrPosef) (l : RenderLocals) : RenderLocals :=
  {| projectionLayerViews := projectionLayerViews l; layer := layer l;
     handPose := v; pose_ := pose_ l |}.
Definition set_pose_ (v : list (option XrPosef)) (l : RenderLocals) : RenderLocals :=
  {| projectionLayerViews := projectionLayerViews l; layer := layer l;
     handPose := handPose l; pose_ := v |}.

(** What [xrLocateViews] leaves in the caller's buffer of [m_views.size()]
    elements: the located views over its first elements. *)
Definition write_views (located buffer : list XrView) : list XrView :=
  take (length buffer) (located ++ drop (length located) buffer).

(** [pose[i] = v] *)
Definition assign_pose (i : nat) (v : XrPosef) : M RenderLocals unit :=
  arr <- local pose_ ;;
  match array_set arr i (Some v) with
  | Some arr' => set_local (set_pose_ arr')
  | None => throw (Undefined "pose[i]")
  end.

Definition with_position (v : XrVector3f) (p : XrPosef) : XrPosef :=
  {| orientation := orientation p; position := v |}.
Definition with_orientation (v : XrQuaternionf) (p : XrPosef) : XrPosef :=
  {| orientation := v; position := position p |}.

(** [pose[i]] read as a value *)
Definition read_pose (i : nat) : M RenderLocals XrPosef :=
  arr <- local pose_ ;;
  slot <- array_get arr i "pose[i]" ;;
  match slot with
  | Some v => ret v
  | None => throw (Undefined "pose[i] is uninitialised")
  end.

(** The body of the hand loop of [RenderLayer]. *)
Definition RenderLayer_hand (rt : Runtime) (hand : nat) : M RenderLocals unit :=
  let '(res, spaceLocation) := xrLocateSpace_aim rt hand in
  CHECK_XRRESULT res "xrLocateSpace" ;;
  if XR_UNQUALIFIED_SUCCESS res then
    when (negb (Z.land (locationFlags spaceLocation) XR_SPACE_LOCATION_POSITION_VALID_BIT =? 0)
          && negb (Z.land (locationFlags spaceLocation)
                          XR_SPACE_LOCATION_ORIENTATION_VALID_BIT =? 0)) (
      set_local (fun l => set_handPose (handPose l ++ [loc_pose spaceLocation]) l))
  else
    (* Tracking loss is expected when the hand is not active so only log a message
       if the hand is active. *)
    active <- member (fun w => at2 (handActive (m_input w)) hand) ;;
    when (active =? XR_TRUE) (
      Log_Write Info "Unable to locate %s hand action space in app space: %d").

(** The body of the view loop of [RenderLayer]: each view has a separate
    swapchain which is acquired, rendered to, and released. *)
Definition RenderLayer_view (rt : Runtime) (framesLatched : cxrFramesLatched) (i : nat)
    : M RenderLocals unit :=
  swapchains <- member m_swapchains ;;
  viewSwapchain <- array_get swapchains i "m_swapchains[i]" ;;

  emit (EvXrAcquireSwapchainImage (handle viewSwapchain)) ;;
  let '(res, swapchainImageIndex) := xrAcquireSwapchainImage rt (handle viewSwapchain) in
  CHECK_XRCMD res "xrAcquireSwapchainImage" ;;

  emit (EvXrWaitSwapchainImage (handle viewSwapchain)) ;;
  CHECK_XRCMD (xrWaitSwapchainImage rt (handle viewSwapchain)) "xrWaitSwapchainImage" ;;

  pose_i <- read_pose i ;;
  views <- member m_views ;;
  view_i <- array_get views i "m_views[i]" ;;
  let projectionLayerView :=
    {| pose := pose_i;
       fov := view_fov view_i;
       subImage := {| sub_swapchain := handle viewSwapchain;
                      imageRect := {| offset := (0, 0);
                                      extent := (width viewSwapchain, height viewSwapchain) |};
                      imageArrayIndex := 0 |} |} in
  plv <- local projectionLayerViews ;;
  match array_set plv i projectionLayerView with
  | Some plv' => set_local (set_projectionLayerViews plv')
  | None => throw (Undefined "projectionLayerViews[i]")
  end ;;

  images <- member m_swapchainImages ;;
  swapchainImage <-
    match images !! handle viewSwapchain with
    | Some imgs => array_get imgs (Z.to_nat swapchainImageIndex)
                     "m_swapchainImages[viewSwapchain.handle][swapchainImageIndex]"
    | None => throw (Undefined "m_swapchainImages[viewSwapchain.handle][swapchainImageIndex]")
    end ;;
  format <- member m_colorSwapchainFormat ;;
  frame_i <- array_get (frames framesLatched) i "framesLatched.frames[i]" ;;
  emit (EvRenderView projectionLayerView swapchainImage format (texture frame_i)) ;;

  emit (EvXrReleaseSwapchainImage (handle viewSwapchain)) ;;
  CHECK_XRCMD (xrReleaseSwapchainImage rt (handle viewSwapchain)) "xrReleaseSwapchainImage".

Definition RenderLayer (rt : Runtime) (predictedDisplayTime : XrTime) : M RenderLocals bool :=
  views0 <- member m_views ;;
  let viewCapacityInput := uint32 (Z.of_nat (length views0)) in
  let located := xrLocateViews rt in
  let res := lv_result located in
  let viewCountOutput := viewCountOutput located in
  set_member (with_views (write_views (lv_views located) views0)) ;;
  set_member (with_GsIndex (lv_gsIndex located)) ;;
  CHECK_XRRESULT res "xrLocateViews" ;;
  when ((Z.land (viewStateFlags located) XR_VIEW_STATE_POSITION_VALID_BIT =? 0)
        || (Z.land (viewStateFlags located) XR_VIEW_STATE_ORIENTATION_VALID_BIT =? 0)) (
    (* keep submitting layers to support boundary logic *)
    (* return false;  There is no valid tracking poses for the views. *)
    ret tt) ;;

  configViews <- member m_configViews ;;
  swapchains <- member m_swapchains ;;
  CHECK (viewCountOutput =? viewCapacityInput) "viewCountOutput == viewCapacityInput" ;;
  CHECK (viewCountOutput =? Z.of_nat (length configViews))
        "viewCountOutput == m_configViews.size()" ;;
  CHECK (viewCountOutput =? Z.of_nat (length swapchains))
        "viewCountOutput == m_swapchains.size()" ;;

  set_local (fun l =>
    set_projectionLayerViews
      (resize (Z.to_nat viewCountOutput) new_projection_view (projectionLayerViews l)) l) ;;

  set_local (set_handPose []) ;;
  for_each [Side.LEFT; Side.RIGHT] (RenderLayer_hand rt) ;;

  let '(res, spaceLocation, velocity) := xrLocateSpace_view rt in
  CHECK_XRRESULT res "xrLocateSpace" ;;

  cloudxr <- member m_cloudxr ;;
  (if cloudxr then ret tt else throw (Undefined "m_cloudxr is null")) ;;
  handPose <- local handPose ;;
  emit (EvSetSenserPoseState (loc_pose spaceLocation) (linearVelocity velocity)
                             (angularVelocity velocity) handPose) ;;

  let '(framevaild, framesLatched) := LatchFrame rt in
  emit (EvLatchFrame framevaild) ;;

  set_local (set_pose_ (replicate Side.COUNT None)) ;;
  for_each (seq 0 (Z.to_nat viewCountOutput)) (fun i =>
    views <- member m_views ;;
    view_i <- array_get views i "m_views[i]" ;;
    assign_pose i (view_pose view_i)) ;;
  (if framevaild then
     let orientation := cxrToQuaternion (poseMatrix framesLatched) in
     let position := cxrGetTranslation (poseMatrix framesLatched) in
     (* todo get views pose *)
     for_each (seq 0 (Z.to_nat viewCountOutput)) (fun i =>
       p <- read_pose i ;;
       assign_pose i (with_position position p) ;;
       p <- read_pose i ;;
       assign_pose i (with_orientation orientation p))
   else
     Log_Write Info "not get framesLatched") ;;

  (* Render view to the appropriate part of the swapchain image. *)
  for_each (seq 0 (Z.to_nat viewCountOutput)) (RenderLayer_view rt framesLatched) ;;

  when framevaild (emit (EvReleaseFrame framesLatched)) ;;

  appSpace <- member m_appSpace ;;
  plv <- local projectionLayerViews ;;
  set_local (set_layer {| layer_space := appSpace;
                          viewCount := uint32 (Z.of_nat (length plv));
                          views := plv |}) ;;
  ret true.

Definition RenderFrame (rt : Runtime) : M unit unit :=
  session <- member m_session ;;
  CHECK (negb (session =? XR_NULL_HANDLE)) "m_session != XR_NULL_HANDLE" ;;

  emit EvXrWaitFrame ;;
  let '(res, frameState) := xrWaitFrame rt in
  CHECK_XRCMD res "xrWaitFrame" ;;

  emit EvXrBeginFrame ;;
  CHECK_XRCMD (xrBeginFrame rt) "xrBeginFrame" ;;

  layers <-
    (if shouldRender frameState =? XR_TRUE then
       r <- call {| projectionLayerViews := []; layer := new_layer;
                    handPose := []; pose_ := [] |}
                 (RenderLayer rt (predictedDisplayTime frameState)) ;;
       let '(rendered, locals) := r in
       ret (if rendered : bool then [layer locals] else [])
     else ret []) ;;

  gs <- member mGsIndex ;;
  set_member (with_FrameEndInfoEXT {| useHeadposeExt := 1; gsIndex := gs |}) ;;
  ext <- member xrFrameEndInfoEXT ;;
  blend <- member m_environmentBlendMode ;;
  emit (EvXrEndFrame {| next := ext;
                        displayTime := predictedDisplayTime frameState;
                        environmentBlendMode := blend;
                        layerCount := uint32 (Z.of_nat (length layers));
                        layers := layers |}) ;;
  CHECK_XRCMD (xrEndFrame rt) "xrEndFrame".

(** ** What a tick computes, as functions of the runtime's answers *)

Definition button_state (rt : Runtime) (a : Action) (hand : nat) : XrActionStateBoolean :=
  snd (xrGetActionStateBoolean rt a hand).
Definition float_state (rt : Runtime) (a : Action) (hand : nat) : XrActionStateFloat :=
  snd (xrGetActionStateFloat rt a hand).
Definition joystick_state (rt : Runtime) (hand : nat) : XrActionStateVector2f :=
  snd (xrGetActionStateVector2f rt joystickAction hand).

(** Sampled as {active, changed, state} = {true, true, true}. *)
Definition rising_edge (s : XrActionStateBoolean) : bool :=
  (b_isActive s =? XR_TRUE) && (b_changedSinceLastSync s =? XR_TRUE)
  && (b_currentState s =? XR_TRUE).

(** Sampled active and changed, with a state that is not [XR_TRUE]. *)
Definition release_edge (s : XrActionStateBoolean) : bool :=
  (b_isActive s =? XR_TRUE) && (b_changedSinceLastSync s =? XR_TRUE)
  && negb (b_currentState s =? XR_TRUE).

Definition put_scalar (hand : nat) (analog : nat) (v : float) (l : PollLocals) : PollLocals :=
  let c := at2 (controller (trackingState l)) hand in
  set_trackingState
    {| controller :=
         upd2 hand {| booleanComps := booleanComps c;
                      scalarComps := <[analog := v]> (scalarComps c) |}
              (controller (trackingState l)) |} l.

(** The boolean controls that set a bit of [booleanComps], with their bit. *)
Definition button_controls : list (Action * Z) :=
  [ (homeAction, cxrButton_System btn);
    (TriggerTouchAction, cxrButton_Trigger_Touch btn);
    (BAction, cxrButton_B btn);
    (YAction, cxrButton_Y btn);
    (AAction, cxrButton_A btn);
    (XAction, cxrButton_X btn) ].

Definition press (rt : Runtime) (hand : nat) (control : Action * Z) (l : PollLocals)
    : PollLocals :=
  if rising_edge (button_state rt (fst control) hand) then or_bit hand (snd control) l else l.

(** A back-button release raises the return value. *)
Definition release (rt : Runtime) (hand : nat) (l : PollLocals) : PollLocals :=
  if release_edge (button_state rt backAction hand) then set_ret true l else l.

(** An active scalar control is copied into its slot. *)
Definition analog (hand : nat) (slot : nat) (isActive : XrBool32) (v : float)
    (l : PollLocals) : PollLocals :=
  if isActive =? XR_TRUE then put_scalar hand slot v l else l.

(** The locals of [PollActions] after the loop body has run for [hand], the
    statements that touch them in program order (innermost first). *)
Definition hand_update (rt : Runtime) (hand : nat) (l : PollLocals) : PollLocals :=
  press rt hand (XAction, cxrButton_X btn)
    (press rt hand (AAction, cxrButton_A btn)
      (press rt hand (YAction, cxrButton_Y btn)
        (press rt hand (BAction, cxrButton_B btn)
          (analog hand (cxrAnalog_Grip ana)
             (f_isActive (float_state rt GripAction hand))
             (f_currentState (float_state rt GripAction hand))
            (press rt hand (TriggerTouchAction, cxrButton_Trigger_Touch btn)
              (analog hand (cxrAnalog_JoystickY ana)
                 (v_isActive (joystick_state rt hand))
                 (v2_y (v_currentState (joystick_state rt hand)))
                (analog hand (cxrAnalog_JoystickX ana)
                   (v_isActive (joystick_state rt hand))
                   (v2_x (v_currentState (joystick_state rt hand)))
                  (analog hand (cxrAnalog_Trigger ana)
                     (f_isActive (float_state rt triggerAction hand))
                     (f_currentState (float_state rt triggerAction hand))
                    (release rt hand
                      (press rt hand (homeAction, cxrButton_System btn) l)))))))))).

(** The snapshot [PollActions] builds. *)
Definition snapshot (rt : Runtime) : PollLocals :=
  hand_update rt Side.RIGHT
    (hand_update rt Side.LEFT {| ret_ := false; trackingState := zero_trackingState |}).

(** The enumerators are bit positions of a 64-bit mask, one per button, and
    indices into [scalarComps], one per analog control. *)
Definition buttons_wf : Prop :=
  Forall (fun b => 0 <= b < 64) (snd <$> button_controls) /\ NoDup (snd <$> button_controls).

Definition analogs_in_range : Prop :=
  Forall (fun a => (a < cxrAnalog_Num ana)%nat)
         [cxrAnalog_Trigger ana; cxrAnalog_JoystickX ana; cxrAnalog_JoystickY ana;
          cxrAnalog_Grip ana].

Definition analogs_wf : Prop :=
  analogs_in_range
  /\ NoDup [cxrAnalog_Trigger ana; cxrAnalog_JoystickX ana; cxrAnalog_JoystickY ana;
            cxrAnalog_Grip ana].

(** *** The frame a tick composes *)

(** [m_views] once [xrLocateViews] has filled it. *)
Definition located_views (rt : Runtime) (w : World) : list XrView :=
  write_views (lv_views (xrLocateViews rt)) (m_views w).

Definition view_count (rt : Runtime) : nat := Z.to_nat (viewCountOutput (xrLocateViews rt)).

(** The locally predicted pose of view [i]. *)
Definition local_pose (rt : Runtime) (w : World) (i : nat) : XrPosef :=
  default zero_pose (view_pose <$> located_views rt w !! i).

(** The head pose a latched frame carries. *)
Definition remote_pose (framesLatched : cxrFramesLatched) : XrPosef :=
  {| orientation := cxrToQuaternion (poseMatrix framesLatched);
     position := cxrGetTranslation (poseMatrix framesLatched) |}.

(** The pose stamped on view [i]. *)
Definition stamped_pose (rt : Runtime) (w : World) (i : nat) : XrPosef :=
  if fst (LatchFrame rt) then remote_pose (snd (LatchFrame rt)) else local_pose rt w i.

Definition swapchain_of (w : World) (i : nat) : Swapchain :=
  default {| handle := XR_NULL_HANDLE; width := 0; height := 0 |} (m_swapchains w !! i).

Definition submitted_view (rt : Runtime) (w : World) (i : nat)
    : XrCompositionLayerProjectionView :=
  {| pose := stamped_pose rt w i;
     fov := default zero_fov (view_fov <$> located_views rt w !! i);
     subImage := {| sub_swapchain := handle (swapchain_of w i);
                    imageRect := {| offset := (0, 0);
                                    extent := (width (swapchain_of w i),
                                               height (swapchain_of w i)) |};
                    imageArrayIndex := 0 |} |}.

(** The swapchain image acquired for view [i], if it exists. *)
Definition acquired_image (rt : Runtime) (w : World) (i : nat) : option Z :=
  imgs ← m_swapchainImages w !! handle (swapchain_of w i);
  imgs !! Z.to_nat (snd (xrAcquireSwapchainImage rt (handle (swapchain_of w i)))).

(** The texture of the latched frame drawn into view [i]. *)
Definition frame_texture (rt : Runtime) (i : nat) : option Z :=
  texture <$> frames (snd (LatchFrame rt)) !! i.

(** Acquire, wait, draw, release: what the view loop does for view [i]. *)
Definition view_events (rt : Runtime) (w : World) (i : nat) : list Event :=
  [ EvXrAcquireSwapchainImage (handle (swapchain_of w i));
    EvXrWaitSwapchainImage (handle (swapchain_of w i));
    EvRenderView (submitted_view rt w i) (default 0 (acquired_image rt w i))
                 (m_colorSwapchainFormat w) (default 0 (frame_texture rt i));
    EvXrReleaseSwapchainImage (handle (swapchain_of w i)) ].

(** A hand whose aim pose was located with both validity bits. *)
Definition hand_valid (rt : Runtime) (hand : nat) : bool :=
  XR_UNQUALIFIED_SUCCESS (fst (xrLocateSpace_aim rt hand))
  && negb (Z.land (locationFlags (snd (xrLocateSpace_aim rt hand)))
                  XR_SPACE_LOCATION_POSITION_VALID_BIT =? 0)
  && negb (Z.land (locationFlags (snd (xrLocateSpace_aim rt hand)))
                  XR_SPACE_LOCATION_ORIENTATION_VALID_BIT =? 0).

(** What the hand loop appends to [handPose] for one hand. *)
Definition hand_poses (rt : Runtime) (hand : nat) : list XrPosef :=
  if hand_valid rt hand then [loc_pose (snd (xrLocateSpace_aim rt hand))] else [].

Definition valid_hand_poses (rt : Runtime) : list XrPosef :=
  hand_poses rt Side.LEFT ++ hand_poses rt Side.RIGHT.

(** What the hand loop logs for one hand. *)
Definition hand_events (rt : Runtime) (w : World) (hand : nat) : list Event :=
  if negb (XR_UNQUALIFIED_SUCCESS (fst (xrLocateSpace_aim rt hand)))
     && (at2 (handActive (m_input w)) hand =? XR_TRUE)
  then [EvLog Info "Unable to locate %s hand action space in app space: %d"]
  else [].

(** The events of [RenderLayer], before the view loop ... *)
Definition latch_events (rt : Runtime) (w : World) : list Event :=
  hand_events rt w Side.LEFT ++ hand_events rt w Side.RIGHT
  ++ [ EvSetSenserPoseState (loc_pose (snd (fst (xrLocateSpace_view rt))))
                            (linearVelocity (snd (xrLocateSpace_view rt)))
                            (angularVelocity (snd (xrLocateSpace_view rt)))
                            (valid_hand_poses rt);
       EvLatchFrame (fst (LatchFrame rt)) ]
  ++ (if fst (LatchFrame rt) then [] else [EvLog Info "not get framesLatched"]).

(** ... and all of them. *)
Definition render_events (rt : Runtime) (w : World) : list Event :=
  latch_events rt w
  ++ flat_map (view_events rt w) (seq 0 (view_count rt))
  ++ (if fst (LatchFrame rt) then [EvReleaseFrame (snd (LatchFrame rt))] else []).

Definition submitted_views (rt : Runtime) (w : World)
    : list XrCompositionLayerProjectionView :=
  submitted_view rt w <$> seq 0 (view_count rt).

Definition submitted_layer (rt : Runtime) (w : World) : XrCompositionLayerProjection :=
  {| layer_space := m_appSpace w;
     viewCount := uint32 (Z.of_nat (length (submitted_views rt w)));
     views := submitted_views rt w |}.

(** Whether the tick renders. *)
Definition renders (rt : Runtime) : bool := shouldRender (snd (xrWaitFrame rt)) =? XR_TRUE.

Definition end_info (rt : Runtime) (w : World) : XrFrameEndInfo :=
  let layers := if renders rt then [submitted_layer rt w] else [] in
  {| next := {| useHeadposeExt := 1;
                gsIndex := if renders rt then lv_gsIndex (xrLocateViews rt) else mGsIndex w |};
     displayTime := predictedDisplayTime (snd (xrWaitFrame rt));
     environmentBlendMode := m_environmentBlendMode w;
     layerCount := uint32 (Z.of_nat (length layers));
     layers := layers |}.

(** The events of one [RenderFrame]. *)
Definition frame_events (rt : Runtime) (w : World) : list Event :=
  [EvXrWaitFrame; EvXrBeginFrame]
  ++ (if renders rt then render_events rt w else [])
  ++ [EvXrEndFrame (end_info rt w)].

(** Every call [RenderLayer] makes succeeds: the runtime's result codes, the
    three view-count checks, the CloudXR client, the [pose] array large enough
    for the views, and for every view an acquired image and a latched video
    frame that exist. *)
Definition render_ok (rt : Runtime) (w : World) : bool :=
  negb (XR_FAILED (lv_result (xrLocateViews rt)))
  && (viewCountOutput (xrLocateViews rt) =? uint32 (Z.of_nat (length (m_views w))))
  && (viewCountOutput (xrLocateViews rt) =? Z.of_nat (length (m_configViews w)))
  && (viewCountOutput (xrLocateViews rt) =? Z.of_nat (length (m_swapchains w)))
  && negb (XR_FAILED (fst (xrLocateSpace_aim rt Side.LEFT)))
  && negb (XR_FAILED (fst (xrLocateSpace_aim rt Side.RIGHT)))
  && negb (XR_FAILED (fst (fst (xrLocateSpace_view rt))))
  && m_cloudxr w
  && bool_decide (view_count rt <= Side.COUNT)%nat
  && forallb (fun i =>
       negb (XR_FAILED (fst (xrAcquireSwapchainImage rt (handle (swapchain_of w i)))))
       && negb (XR_FAILED (xrWaitSwapchainImage rt (handle (swapchain_of w i))))
       && negb (XR_FAILED (xrReleaseSwapchainImage rt (handle (swapchain_of w i))))
       && bool_decide (is_Some (acquired_image rt w i))
       && bool_decide (is_Some (frame_texture rt i)))
     (seq 0 (view_count rt)).

(** Every call [RenderFrame] makes succeeds. *)
Definition frame_ok (rt : Runtime) (w : World) : bool :=
  negb (m_session w =? XR_NULL_HANDLE)
  && negb (XR_FAILED (fst (xrWaitFrame rt)))
  && negb (XR_FAILED (xrBeginFrame rt))
  && (if renders rt then render_ok rt w else true)
  && negb (XR_FAILED (xrEndFrame rt)).

(** The world with [evs] appended to its trace. *)
Definition emits (evs : list Event) (w : World) : World := with_trace (trace w ++ evs) w.


(** Every call [PollActions] makes into the runtime succeeds. *)
Definition actions_ok (rt : Runtime) : Prop :=
  XR_FAILED (xrSyncActions rt) = false
  /\ (forall a h, XR_FAILED (fst (xrGetActionStateFloat rt a h)) = false)
  /\ (forall a h, XR_FAILED (fst (xrGetActionStateBoolean rt a h)) = false)
  /\ (forall a h, XR_FAILED (fst (xrGetActionStateVector2f rt a h)) = false)
  /\ (forall a h, XR_FAILED (fst (xrGetActionStatePose rt a h)) = false)
  /\ (forall h, XR_FAILED (xrApplyHapticFeedback rt h) = false)
  /\ XR_FAILED (xrRequestExitSession rt) = false.

(** The members a tick leaves alone. *)
Definition same_setup (w w' : World) : Prop :=
  m_session w' = m_session w /\ m_appSpace w' = m_appSpace w
  /\ m_environmentBlendMode w' = m_environmentBlendMode w
  /\ m_configViews w' = m_configViews w /\ m_swapchains w' = m_swapchains w
  /\ m_swapchainImages w' = m_swapchainImages w
  /\ m_colorSwapchainFormat w' = m_colorSwapchainFormat w
  /\ m_cloudxr w' = m_cloudxr w.

(** [w'] is reached from [w] by emitting events that all satisfy [P]. *)
Definition advances (P : Event -> Prop) (w w' : World) : Prop :=
  same_setup w w' /\ exists evs, trace w' = trace w ++ evs /\ Forall P evs.

(** What the loop of [PollActions] can emit. *)
Definition input_event (e : Event) : Prop :=
  match e with
  | EvLog _ _ | EvXrApplyHapticFeedback _ | EvXrRequestExitSession => True
  | _ => False
  end.

(** The tick from [w] to [w'] handed the snapshot [ts] to the CloudXR client,
    as the last thing it did. *)
Definition forwards (w w' : World) (ts : cxrVRTrackingState) : Prop :=
  exists evs, Forall input_event evs /\ trace w' = trace w ++ evs ++ [EvSetTrackingState ts].

Definition bits_of (ts : cxrVRTrackingState) (hand : nat) : Z :=
  booleanComps (at2 (controller ts) hand).
Definition scalars_of (ts : cxrVRTrackingState) (hand : nat) : list float :=
  scalarComps (at2 (controller ts) hand).

Definition returns {L A} (m : M L A) (w : World) (l : L) : Prop :=
  exists a w' l', m w l = Ret a w' l'.

(** ** Sample data

    Concrete enumerators, decoders, runtime answers and program states, used to
    run the model. *)

Definition sample_buttons : cxrButtonId :=
  {| cxrButton_System := 0; cxrButton_Trigger_Touch := 4;
     cxrButton_A := 10; cxrButton_B := 11; cxrButton_X := 12; cxrButton_Y := 13 |}.

Definition sample_analogs : cxrAnalogId :=
  {| cxrAnalog_Trigger := 0; cxrAnalog_JoystickX := 3; cxrAnalog_JoystickY := 4;
     cxrAnalog_Grip := 5; cxrAnalog_Num := 7 |}.

(** The translation column of a row-major 3x4 matrix. *)
Definition sample_translation (m : cxrMatrix34) : XrVector3f :=
  {| v3_x := default f32_zero (m !! 3%nat);
     v3_y := default f32_zero (m !! 7%nat);
     v3_z := default f32_zero (m !! 11%nat) |}.

(** A stand-in for the rotation decoder: it reads the diagonal. *)
Definition sample_quaternion (m : cxrMatrix34) : XrQuaternionf :=
  {| q_x := default f32_zero (m !! 0%nat);
     q_y := default f32_zero (m !! 5%nat);
     q_z := default f32_zero (m !! 10%nat);
     q_w := f32_one |}.

Definition sample_pose (x y z : Z) : XrPosef :=
  {| orientation := {| q_x := f32_zero; q_y := f32_zero; q_z := f32_zero; q_w := f32_one |};
     position := {| v3_x := f32_of_Z x; v3_y := f32_of_Z y; v3_z := f32_of_Z z |} |}.

Definition sample_fov : XrFovf :=
  {| angleLeft := f32_of_Z (-1); angleRight := f32_one;
     angleUp := f32_one; angleDown := f32_of_Z (-1) |}.

Definition sample_input : InputState :=
  {| handScale := {| slot0 := f32_one; slot1 := f32_one |};
     handXYPos := {| slot0 := zero_v2; slot1 := zero_v2 |};
     handActive := {| slot0 := XR_FALSE; slot1 := XR_FALSE |} |}.

(** A stereo program with session handle 7, one swapchain per eye with three
    images each, focused and running. *)
Definition sample_world : World :=
  {| m_session := 7; m_appSpace := 21; m_environmentBlendMode := 1;
     m_configViews := [(1920, 1920); (1920, 1920)];
     m_swapchains := [ {| handle := 100; width := 1920; height := 1920 |};
                       {| handle := 101; width := 1920; height := 1920 |} ];
     m_swapchainImages := <[100 := [1000; 1001; 1002]]> (<[101 := [1010; 1011; 1012]]> ∅);
     m_views := [ {| view_pose := zero_pose; view_fov := zero_fov |};
                  {| view_pose := zero_pose; view_fov := zero_fov |} ];
     m_colorSwapchainFormat := 43;
     m_sessionState := XR_SESSION_STATE_FOCUSED; m_sessionRunning := true;
     m_input := sample_input; m_cloudxr := true; mGsIndex := 0;
     xrFrameEndInfoEXT := {| useHeadposeExt := 0; gsIndex := 0 |};
     trace := [] |}.

Definition no_flags : Flags := {| exitRenderLoop := false; requestRestart := false |}.

Definition released_button : XrActionStateBoolean :=
  {| b_currentState := XR_FALSE; b_changedSinceLastSync := XR_FALSE; b_isActive := XR_TRUE |}.
Definition inactive_button : XrActionStateBoolean :=
  {| b_currentState := XR_FALSE; b_changedSinceLastSync := XR_FALSE; b_isActive := XR_FALSE |}.
(** {active, changed, state} = {true, true, true} *)
Definition pressed_now : XrActionStateBoolean :=
  {| b_currentState := XR_TRUE; b_changedSinceLastSync := XR_TRUE; b_isActive := XR_TRUE |}.
(** {true, false, true} *)
Definition held_down : XrActionStateBoolean :=
  {| b_currentState := XR_TRUE; b_changedSinceLastSync := XR_FALSE; b_isActive := XR_TRUE |}.
(** {true, true, false} *)
Definition released_now : XrActionStateBoolean :=
  {| b_currentState := XR_FALSE; b_changedSinceLastSync := XR_TRUE; b_isActive := XR_TRUE |}.

Definition remote_matrix : cxrMatrix34 :=
  f32_of_Z <$> [1; 0; 0; 5;  0; 1; 0; 6;  0; 0; 1; 7].

Definition sample_frames : cxrFramesLatched :=
  {| poseID := 42; poseMatrix := remote_matrix;
     frames := [ {| texture := 500 |}; {| texture := 501 |} ] |}.

Definition no_frames : cxrFramesLatched :=
  {| poseID := 0; poseMatrix := []; frames := [ {| texture := 0 |}; {| texture := 0 |} ] |}.

(** A tick on which every call succeeds; its controls, hand locations and
    frame are the parameters. *)
Definition sample_runtime
    (buttons : Action -> nat -> XrActionStateBoolean)
    (floats : Action -> nat -> XrActionStateFloat)
    (aim : nat -> XrResult * XrSpaceLocation)
    (flags : Z)
    (latch : bool * cxrFramesLatched) : Runtime :=
  {| xrBeginSession := XR_SUCCESS;
     xrEndSession := XR_SUCCESS;
     xrEnumerateBoundSourcesForAction := fun _ => (XR_SUCCESS, EmptyString);
     xrSyncActions := XR_SUCCESS;
     xrGetActionStateFloat := fun a h => (XR_SUCCESS, floats a h);
     xrGetActionStateBoolean := fun a h => (XR_SUCCESS, buttons a h);
     xrGetActionStateVector2f := fun _ _ =>
       (XR_SUCCESS, {| v_currentState := zero_v2; v_isActive := XR_FALSE |});
     xrGetActionStatePose := fun _ _ => (XR_SUCCESS, {| p_isActive := XR_TRUE |});
     xrApplyHapticFeedback := fun _ => XR_SUCCESS;
     xrRequestExitSession := XR_SUCCESS;
     xrWaitFrame := (XR_SUCCESS, {| predictedDisplayTime := 1000; shouldRender := XR_TRUE |});
     xrBeginFrame := XR_SUCCESS;
     xrEndFrame := XR_SUCCESS;
     xrLocateViews :=
       {| lv_result := XR_SUCCESS; viewStateFlags := flags; lv_gsIndex := 3;
          viewCountOutput := 2;
          lv_views := [ {| view_pose := sample_pose 1 2 3; view_fov := sample_fov |};
                        {| view_pose := sample_pose 2 2 3; view_fov := sample_fov |} ] |};
     xrLocateSpace_aim := aim;
     xrLocateSpace_view :=
       (XR_SUCCESS, {| locationFlags := 3; loc_pose := sample_pose 1 2 3 |},
        {| linearVelocity := zero_v3; angularVelocity := zero_v3 |});
     LatchFrame := latch;
     xrAcquireSwapchainImage := fun _ => (XR_SUCCESS, 1);
     xrWaitSwapchainImage := fun _ => XR_SUCCESS;
     xrReleaseSwapchainImage := fun _ => XR_SUCCESS |}.

Definition inactive_float : XrActionStateFloat :=
  {| f_currentState := f32_zero; f_isActive := XR_FALSE |}.

Definition hand_located (p : XrPosef) : XrResult * XrSpaceLocation :=
  (XR_SUCCESS, {| locationFlags := 3; loc_pose := p |}).
Definition hand_lost : XrResult * XrSpaceLocation :=
  (XR_SUCCESS, {| locationFlags := 0; loc_pose := zero_pose |}).

Definition quiet_runtime : Runtime :=
  sample_runtime (fun _ _ => released_button) (fun _ _ => inactive_float)
                 (fun _ => hand_lost) 3 (false, no_frames).

Definition render_locals0 : RenderLocals :=
  {| projectionLayerViews := []; layer := new_layer; handPose := []; pose_ := [] |}.

(** * Predicates of the statements *)

(** [wp E m Q w l]: run from [w] and [l], [m] returns in a state satisfying
    [Q], or it throws and [E] holds. *)
Definition wp {L A} (E : Prop) (m : M L A) (Q : A -> World -> L -> Prop)
    (w : World) (l : L) : Prop :=
  match m w l with
  | Ret a w' l' => Q a w' l'
  | Thrown _ _ _ => E
  end.

(** An answer of [xrPollEvent] that the loop of [PollEvents] handles and then
    polls again: a delivered event other than instance-loss-pending. *)
Definition polled_through (r : PollResult) : Prop :=
  fst r = XR_SUCCESS /\ forall t, snd r <> XR_TYPE_EVENT_DATA_INSTANCE_LOSS_PENDING t.

(** Both controllers of the snapshot carry [cxrAnalog_Num] scalars. *)
Definition scalars_sized (l : PollLocals) : Prop :=
  forall h, length (scalarComps (at2 (controller (trackingState l)) h)) = cxrAnalog_Num ana.

(** The same slot of a two-element array. *)
Definition same_slot (i j : nat) : bool := bool_decide ((i = 0%nat) <-> (j = 0%nat)).

(** The button mask after the stanza of control [c] for [hand]. *)
Definition press_bits (rt : Runtime) (hand : nat) (bits : Z) (c : Action * Z) : Z :=
  if rising_edge (button_state rt (fst c) hand)
  then Z.lor bits (uint64 (Z.shiftl 1 (snd c))) else bits.

(** The scalar array after the stanza of a scalar control. *)
Definition put_if (isActive : XrBool32) (slot : nat) (v : float) (xs : list float) : list float :=
  if isActive =? XR_TRUE then <[slot := v]> xs else xs.

(** The first [n] views were drawn from an acquired image that exists and
    from a video frame of the latched structure. *)
Definition views_drawn (rt : Runtime) (w : World) (n : nat) : Prop :=
  forall i, (i < n)%nat -> is_Some (acquired_image rt w i) /\ is_Some (frame_texture rt i).

(** What the checks and array reads of a [RenderLayer] that returns have
    established. *)
Definition views_checked (rt : Runtime) (w : World) : Prop :=
  (view_count rt <= length (located_views rt w))%nat
  /\ view_count rt = length (m_swapchains w)
  /\ views_drawn rt w (view_count rt).

(** What [render_ok] says about view [i]. *)
Definition view_ok (rt : Runtime) (w : World) (i : nat) : Prop :=
  XR_FAILED (fst (xrAcquireSwapchainImage rt (handle (swapchain_of w i)))) = false
  /\ XR_FAILED (xrWaitSwapchainImage rt (handle (swapchain_of w i))) = false
  /\ XR_FAILED (xrReleaseSwapchainImage rt (handle (swapchain_of w i))) = false
  /\ is_Some (acquired_image rt w i)
  /\ is_Some (frame_texture rt i).

(** The world [RenderFrame] leaves. *)
Definition frame_world (rt : Runtime) (w : World) : World :=
  let w1 := if renders rt
            then with_GsIndex (lv_gsIndex (xrLocateViews rt))
                   (with_views (located_views rt w) w)
            else w in
  emits (frame_events rt w)
    (with_FrameEndInfoEXT {| useHeadposeExt := 1; gsIndex := mGsIndex w1 |} w1).

(** A [ReleaseFrame] call. *)
Definition is_release (e : Event) : bool :=
  match e with EvReleaseFrame _ => true | _ => false end.

(** A [LatchFrame] call that returned a frame. *)
Definition is_latch (e : Event) : bool :=
  match e with EvLatchFrame true => true | _ => false end.

(** How many events of a trace satisfy [p]. *)
Definition count_events (p : Event -> bool) (evs : list Event) : nat :=
  length (List.filter p evs).

(** The snapshots and the hand-pose lists that a trace forwards, in order. *)
Definition forwarded_snapshots (evs : list Event) : list cxrVRTrackingState :=
  omap (fun e => match e with EvSetTrackingState ts => Some ts | _ => None end) evs.

Definition forwarded_hand_poses (evs : list Event) : list (list XrPosef) :=
  omap (fun e => match e with EvSetSenserPoseState _ _ _ hands => Some hands | _ => None end)
       evs.

(** The state in which a run ended. *)
Definition final_world {L A} (o : Outcome L A) : World :=
  match o with Ret _ w _ | Thrown _ w _ => w end.

Definition final_locals {L A} (o : Outcome L A) : L :=
  match o with Ret _ _ l | Thrown _ _ l => l end.

(** * Runtimes and events of the examples *)

(** The right hand's A button, as [a] samples it; nothing else is touched. *)
Definition a_button_runtime (a : XrActionStateBoolean) : Runtime :=
  sample_runtime
    (fun action hand =>
       match action, hand with
       | AAction, 1%nat => a
       | _, _ => released_button
       end)
    (fun _ _ => inactive_float) (fun _ => hand_lost) 3 (false, no_frames).

(** The left hand's back button, as [b] samples it. *)
Definition back_button_runtime (b : XrActionStateBoolean) : Runtime :=
  sample_runtime
    (fun action hand =>
       match action, hand with
       | backAction, 0%nat => b
       | _, _ => released_button
       end)
    (fun _ _ => inactive_float) (fun _ => hand_lost) 3 (false, no_frames).

(** The left trigger pulled all the way. *)
Definition trigger_runtime : Runtime :=
  sample_runtime (fun _ _ => released_button)
    (fun action hand =>
       match action, hand with
       | triggerAction, 0%nat => {| f_currentState := f32_one; f_isActive := XR_TRUE |}
       | _, _ => inactive_float
       end)
    (fun _ => hand_lost) 3 (false, no_frames).

(** The left hand located at (9, 9, 9), the right hand lost; no frame. *)
Definition left_hand_runtime : Runtime :=
  sample_runtime (fun _ _ => released_button) (fun _ _ => inactive_float)
    (fun hand => match hand with O => hand_located (sample_pose 9 9 9) | _ => hand_lost end)
    3 (false, no_frames).

(** A frame is latched; the view state flags are the parameter. *)
Definition latched_runtime (flags : Z) : Runtime :=
  sample_runtime (fun _ _ => released_button) (fun _ _ => inactive_float)
    (fun _ => hand_lost) flags (true, sample_frames).

(** Session-state-changed events of the owned session. *)
Definition ready_event : PollResult :=
  (XR_SUCCESS,
   XR_TYPE_EVENT_DATA_SESSION_STATE_CHANGED
     {| ev_session := 7; ev_state := XR_SESSION_STATE_READY; ev_time := 1 |}).

Definition exiting_event : XrEventDataSessionStateChanged :=
  {| ev_session := 7; ev_state := XR_SESSION_STATE_EXITING; ev_time := 2 |}.

(** Locals of [PollActions] before its declarations have run. *)
Definition poll_locals0 : PollLocals :=
  let blank := {| booleanComps := 0; scalarComps := [] |} in
  {| ret_ := false; trackingState := {| controller := {| slot0 := blank; slot1 := blank |} |} |}.

(** * Further predicates: the session state machine *)

(** [m] keeps [I], whether it returns or throws. *)
Definition keeps {L A} (I : World -> L -> Prop) (m : M L A) : Prop :=
  forall w l, I w l -> I (final_world (m w l)) (final_locals (m w l)).

(** What [PollEvents] can emit. *)
Definition session_event (e : Event) : Prop :=
  match e with
  | EvLog _ _ | EvXrBeginSession | EvXrEndSession => True
  | _ => False
  end.

Definition log_event (e : Event) : Prop :=
  match e with EvLog _ _ => True | _ => False end.

(** The members that only the frame loop writes. *)
Definition same_frame_state (w w' : World) : Prop :=
  m_views w' = m_views w /\ m_input w' = m_input w /\ mGsIndex w' = mGsIndex w
  /\ xrFrameEndInfoEXT w' = xrFrameEndInfoEXT w.

(** An answer of [xrPollEvent] that delivers a state change to
    [XR_SESSION_STATE_READY] or [XR_SESSION_STATE_STOPPING]. *)
Definition starts_or_stops (r : PollResult) : Prop :=
  exists ev, snd r = XR_TYPE_EVENT_DATA_SESSION_STATE_CHANGED ev
             /\ (ev_state ev = XR_SESSION_STATE_READY
                 \/ ev_state ev = XR_SESSION_STATE_STOPPING).

Definition state_changed_log : Event :=
  EvLog Info "XrEventDataSessionStateChanged: state %s->%s session=%lld time=%lld".

Definition stopping_event : PollResult :=
  (XR_SUCCESS,
   XR_TYPE_EVENT_DATA_SESSION_STATE_CHANGED
     {| ev_session := 7; ev_state := XR_SESSION_STATE_STOPPING; ev_time := 3 |}).

Definition loss_pending_event : PollResult :=
  (XR_SUCCESS,
   XR_TYPE_EVENT_DATA_SESSION_STATE_CHANGED
     {| ev_session := 7; ev_state := XR_SESSION_STATE_LOSS_PENDING; ev_time := 4 |}).

Definition focused_event : PollResult :=
  (XR_SUCCESS,
   XR_TYPE_EVENT_DATA_SESSION_STATE_CHANGED
     {| ev_session := 7; ev_state := XR_SESSION_STATE_FOCUSED; ev_time := 5 |}).

(** A runtime whose [xrBeginSession] and [xrEndSession] fail with
    [XR_ERROR_RUNTIME_FAILURE]. *)
Definition failing_session_runtime : Runtime :=
  {| xrBeginSession := -2;
     xrEndSession := -2;
     xrEnumerateBoundSourcesForAction := xrEnumerateBoundSourcesForAction quiet_runtime;
     xrSyncActions := xrSyncActions quiet_runtime;
     xrGetActionStateFloat := xrGetActionStateFloat quiet_runtime;
     xrGetActionStateBoolean := xrGetActionStateBoolean quiet_runtime;
     xrGetActionStateVector2f := xrGetActionStateVector2f quiet_runtime;
     xrGetActionStatePose := xrGetActionStatePose quiet_runtime;
     xrApplyHapticFeedback := xrApplyHapticFeedback quiet_runtime;
     xrRequestExitSession := xrRequestExitSession quiet_runtime;
     xrWaitFrame := xrWaitFrame quiet_runtime;
     xrBeginFrame := xrBeginFrame quiet_runtime;
     xrEndFrame := xrEndFrame quiet_runtime;
     xrLocateViews := xrLocateViews quiet_runtime;
     xrLocateSpace_aim := xrLocateSpace_aim quiet_runtime;
     xrLocateSpace_view := xrLocateSpace_view quiet_runtime;
     LatchFrame := LatchFrame quiet_runtime;
     xrAcquireSwapchainImage := xrAcquireSwapchainImage quiet_runtime;
     xrWaitSwapchainImage := xrWaitSwapchainImage quiet_runtime;
     xrReleaseSwapchainImage := xrReleaseSwapchainImage quiet_runtime |}.

(** The sample program before its session is running. *)
Definition idle_world : World :=
  with_sessionRunning false (with_sessionState XR_SESSION_STATE_IDLE sample_world).

(** [w'] is reached from [w] by a poll: only the session state and the
    running flag may differ, and the events emitted are logs and calls to
    begin or end the session. *)
Definition session_step (w w' : World) : Prop :=
  same_setup w w' /\ same_frame_state w w'
  /\ exists evs, trace w' = trace w ++ evs /\ Forall session_event evs.

(** [w'] is reached from [w] by logging alone, with the running flag kept. *)
Definition log_step (w w' : World) : Prop :=
  m_sessionRunning w' = m_sessionRunning w
  /\ exists evs, trace w' = trace w ++ evs /\ Forall log_event evs.

(** * Further predicates: the input relay *)

(** ** The input state and the events of one hand's pass of [PollActions] *)

Definition pose_state (rt : Runtime) (hand : nat) : XrActionStatePose :=
  snd (xrGetActionStatePose rt poseAction hand).

Definition put_handScale (hand : nat) (v : float) (i : InputState) : InputState :=
  {| handScale := upd2 hand v (handScale i);
     handXYPos := handXYPos i;
     handActive := handActive i |}.

Definition put_handXYPos (hand : nat) (v : XrVector2f) (i : InputState) : InputState :=
  {| handScale := handScale i;
     handXYPos := upd2 hand v (handXYPos i);
     handActive := handActive i |}.

Definition put_handActive (v : array2 XrBool32) (i : InputState) : InputState :=
  {| handScale := handScale i; handXYPos := handXYPos i; handActive := v |}.

(** Sampled active and changed: a press or a release edge. *)
Definition changed_edge (s : XrActionStateBoolean) : bool :=
  (b_isActive s =? XR_TRUE) && (b_changedSinceLastSync s =? XR_TRUE).

(** An active grab scales the hand by 1.0 (open) to 0.5 (fully squeezed). *)
Definition grab_step (g : XrActionStateFloat) (hand : nat) (i : InputState) : InputState :=
  if f_isActive g =? XR_TRUE
  then put_handScale hand (f32_sub f32_one (f32_mul (f32_lit 1 2) (f_currentState g))) i
  else i.

(** A button that scales the hand: [pressed] on its press edge, 1.0 on its
    release edge. *)
Definition scale_step (s : XrActionStateBoolean) (pressed : float) (hand : nat)
    (i : InputState) : InputState :=
  if changed_edge s
  then put_handScale hand (if b_currentState s =? XR_TRUE then pressed else f32_one) i
  else i.

Definition joystick_step (j : XrActionStateVector2f) (hand : nat) (i : InputState)
    : InputState :=
  if v_isActive j =? XR_TRUE then put_handXYPos hand (v_currentState j) i else i.

Definition pose_step (p : XrActionStatePose) (hand : nat) (i : InputState) : InputState :=
  put_handActive (upd2 hand (p_isActive p) (handActive i)) i.

(** [m_input] after the loop body has run for [hand], the statements that
    write it in program order (innermost first). *)
Definition hand_input (rt : Runtime) (hand : nat) (i : InputState) : InputState :=
  pose_step (pose_state rt hand) hand
    (scale_step (button_state rt XAction hand) (f32_div (f32_lit 5 100) (f32_lit 1 10)) hand
      (scale_step (button_state rt AAction hand) (f32_div (f32_lit 5 100) (f32_lit 1 10)) hand
        (scale_step (button_state rt YAction hand) (f32_div (f32_lit 15 100) (f32_lit 1 10)) hand
          (scale_step (button_state rt BAction hand) (f32_div (f32_lit 15 100) (f32_lit 1 10))
             hand
            (joystick_step (joystick_state rt hand) hand
              (scale_step (button_state rt sideAction hand)
                 (f32_div (f32_lit 1 4) (f32_lit 1 10)) hand
                (scale_step (button_state rt touchpadAction hand)
                   (f32_div (f32_lit 1 100) (f32_lit 1 10)) hand
                  (grab_step (float_state rt grabAction hand) hand i)))))))).

(** [m_input] after [PollActions]. *)
Definition polled_input (rt : Runtime) (i : InputState) : InputState :=
  hand_input rt Side.RIGHT
    (hand_input rt Side.LEFT (put_handActive {| slot0 := XR_FALSE; slot1 := XR_FALSE |} i)).

(** The hand is more than 90% squeezed. *)
Definition squeezed (g : XrActionStateFloat) : bool :=
  (f_isActive g =? XR_TRUE) && f32_gt (f_currentState g) (f32_lit 9 10).

Definition haptic_events (g : XrActionStateFloat) (hand : nat) : list Event :=
  if squeezed g then [EvXrApplyHapticFeedback hand] else [].

Definition quit_events (s : XrActionStateBoolean) : list Event :=
  if rising_edge s then [EvXrRequestExitSession] else [].

(** The log line of a button that reports its press and its release. *)
Definition edge_events (s : XrActionStateBoolean) (pressed released : string) : list Event :=
  if changed_edge s
  then [EvLog Error (if b_currentState s =? XR_TRUE then pressed else released)]
  else [].

(** The log line of a control that reports its press only. *)
Definition click_events (s : XrActionStateBoolean) (msg : string) : list Event :=
  if rising_edge s then [EvLog Error msg] else [].

(** What the loop body of [PollActions] emits for [hand], in order. *)
Definition hand_input_events (rt : Runtime) (hand : nat) : list Event :=
  haptic_events (float_state rt grabAction hand) hand
  ++ quit_events (button_state rt quitAction hand)
  ++ edge_events (button_state rt touchpadAction hand)
       "pico keyevent  touchpadValue pressed %d" "pico keyevent  touchpadValue released %d"
  ++ edge_events (button_state rt homeAction hand)
       "pico keyevent  homekey pressed %d xxx" "pico keyevent  homekey released %d xxx"
  ++ edge_events (button_state rt backAction hand)
       "pico keyevent  backkey pressed %d" "pico keyevent  backkey released %d"
  ++ edge_events (button_state rt sideAction hand)
       "pico keyevent  sidekey pressed %d" "pico keyevent  sidekey released %d"
  ++ click_events (button_state rt RockerTouchAction hand) "pico keyevent  RockerTouch click %d"
  ++ click_events (button_state rt TriggerTouchAction hand)
       "pico keyevent  TriggerTouch click %d"
  ++ click_events (button_state rt ThumbrestTouchAction hand)
       "pico keyevent  ThumbrestTouch click %d"
  ++ edge_events (button_state rt BAction hand)
       "pico keyevent  Bkey pressed %d" "pico keyevent  Bkey released %d"
  ++ edge_events (button_state rt YAction hand)
       "pico keyevent  Ykey pressed %d" "pico keyevent  Ykey released %d"
  ++ edge_events (button_state rt AAction hand)
       "pico keyevent  Akey pressed %d" "pico keyevent  Akey released %d"
  ++ edge_events (button_state rt XAction hand)
       "pico keyevent  Xkey pressed %d" "pico keyevent  Xkey released %d"
  ++ click_events (button_state rt ATouchAction hand) "pico keyevent  Atouch %d"
  ++ click_events (button_state rt XTouchAction hand) "pico keyevent  Xtouch %d"
  ++ click_events (button_state rt BTouchAction hand) "pico keyevent  Btouch %d"
  ++ click_events (button_state rt YTouchAction hand) "pico keyevent  Ytouch %d".

(** The events of one [PollActions] on [w]. *)
Definition polled_events (rt : Runtime) (w : World) : list Event :=
  hand_input_events rt Side.LEFT ++ hand_input_events rt Side.RIGHT
  ++ (if m_cloudxr w then [EvSetTrackingState (trackingState (snapshot rt))] else []).

Definition is_haptic (hand : nat) (e : Event) : bool :=
  match e with EvXrApplyHapticFeedback h => Nat.eqb h hand | _ => false end.

Definition is_exit_request (e : Event) : bool :=
  match e with EvXrRequestExitSession => true | _ => false end.

Definition is_snapshot (e : Event) : bool :=
  match e with EvSetTrackingState _ => true | _ => false end.

(** [handScale[hand]] after the stanza of a scaling button, and after the
    grab stanza. *)
Definition scale_value (s : XrActionStateBoolean) (pressed v : float) : float :=
  if changed_edge s then (if b_currentState s =? XR_TRUE then pressed else f32_one) else v.

Definition grab_value (g : XrActionStateFloat) (v : float) : float :=
  if f_isActive g =? XR_TRUE
  then f32_sub f32_one (f32_mul (f32_lit 1 2) (f_currentState g))
  else v.

(** The buttons that scale the hand, in program order, with the scale of
    their press edge. *)
Definition scaling_buttons : list (Action * float) :=
  [ (touchpadAction, f32_div (f32_lit 1 100) (f32_lit 1 10));
    (sideAction, f32_div (f32_lit 1 4) (f32_lit 1 10));
    (BAction, f32_div (f32_lit 15 100) (f32_lit 1 10));
    (YAction, f32_div (f32_lit 15 100) (f32_lit 1 10));
    (AAction, f32_div (f32_lit 5 100) (f32_lit 1 10));
    (XAction, f32_div (f32_lit 5 100) (f32_lit 1 10)) ].

(** [handScale[hand]] after the loop body, from its value [v] before. *)
Definition hand_scale (rt : Runtime) (hand : nat) (v : float) : float :=
  foldl (fun v c => scale_value (button_state rt (fst c) hand) (snd c) v)
        (grab_value (float_state rt grabAction hand) v) scaling_buttons.

(** A runtime whose [xrSyncActions] fails with [XR_ERROR_RUNTIME_FAILURE]. *)
Definition failing_sync_runtime : Runtime :=
  {| xrBeginSession := xrBeginSession quiet_runtime;
     xrEndSession := xrEndSession quiet_runtime;
     xrEnumerateBoundSourcesForAction := xrEnumerateBoundSourcesForAction quiet_runtime;
     xrSyncActions := -2;
     xrGetActionStateFloat := xrGetActionStateFloat quiet_runtime;
     xrGetActionStateBoolean := xrGetActionStateBoolean quiet_runtime;
     xrGetActionStateVector2f := xrGetActionStateVector2f quiet_runtime;
     xrGetActionStatePose := xrGetActionStatePose quiet_runtime;
     xrApplyHapticFeedback := xrApplyHapticFeedback quiet_runtime;
     xrRequestExitSession := xrRequestExitSession quiet_runtime;
     xrWaitFrame := xrWaitFrame quiet_runtime;
     xrBeginFrame := xrBeginFrame quiet_runtime;
     xrEndFrame := xrEndFrame quiet_runtime;
     xrLocateViews := xrLocateViews quiet_runtime;
     xrLocateSpace_aim := xrLocateSpace_aim quiet_runtime;
     xrLocateSpace_view := xrLocateSpace_view quiet_runtime;
     LatchFrame := LatchFrame quiet_runtime;
     xrAcquireSwapchainImage := xrAcquireSwapchainImage quiet_runtime;
     xrWaitSwapchainImage := xrWaitSwapchainImage quiet_runtime;
     xrReleaseSwapchainImage := xrReleaseSwapchainImage quiet_runtime |}.

(** The sample program without a CloudXR client. *)
Definition clientless_world : World :=
  {| m_session := m_session sample_world; m_appSpace := m_appSpace sample_world;
     m_environmentBlendMode := m_environmentBlendMode sample_world;
     m_configViews := m_configViews sample_world; m_swapchains := m_swapchains sample_world;
     m_swapchainImages := m_swapchainImages sample_world; m_views := m_views sample_world;
     m_colorSwapchainFormat := m_colorSwapchainFormat sample_world;
     m_sessionState := m_sessionState sample_world;
     m_sessionRunning := m_sessionRunning sample_world;
     m_input := m_input sample_world; m_cloudxr := false; mGsIndex := mGsIndex sample_world;
     xrFrameEndInfoEXT := xrFrameEndInfoEXT sample_world; trace := trace sample_world |}.

(** Both hands squeeze the grab at 1.0 and press quit. *)
Definition squeeze_and_quit_runtime : Runtime :=
  sample_runtime
    (fun action _ => match action with quitAction => pressed_now | _ => released_button end)
    (fun action _ =>
       match action with
       | grabAction => {| f_currentState := f32_one; f_isActive := XR_TRUE |}
       | _ => inactive_float
       end)
    (fun _ => hand_lost) 3 (false, no_frames).

(** The right hand presses B and releases X on the same tick. *)
Definition b_and_x_runtime : Runtime :=
  sample_runtime
    (fun action hand =>
       match action, hand with
       | BAction, 1%nat => pressed_now
       | XAction, 1%nat => released_now
       | _, _ => released_button
       end)
    (fun _ _ => inactive_float) (fun _ => hand_lost) 3 (false, no_frames).

(** [w'] is reached from [w0] by emitting events that all satisfy [P];
    nothing is said of the other members. *)
Definition trace_grows {L} (P : Event -> Prop) (w0 : World) : World -> L -> Prop :=
  fun w' _ => exists evs, trace w' = trace w0 ++ evs /\ Forall P evs.

(** The left joystick pushed to the right; nothing else is touched. *)
Definition joystick_runtime : Runtime :=
  {| xrBeginSession := xrBeginSession quiet_runtime;
     xrEndSession := xrEndSession quiet_runtime;
     xrEnumerateBoundSourcesForAction := xrEnumerateBoundSourcesForAction quiet_runtime;
     xrSyncActions := xrSyncActions quiet_runtime;
     xrGetActionStateFloat := xrGetActionStateFloat quiet_runtime;
     xrGetActionStateBoolean := xrGetActionStateBoolean quiet_runtime;
     xrGetActionStateVector2f := fun _ hand =>
       match hand with
       | O => (XR_SUCCESS, {| v_currentState := {| v2_x := f32_one; v2_y := f32_zero |};
                              v_isActive := XR_TRUE |})
       | _ => (XR_SUCCESS, {| v_currentState := zero_v2; v_isActive := XR_FALSE |})
       end;
     xrGetActionStatePose := xrGetActionStatePose quiet_runtime;
     xrApplyHapticFeedback := xrApplyHapticFeedback quiet_runtime;
     xrRequestExitSession := xrRequestExitSession quiet_runtime;
     xrWaitFrame := xrWaitFrame quiet_runtime;
     xrBeginFrame := xrBeginFrame quiet_runtime;
     xrEndFrame := xrEndFrame quiet_runtime;
     xrLocateViews := xrLocateViews quiet_runtime;
     xrLocateSpace_aim := xrLocateSpace_aim quiet_runtime;
     xrLocateSpace_view := xrLocateSpace_view quiet_runtime;
     LatchFrame := LatchFrame quiet_runtime;
     xrAcquireSwapchainImage := xrAcquireSwapchainImage quiet_runtime;
     xrWaitSwapchainImage := xrWaitSwapchainImage quiet_runtime;
     xrReleaseSwapchainImage := xrReleaseSwapchainImage quiet_runtime |}.

(** The right hand presses A, and then the query of its X button fails with
    [XR_ERROR_RUNTIME_FAILURE]. *)
Definition failing_query_runtime : Runtime :=
  {| xrBeginSession := xrBeginSession quiet_runtime;
     xrEndSession := xrEndSession quiet_runtime;
     xrEnumerateBoundSourcesForAction := xrEnumerateBoundSourcesForAction quiet_runtime;
     xrSyncActions := xrSyncActions quiet_runtime;
     xrGetActionStateFloat := xrGetActionStateFloat quiet_runtime;
     xrGetActionStateBoolean := fun action hand =>
       match action, hand with
       | AAction, 1%nat => (XR_SUCCESS, pressed_now)
       | XAction, 1%nat => (-2, released_button)
       | _, _ => (XR_SUCCESS, released_button)
       end;
     xrGetActionStateVector2f := xrGetActionStateVector2f quiet_runtime;
     xrGetActionStatePose := xrGetActionStatePose quiet_runtime;
     xrApplyHapticFeedback := xrApplyHapticFeedback quiet_runtime;
     xrRequestExitSession := xrRequestExitSession quiet_runtime;
     xrWaitFrame := xrWaitFrame quiet_runtime;
     xrBeginFrame := xrBeginFrame quiet_runtime;
     xrEndFrame := xrEndFrame quiet_runtime;
     xrLocateViews := xrLocateViews quiet_runtime;
     xrLocateSpace_aim := xrLocateSpace_aim quiet_runtime;
     xrLocateSpace_view := xrLocateSpace_view quiet_runtime;
     LatchFrame := LatchFrame quiet_runtime;
     xrAcquireSwapchainImage := xrAcquireSwapchainImage quiet_runtime;
     xrWaitSwapchainImage := xrWaitSwapchainImage quiet_runtime;
     xrReleaseSwapchainImage := xrReleaseSwapchainImage quiet_runtime |}.

(** * Further predicates: the frame compositor *)

(** The log line of a hand that could not be located. *)
Definition is_loss_log (e : Event) : bool :=
  match e with
  | EvLog Info msg =>
      bool_decide (msg = "Unable to locate %s hand action space in app space: %d")
  | _ => false
  end.

(** The aim space of [hand] was located with a qualified success code, which
    sends [RenderLayer] into the branch that may log. *)
Definition hand_unlocated (rt : Runtime) (hand : nat) : bool :=
  negb (XR_UNQUALIFIED_SUCCESS (fst (xrLocateSpace_aim rt hand))).

(** [rt] with other answers for the frame calls. *)
Definition with_frame_calls (wait : XrResult * XrFrameState) (begin_ end_ : XrResult)
    (rt : Runtime) : Runtime :=
  {| xrBeginSession := xrBeginSession rt;
     xrEndSession := xrEndSession rt;
     xrEnumerateBoundSourcesForAction := xrEnumerateBoundSourcesForAction rt;
     xrSyncActions := xrSyncActions rt;
     xrGetActionStateFloat := xrGetActionStateFloat rt;
     xrGetActionStateBoolean := xrGetActionStateBoolean rt;
     xrGetActionStateVector2f := xrGetActionStateVector2f rt;
     xrGetActionStatePose := xrGetActionStatePose rt;
     xrApplyHapticFeedback := xrApplyHapticFeedback rt;
     xrRequestExitSession := xrRequestExitSession rt;
     xrWaitFrame := wait;
     xrBeginFrame := begin_;
     xrEndFrame := end_;
     xrLocateViews := xrLocateViews rt;
     xrLocateSpace_aim := xrLocateSpace_aim rt;
     xrLocateSpace_view := xrLocateSpace_view rt;
     LatchFrame := LatchFrame rt;
     xrAcquireSwapchainImage := xrAcquireSwapchainImage rt;
     xrWaitSwapchainImage := xrWaitSwapchainImage rt;
     xrReleaseSwapchainImage := xrReleaseSwapchainImage rt |}.

(** [rt] with other answers for the locate and swapchain calls. *)
Definition with_render_calls (views : XrViewLocation) (aim : nat -> XrResult * XrSpaceLocation)
    (acquire : XrSwapchain -> XrResult * Z) (rt : Runtime) : Runtime :=
  {| xrBeginSession := xrBeginSession rt;
     xrEndSession := xrEndSession rt;
     xrEnumerateBoundSourcesForAction := xrEnumerateBoundSourcesForAction rt;
     xrSyncActions := xrSyncActions rt;
     xrGetActionStateFloat := xrGetActionStateFloat rt;
     xrGetActionStateBoolean := xrGetActionStateBoolean rt;
     xrGetActionStateVector2f := xrGetActionStateVector2f rt;
     xrGetActionStatePose := xrGetActionStatePose rt;
     xrApplyHapticFeedback := xrApplyHapticFeedback rt;
     xrRequestExitSession := xrRequestExitSession rt;
     xrWaitFrame := xrWaitFrame rt;
     xrBeginFrame := xrBeginFrame rt;
     xrEndFrame := xrEndFrame rt;
     xrLocateViews := views;
     xrLocateSpace_aim := aim;
     xrLocateSpace_view := xrLocateSpace_view rt;
     LatchFrame := LatchFrame rt;
     xrAcquireSwapchainImage := acquire;
     xrWaitSwapchainImage := xrWaitSwapchainImage rt;
     xrReleaseSwapchainImage := xrReleaseSwapchainImage rt |}.

(** A tick the runtime does not want rendered. *)
Definition idle_frame_runtime : Runtime :=
  with_frame_calls (XR_SUCCESS, {| predictedDisplayTime := 2000; shouldRender := XR_FALSE |})
    XR_SUCCESS XR_SUCCESS quiet_runtime.

(** [xrBeginFrame] fails with [XR_ERROR_RUNTIME_FAILURE]. *)
Definition failing_begin_runtime : Runtime :=
  with_frame_calls (xrWaitFrame quiet_runtime) (-2) XR_SUCCESS (latched_runtime 3).

(** [xrLocateViews] reports one view to a program that has two. *)
Definition one_view_runtime : Runtime :=
  with_render_calls
    {| lv_result := XR_SUCCESS; viewStateFlags := 3; lv_gsIndex := 9; viewCountOutput := 1;
       lv_views := [ {| view_pose := sample_pose 1 2 3; view_fov := sample_fov |} ] |}
    (xrLocateSpace_aim quiet_runtime) (xrAcquireSwapchainImage quiet_runtime)
    (latched_runtime 3).

(** A frame is latched, and then the second eye's swapchain image cannot be
    acquired. *)
Definition failing_acquire_runtime : Runtime :=
  with_render_calls (xrLocateViews (latched_runtime 3)) (xrLocateSpace_aim quiet_runtime)
    (fun sc => if sc =? 101 then (-2, 0) else (XR_SUCCESS, 1))
    (latched_runtime 3).

(** Both aim spaces answer [XR_SPACE_BOUNDS_UNAVAILABLE], a qualified
    success. *)
Definition unlocated_hands_runtime : Runtime :=
  with_render_calls (xrLocateViews quiet_runtime)
    (fun _ => (7, {| locationFlags := 0; loc_pose := zero_pose |}))
    (xrAcquireSwapchainImage quiet_runtime) quiet_runtime.

(** Only the left hand's pose action is active. *)
Definition left_pose_runtime : Runtime :=
  {| xrBeginSession := xrBeginSession quiet_runtime;
     xrEndSession := xrEndSession quiet_runtime;
     xrEnumerateBoundSourcesForAction := xrEnumerateBoundSourcesForAction quiet_runtime;
     xrSyncActions := xrSyncActions quiet_runtime;
     xrGetActionStateFloat := xrGetActionStateFloat quiet_runtime;
     xrGetActionStateBoolean := xrGetActionStateBoolean quiet_runtime;
     xrGetActionStateVector2f := xrGetActionStateVector2f quiet_runtime;
     xrGetActionStatePose := fun _ hand =>
       (XR_SUCCESS, {| p_isActive := match hand with O => XR_TRUE | _ => XR_FALSE end |});
     xrApplyHapticFeedback := xrApplyHapticFeedback quiet_runtime;
     xrRequestExitSession := xrRequestExitSession quiet_runtime;
     xrWaitFrame := xrWaitFrame quiet_runtime;
     xrBeginFrame := xrBeginFrame quiet_runtime;
     xrEndFrame := xrEndFrame quiet_runtime;
     xrLocateViews := xrLocateViews quiet_runtime;
     xrLocateSpace_aim := xrLocateSpace_aim quiet_runtime;
     xrLocateSpace_view := xrLocateSpace_view quiet_runtime;
     LatchFrame := LatchFrame quiet_runtime;
     xrAcquireSwapchainImage := xrAcquireSwapchainImage quiet_runtime;
     xrWaitSwapchainImage := xrWaitSwapchainImage quiet_runtime;
     xrReleaseSwapchainImage := xrReleaseSwapchainImage quiet_runtime |}.

(** Any event but a call of [ReleaseFrame]. *)
Definition no_release_event (e : Event) : Prop :=
  match e with EvReleaseFrame _ => False | _ => True end.

(** An exception that the program throws itself, from [CHECK] or [THROW_XR].
    [Undefined] stands for undefined behaviour of the source, an access out of
    range, which throws nothing there. *)
Definition thrown_by_program (e : Exn) : Prop :=
  match e with
  | CheckFailed _ | XrResultError _ _ => True
  | Undefined _ => False
  end.

(** [I] holds of the state in which [o] threw, if it threw. *)
Definition when_thrown {L A} (I : World -> L -> Prop) (o : Outcome L A) : Prop :=
  match o with
  | Thrown _ w' l' => I w' l'
  | Ret _ _ _ => True
  end.

(** * Set-up: swapchains and environment blend modes

    [CreateSwapchains] and [LogEnvironmentBlendMode] run once, before the
    first tick.  The members that only set-up code reads are kept in [Setup];
    while a set-up function runs, the state next to [World] is a [Frame]: those
    members and the function's mutable locals.  Of the calls that set-up makes,
    the trace records the log lines. *)

Definition XR_VIEW_CONFIGURATION_TYPE_PRIMARY_STEREO : Z := 2.

Record Setup := { m_instance : Z; m_systemId : Z; m_viewConfigType : Z }.

Record Frame (V : Type) := { members : Setup; vars : V }.
Arguments members {V} _.
Arguments vars {V} _.

Definition setup {V A} (f : Setup -> A) : M (Frame V) A := local (fun fr => f (members fr)).

(** [CHECK_MSG] of [check.h]: a [CHECK] with a message of its own. *)
Definition CHECK_MSG {L} (c : bool) (msg : string) : M L unit :=
  if c then ret tt else throw (CheckFailed msg).

(** The recommended image size of a view: the two members of
    [XrViewConfigurationView] that the program stores, both [uint32_t]. *)
Definition XrViewConfigurationView : Type := Z * Z.
Definition recommendedImageRectWidth (vp : XrViewConfigurationView) : Z := fst vp.
Definition recommendedImageRectHeight (vp : XrViewConfigurationView) : Z := snd vp.

(** [{XR_TYPE_VIEW_CONFIGURATION_VIEW}] and [{XR_TYPE_VIEW}] *)
Definition new_config_view : XrViewConfigurationView := (0, 0).
Definition new_view : XrView := {| view_pose := zero_pose; view_fov := zero_fov |}.

(** The runtime and the graphics plugin, as an oracle for set-up.  An
    enumeration is called twice: with capacity 0 for the count, then with a
    buffer, which it fills and for which it reports the count again. *)
Record SetupRuntime :=
  { xrGetSystemProperties : XrResult;
    xrEnumerateViewConfigurationViews : XrResult * nat;
    xrEnumerateViewConfigurationViews_data : XrResult * nat * list XrViewConfigurationView;
    xrEnumerateSwapchainFormats : XrResult * nat;
    xrEnumerateSwapchainFormats_data : XrResult * nat * list Z;
    SelectColorSwapchainFormat : list Z -> Z;
    xrCreateSwapchain : nat -> XrResult * XrSwapchain;
    xrEnumerateSwapchainImages : XrSwapchain -> XrResult * nat;
    AllocateSwapchainImageStructs : nat -> nat -> list Z;
    xrEnumerateSwapchainImages_data : XrSwapchain -> XrResult;
    xrEnumerateEnvironmentBlendModes : Z -> XrResult * nat;
    xrEnumerateEnvironmentBlendModes_data : Z -> XrResult * nat * list Z }.

(** What an enumeration leaves in the caller's buffer: what it wrote, over the
    first elements, and no more than the buffer holds. *)
Definition fill_buffer {A} (written buffer : list A) : list A :=
  take (length buffer) (written ++ drop (length written) buffer).

(** [std::map::insert]: an entry that exists is kept. *)
Definition map_insert_new (k : Z) (v : list Z) (m : gmap Z (list Z)) : gmap Z (list Z) :=
  match m !! k with
  | Some _ => m
  | None => <[k := v]> m
  end.

Definition with_configViews (v : list (Z * Z)) (w : World) : World :=
  {| m_session := m_session w; m_appSpace := m_appSpace w;
     m_environmentBlendMode := m_environmentBlendMode w;
     m_configViews := v; m_swapchains := m_swapchains w;
     m_swapchainImages := m_swapchainImages w; m_views := m_views w;
     m_colorSwapchainFormat := m_colorSwapchainFormat w;
     m_sessionState := m_sessionState w; m_sessionRunning := m_sessionRunning w;
     m_input := m_input w; m_cloudxr := m_cloudxr w; mGsIndex := mGsIndex w;
     xrFrameEndInfoEXT := xrFrameEndInfoEXT w; trace := trace w |}.

Definition with_swapchains (v : list Swapchain) (w : World) : World :=
  {| m_session := m_session w; m_appSpace := m_appSpace w;
     m_environmentBlendMode := m_environmentBlendMode w;
     m_configViews := m_configViews w; m_swapchains := v;
     m_swapchainImages := m_swapchainImages w; m_views := m_views w;
     m_colorSwapchainFormat := m_colorSwapchainFormat w;
     m_sessionState := m_sessionState w; m_sessionRunning := m_sessionRunning w;
     m_input := m_input w; m_cloudxr := m_cloudxr w; mGsIndex := mGsIndex w;
     xrFrameEndInfoEXT := xrFrameEndInfoEXT w; trace := trace w |}.

Definition with_swapchainImages (v : gmap Z (list Z)) (w : World) : World :=
  {| m_session := m_session w; m_appSpace := m_appSpace w;
     m_environmentBlendMode := m_environmentBlendMode w;
     m_configViews := m_configViews w; m_swapchains := m_swapchains w;
     m_swapchainImages := v; m_views := m_views w;
     m_colorSwapchainFormat := m_colorSwapchainFormat w;
     m_sessionState := m_sessionState w; m_sessionRunning := m_sessionRunning w;
     m_input := m_input w; m_cloudxr := m_cloudxr w; mGsIndex := mGsIndex w;
     xrFrameEndInfoEXT := xrFrameEndInfoEXT w; trace := trace w |}.

Definition with_colorSwapchainFormat (v : Z) (w : World) : World :=
  {| m_session := m_session w; m_appSpace := m_appSpace w;
     m_environmentBlendMode := m_environmentBlendMode w;
     m_configViews := m_configViews w; m_swapchains := m_swapchains w;
     m_swapchainImages := m_swapchainImages w; m_views := m_views w;
     m_colorSwapchainFormat := v;
     m_sessionState := m_sessionState w; m_sessionRunning := m_sessionRunning w;
     m_input := m_input w; m_cloudxr := m_cloudxr w; mGsIndex := mGsIndex w;
     xrFrameEndInfoEXT := xrFrameEndInfoEXT w; trace := trace w |}.

(** The body of the loop of [CreateSwapchains]: create the swapchain of view
    [i] and get its images. *)
Definition CreateSwapchains_view (rt : SetupRuntime) (i : nat) : M (Frame unit) unit :=
  configViews <- member m_configViews ;;
  vp <- array_get configViews i "m_configViews[i]" ;;
  Log_Write Info
    "Creating swapchain for view %d with dimensions Width=%d Height=%d SampleCount=%d" ;;

  (* Create the swapchain. *)
  let '(res, swapchain_handle) := xrCreateSwapchain rt i in
  CHECK_XRCMD res "xrCreateSwapchain" ;;
  let swapchain := {| handle := swapchain_handle;
                      width := int32 (recommendedImageRectWidth vp);
                      height := int32 (recommendedImageRectHeight vp) |} in
  set_member (fun w => with_swapchains (m_swapchains w ++ [swapchain]) w) ;;

  let '(res, imageCount) := xrEnumerateSwapchainImages rt swapchain_handle in
  CHECK_XRCMD res "xrEnumerateSwapchainImages" ;;
  let swapchainImages := AllocateSwapchainImageStructs rt i imageCount in
  array_get swapchainImages 0 "swapchainImages[0]" ;;
  CHECK_XRCMD (xrEnumerateSwapchainImages_data rt swapchain_handle)
              "xrEnumerateSwapchainImages" ;;

  set_member (fun w =>
    with_swapchainImages (map_insert_new swapchain_handle swapchainImages
                            (m_swapchainImages w)) w).

Definition CreateSwapchains (rt : SetupRuntime) : M (Frame unit) unit :=
  session <- member m_session ;;
  CHECK (negb (session =? XR_NULL_HANDLE)) "m_session != XR_NULL_HANDLE" ;;
  swapchains <- member m_swapchains ;;
  CHECK (Nat.eqb (length swapchains) 0) "m_swapchains.empty()" ;;
  configViews <- member m_configViews ;;
  CHECK (Nat.eqb (length configViews) 0) "m_configViews.empty()" ;;

  (* Read graphics properties for preferred swapchain length and logging. *)
  CHECK_XRCMD (xrGetSystemProperties rt) "xrGetSystemProperties" ;;

  (* Log system properties. *)
  Log_Write Info "System Properties: Name=%s VendorId=%d" ;;
  Log_Write Info "System Graphics Properties: MaxWidth=%d MaxHeight=%d MaxLayers=%d" ;;
  Log_Write Info "System Tracking Properties: OrientationTracking=%s PositionTracking=%s" ;;

  viewConfigType <- setup m_viewConfigType ;;
  CHECK_MSG (viewConfigType =? XR_VIEW_CONFIGURATION_TYPE_PRIMARY_STEREO)
            "Unsupported view configuration type" ;;

  (* Query and cache view configuration views. *)
  let '(res, viewCount) := xrEnumerateViewConfigurationViews rt in
  CHECK_XRCMD res "xrEnumerateViewConfigurationViews" ;;
  set_member (fun w =>
    with_configViews (resize viewCount new_config_view (m_configViews w)) w) ;;
  let '(res, viewCount, written) := xrEnumerateViewConfigurationViews_data rt in
  set_member (fun w => with_configViews (fill_buffer written (m_configViews w)) w) ;;
  CHECK_XRCMD res "xrEnumerateViewConfigurationViews" ;;

  (* Create and cache view buffer for xrLocateViews later. *)
  set_member (fun w => with_views (resize viewCount new_view (m_views w)) w) ;;

  (* Create the swapchain and get the images. *)
  when (0 <? viewCount)%nat (
    (* Select a swapchain format. *)
    let '(res, swapchainFormatCount) := xrEnumerateSwapchainFormats rt in
    CHECK_XRCMD res "xrEnumerateSwapchainFormats" ;;
    let swapchainFormats := replicate swapchainFormatCount 0 in
    let '(res, swapchainFormatCount, written) := xrEnumerateSwapchainFormats_data rt in
    let swapchainFormats := fill_buffer written swapchainFormats in
    CHECK_XRCMD res "xrEnumerateSwapchainFormats" ;;
    CHECK (Nat.eqb swapchainFormatCount (length swapchainFormats))
          "swapchainFormatCount == swapchainFormats.size()" ;;
    set_member (with_colorSwapchainFormat (SelectColorSwapchainFormat rt swapchainFormats)) ;;

    (* Print swapchain formats and the selected one. *)
    Log_Write Info "Swapchain Formats: %s" ;;

    (* Create a swapchain for each view. *)
    for_each (seq 0 viewCount) (CreateSwapchains_view rt)).


(** ** What set-up computes, as functions of the runtime's answers *)

(** The number of views that the second enumeration reported: the bound of the
    swapchain loop and the size of [m_views]. *)
Definition enumerated_views (rt : SetupRuntime) : nat :=
  snd (fst (xrEnumerateViewConfigurationViews_data rt)).

(** [m_configViews] once the enumeration has filled it. *)
Definition config_views (rt : SetupRuntime) (w : World) : list XrViewConfigurationView :=
  fill_buffer (snd (xrEnumerateViewConfigurationViews_data rt))
    (resize (snd (xrEnumerateViewConfigurationViews rt)) new_config_view (m_configViews w)).

(** The swapchain created for view [i]. *)
Definition created_swapchain (rt : SetupRuntime) (cv : list XrViewConfigurationView)
    (i : nat) : Swapchain :=
  {| handle := snd (xrCreateSwapchain rt i);
     width := int32 (recommendedImageRectWidth (default new_config_view (cv !! i)));
     height := int32 (recommendedImageRectHeight (default new_config_view (cv !! i))) |}.

(** The image structures allocated for view [i]. *)
Definition allocated_images (rt : SetupRuntime) (i : nat) : list Z :=
  AllocateSwapchainImageStructs rt i
    (snd (xrEnumerateSwapchainImages rt (snd (xrCreateSwapchain rt i)))).

Definition register_images (rt : SetupRuntime) (m : gmap Z (list Z)) (i : nat)
    : gmap Z (list Z) :=
  map_insert_new (snd (xrCreateSwapchain rt i)) (allocated_images rt i) m.

Definition swapchain_log : Event :=
  EvLog Info "Creating swapchain for view %d with dimensions Width=%d Height=%d SampleCount=%d".

(** The world after [k] rounds of the swapchain loop started in [w0]. *)
Definition swapchains_world (rt : SetupRuntime) (w0 : World) (k : nat) : World :=
  emits (replicate k swapchain_log)
    (with_swapchainImages (foldl (register_images rt) (m_swapchainImages w0) (seq 0 k))
       (with_swapchains
          (m_swapchains w0 ++ (created_swapchain rt (m_configViews w0) <$> seq 0 k)) w0)).

(** The swapchain formats that the runtime enumerated. *)
Definition swapchain_formats (rt : SetupRuntime) : list Z :=
  fill_buffer (snd (xrEnumerateSwapchainFormats_data rt))
    (replicate (snd (xrEnumerateSwapchainFormats rt)) 0).

(** Round [i] of the swapchain loop goes through. *)
Definition swapchain_ok (rt : SetupRuntime) (cv : list XrViewConfigurationView) (i : nat)
    : Prop :=
  (i < length cv)%nat
  /\ XR_FAILED (fst (xrCreateSwapchain rt i)) = false
  /\ XR_FAILED (fst (xrEnumerateSwapchainImages rt (snd (xrCreateSwapchain rt i)))) = false
  /\ allocated_images rt i <> []
  /\ XR_FAILED (xrEnumerateSwapchainImages_data rt (snd (xrCreateSwapchain rt i))) = false.

(** Every check and every call of [CreateSwapchains] goes through. *)
Definition swapchains_ok (rt : SetupRuntime) (w : World) (s : Setup) : Prop :=
  m_session w <> XR_NULL_HANDLE
  /\ m_swapchains w = [] /\ m_configViews w = []
  /\ XR_FAILED (xrGetSystemProperties rt) = false
  /\ m_viewConfigType s = XR_VIEW_CONFIGURATION_TYPE_PRIMARY_STEREO
  /\ XR_FAILED (fst (xrEnumerateViewConfigurationViews rt)) = false
  /\ XR_FAILED (fst (fst (xrEnumerateViewConfigurationViews_data rt))) = false
  /\ ((0 < enumerated_views rt)%nat ->
      XR_FAILED (fst (xrEnumerateSwapchainFormats rt)) = false
      /\ XR_FAILED (fst (fst (xrEnumerateSwapchainFormats_data rt))) = false
      /\ snd (fst (xrEnumerateSwapchainFormats_data rt)) = length (swapchain_formats rt)
      /\ forall i, (i < enumerated_views rt)%nat -> swapchain_ok rt (config_views rt w) i).

Definition setup_logs : list Event :=
  [ EvLog Info "System Properties: Name=%s VendorId=%d";
    EvLog Info "System Graphics Properties: MaxWidth=%d MaxHeight=%d MaxLayers=%d";
    EvLog Info "System Tracking Properties: OrientationTracking=%s PositionTracking=%s" ].

(** The world [CreateSwapchains] leaves. *)
Definition created_world (rt : SetupRuntime) (w : World) : World :=
  let w1 := emits setup_logs
              (with_views (resize (enumerated_views rt) new_view (m_views w))
                 (with_configViews (config_views rt w) w)) in
  if (0 <? enumerated_views rt)%nat
  then swapchains_world rt
         (emits [EvLog Info "Swapchain Formats: %s"]
            (with_colorSwapchainFormat (SelectColorSwapchainFormat rt (swapchain_formats rt))
               w1))
         (enumerated_views rt)
  else w1.




(** The handle the runtime gave the swapchain of view [i]. *)
Definition created_handle (rt : SetupRuntime) (i : nat) : XrSwapchain :=
  snd (xrCreateSwapchain rt i).

(** ** A headset for the examples of set-up: two views of 1832 x 1920, three
    images per swapchain, blend modes 1 and 3. *)

Definition sample_setup : Setup :=
  {| m_instance := 1; m_systemId := 2;
     m_viewConfigType := XR_VIEW_CONFIGURATION_TYPE_PRIMARY_STEREO |}.

Definition sample_frame {V} (v : V) : Frame V := {| members := sample_setup; vars := v |}.

Definition sample_setup_runtime : SetupRuntime :=
  {| xrGetSystemProperties := XR_SUCCESS;
     xrEnumerateViewConfigurationViews := (XR_SUCCESS, 2%nat);
     xrEnumerateViewConfigurationViews_data := (XR_SUCCESS, 2%nat, [(1832, 1920); (1832, 1920)]);
     xrEnumerateSwapchainFormats := (XR_SUCCESS, 3%nat);
     xrEnumerateSwapchainFormats_data := (XR_SUCCESS, 3%nat, [37; 43; 29]);
     SelectColorSwapchainFormat := fun formats => default 0 (formats !! 1%nat);
     xrCreateSwapchain := fun i => (XR_SUCCESS, 100 + Z.of_nat i);
     xrEnumerateSwapchainImages := fun _ => (XR_SUCCESS, 3%nat);
     AllocateSwapchainImageStructs := fun i n =>
       (fun j => 1000 + 10 * Z.of_nat i + Z.of_nat j) <$> seq 0 n;
     xrEnumerateSwapchainImages_data := fun _ => XR_SUCCESS;
     xrEnumerateEnvironmentBlendModes := fun _ => (XR_SUCCESS, 2%nat);
     xrEnumerateEnvironmentBlendModes_data := fun _ => (XR_SUCCESS, 2%nat, [1; 3]) |}.

(** The sample headset, but the first view recommends the largest [uint32_t]
    as its width. *)
Definition wide_setup_runtime : SetupRuntime :=
  {| xrGetSystemProperties := xrGetSystemProperties sample_setup_runtime;
     xrEnumerateViewConfigurationViews := xrEnumerateViewConfigurationViews sample_setup_runtime;
     xrEnumerateViewConfigurationViews_data :=
       (XR_SUCCESS, 2%nat, [(4294967295, 1920); (1832, 1920)]);
     xrEnumerateSwapchainFormats := xrEnumerateSwapchainFormats sample_setup_runtime;
     xrEnumerateSwapchainFormats_data := xrEnumerateSwapchainFormats_data sample_setup_runtime;
     SelectColorSwapchainFormat := SelectColorSwapchainFormat sample_setup_runtime;
     xrCreateSwapchain := xrCreateSwapchain sample_setup_runtime;
     xrEnumerateSwapchainImages := xrEnumerateSwapchainImages sample_setup_runtime;
     AllocateSwapchainImageStructs := AllocateSwapchainImageStructs sample_setup_runtime;
     xrEnumerateSwapchainImages_data := xrEnumerateSwapchainImages_data sample_setup_runtime;
     xrEnumerateEnvironmentBlendModes := xrEnumerateEnvironmentBlendModes sample_setup_runtime;
     xrEnumerateEnvironmentBlendModes_data :=
       xrEnumerateEnvironmentBlendModes_data sample_setup_runtime |}.

(** The program before [CreateSwapchains]: a session, nothing created yet. *)
Definition fresh_world : World :=
  {| m_session := 7; m_appSpace := 21; m_environmentBlendMode := 1;
     m_configViews := []; m_swapchains := []; m_swapchainImages := ∅; m_views := [];
     m_colorSwapchainFormat := -1;
     m_sessionState := XR_SESSION_STATE_UNKNOWN; m_sessionRunning := false;
     m_input := sample_input; m_cloudxr := true; mGsIndex := 0;
     xrFrameEndInfoEXT := {| useHeadposeExt := 0; gsIndex := 0 |};
     trace := [] |}.


(** * Properties *)

(** ** A weakest-precondition calculus for [M]

    [wp E m Q w l]: run from [w] and [l], [m] returns in a state satisfying
    [Q], or it throws and [E] holds.  [E := True] gives partial correctness,
    [E := False] says that [m] returns. *)

Section Calculus.
Context {L : Type} (E : Prop).

Lemma wp_bind {A B} (m : M L A) (k : A -> M L B) Q w l :
  wp E m (fun a w' l' => wp E (k a) Q w' l') w l -> wp E (bind m k) Q w l.
Proof. unfold wp, bind. destruct (m w l); auto. Qed.

Lemma wp_mono {A} (m : M L A) (Q Q' : A -> World -> L -> Prop) w l :
  wp E m Q w l -> (forall a w' l', Q a w' l' -> Q' a w' l') -> wp E m Q' w l.
Proof. unfold wp. destruct (m w l); auto. Qed.

(** Sequencing through an intermediate assertion. *)
Lemma wp_seq {A B} (m : M L A) (k : A -> M L B) R Q w l :
  wp E m R w l -> (forall a w' l', R a w' l' -> wp E (k a) Q w' l') ->
  wp E (bind m k) Q w l.
Proof. intros Hm Hk. apply wp_bind. eapply wp_mono; eauto. Qed.

Lemma wp_ret {A} (a : A) (Q : A -> World -> L -> Prop) w l : Q a w l -> wp E (ret a) Q w l.
Proof. auto. Qed.

Lemma wp_throw {A} e (Q : A -> World -> L -> Prop) w l : E -> wp E (throw e) Q w l.
Proof. auto. Qed.

Lemma wp_member {A} (f : World -> A) (Q : A -> World -> L -> Prop) w l :
  Q (f w) w l -> wp E (member f) Q w l.
Proof. auto. Qed.

Lemma wp_local {A} (f : L -> A) (Q : A -> World -> L -> Prop) w l :
  Q (f l) w l -> wp E (local f) Q w l.
Proof. auto. Qed.

Lemma wp_set_member f (Q : unit -> World -> L -> Prop) w l :
  Q tt (f w) l -> wp E (set_member f) Q w l.
Proof. auto. Qed.

Lemma wp_set_local f (Q : unit -> World -> L -> Prop) w l :
  Q tt w (f l) -> wp E (set_local f) Q w l.
Proof. auto. Qed.

Lemma wp_emit e (Q : unit -> World -> L -> Prop) w l :
  Q tt (with_trace (trace w ++ [e]) w) l -> wp E (emit e) Q w l.
Proof. auto. Qed.

Lemma wp_CHECK_XRRESULT res what (Q : unit -> World -> L -> Prop) w l :
  (XR_FAILED res = true -> E) -> (XR_FAILED res = false -> Q tt w l) ->
  wp E (CHECK_XRRESULT res what) Q w l.
Proof. unfold wp, CHECK_XRRESULT. destruct (XR_FAILED res); cbn; auto. Qed.

Lemma wp_CHECK c what (Q : unit -> World -> L -> Prop) w l :
  (c = false -> E) -> (c = true -> Q tt w l) -> wp E (CHECK c what) Q w l.
Proof. unfold wp, CHECK. destruct c; cbn; auto. Qed.

Lemma wp_when c (m : M L unit) (Q : unit -> World -> L -> Prop) w l :
  (c = true -> wp E m Q w l) -> (c = false -> Q tt w l) -> wp E (when c m) Q w l.
Proof. destruct c; cbn; auto. Qed.

Lemma wp_array_get {A} (xs : list A) i what (Q : A -> World -> L -> Prop) w l :
  (forall x, xs !! i = Some x -> Q x w l) -> (xs !! i = None -> E) ->
  wp E (array_get xs i what) Q w l.
Proof. unfold wp, array_get. destruct (xs !! i); cbn; auto. Qed.

(** A loop invariant indexed by the elements already visited. *)
Lemma wp_for_each {A} (Inv : list A -> World -> L -> Prop) (body : A -> M L unit) :
  forall xs done w l,
    Inv done w l ->
    (forall pre x post w' l', done ++ xs = pre ++ x :: post -> (length done <= length pre)%nat ->
       Inv pre w' l' -> wp E (body x) (fun _ => Inv (pre ++ [x])) w' l') ->
    wp E (for_each xs body) (fun _ => Inv (done ++ xs)) w l.
Proof.
  induction xs as [|x xs IH]; intros done w l Hinv Hbody; cbn [for_each].
  - rewrite app_nil_r. exact Hinv.
  - eapply wp_seq.
    + apply (Hbody done x xs); auto.
    + cbn beta. intros _ w' l' Hinv'.
      replace (done ++ x :: xs) with ((done ++ [x]) ++ xs) by (rewrite <- app_assoc; reflexivity).
      apply IH; auto.
      intros pre y post w'' l'' Heq Hlen. apply (Hbody pre y post).
      * rewrite <- Heq, <- app_assoc. reflexivity.
      * rewrite length_app in Hlen. cbn in Hlen. lia.
Qed.

End Calculus.

(** From partial correctness and normal return to total correctness. *)
Lemma wp_total {L A} (m : M L A) (Q : A -> World -> L -> Prop) w l :
  wp True m Q w l -> wp False m (fun _ _ _ => True) w l -> wp False m Q w l.
Proof. unfold wp. destruct (m w l); auto. Qed.

Lemma wp_Ret {L A} E (m : M L A) (Q : A -> World -> L -> Prop) w l a w' l' :
  wp E m Q w l -> m w l = Ret a w' l' -> Q a w' l'.
Proof. unfold wp. intros H Heq. rewrite Heq in H. exact H. Qed.

Lemma wp_returns {L A} (m : M L A) (Q : A -> World -> L -> Prop) w l :
  wp False m Q w l -> exists a w' l', m w l = Ret a w' l' /\ Q a w' l'.
Proof. unfold wp. destruct (m w l); [eauto | tauto]. Qed.

(** ** Session state machine *)

Lemma PollEvents_switch_break rt ev w l c w' l' :
  (forall t, ev <> XR_TYPE_EVENT_DATA_INSTANCE_LOSS_PENDING t) ->
  PollEvents_switch rt ev w l = Ret c w' l' -> c = Break.
Proof.
  intros Hne. destruct ev; cbn; unfold bind; intros H;
    try (exfalso; eapply Hne; reflexivity);
    repeat match type of H with
           | match ?x with _ => _ end = _ => destruct x eqn:?; try discriminate
           end;
    unfold ret in H; congruence.
Qed.

Lemma TryReadNextEvent_success {L} ev w (l : L) :
  exists w', TryReadNextEvent (XR_SUCCESS, ev) w l = Ret (Some ev) w' l
             /\ ((forall n, ev <> XR_TYPE_EVENT_DATA_EVENTS_LOST n) -> w' = w).
Proof.
  destruct ev; cbn; eexists;
    (split; [reflexivity | intros Hne; first [reflexivity | exfalso; eapply Hne; reflexivity]]).
Qed.

Lemma PollEvents_loop_app rt pre q :
  forall w l rest w1 l1,
    Forall polled_through pre ->
    PollEvents_loop rt pre w l = Ret rest w1 l1 ->
    PollEvents_loop rt (pre ++ q) w l = PollEvents_loop rt q w1 l1.
Proof.
  induction pre as [|[xr ev] pre IH]; intros w l rest w1 l1 Hpre Hrun.
  - cbn in Hrun. injection Hrun as _ -> ->. reflexivity.
  - apply Forall_cons in Hpre as [[Hxr Hev] Hpre]. cbn in Hxr, Hev. subst xr.
    destruct (TryReadNextEvent_success (L := Flags) ev w l) as (w' & Hread & _).
    cbn [PollEvents_loop app] in *. unfold bind at 1 in Hrun. unfold bind at 1.
    rewrite Hread in *.
    unfold bind at 1 in Hrun. unfold bind at 1.
    destruct (PollEvents_switch rt ev w' l) as [c w2 l2|] eqn:Hsw; [|discriminate].
    apply PollEvents_switch_break in Hsw as ->; [|exact Hev].
    eapply IH; eauto.
Qed.

Lemma PollEvents_app rt pre q w l rest w1 l1 :
  Forall polled_through pre ->
  PollEvents rt pre w l = Ret rest w1 l1 ->
  PollEvents rt (pre ++ q) w l = PollEvents_loop rt q w1 l1.
Proof.
  unfold PollEvents, bind. cbn. intros Hpre Hrun.
  eapply PollEvents_loop_app; eauto.
Qed.

(** C6: after the events that [PollEvents] polls through, a
    session-state-changed event of the owned session (or with a null handle)
    carrying [XR_SESSION_STATE_EXITING] leaves [exitRenderLoop = true] and
    [requestRestart = false]; one carrying [XR_SESSION_STATE_LOSS_PENDING]
    leaves both [true]; both store the new state.  An instance-loss-pending
    event leaves both [true], returns at once with the rest of the queue
    unread, and leaves [m_sessionState] as it was. *)
Theorem PollEvents_exit_flags rt pre w l w1 l1 ev :
  Forall polled_through pre ->
  PollEvents rt pre w l = Ret [] w1 l1 ->
  ev_session ev = XR_NULL_HANDLE \/ ev_session ev = m_session w1 ->
  (ev_state ev = XR_SESSION_STATE_EXITING ->
   exists w2 l2,
     PollEvents rt (pre ++ [(XR_SUCCESS, XR_TYPE_EVENT_DATA_SESSION_STATE_CHANGED ev)]) w l
       = Ret [] w2 l2
     /\ exitRenderLoop l2 = true /\ requestRestart l2 = false
     /\ m_sessionState w2 = XR_SESSION_STATE_EXITING)
  /\ (ev_state ev = XR_SESSION_STATE_LOSS_PENDING ->
      exists w2 l2,
        PollEvents rt (pre ++ [(XR_SUCCESS, XR_TYPE_EVENT_DATA_SESSION_STATE_CHANGED ev)]) w l
          = Ret [] w2 l2
        /\ exitRenderLoop l2 = true /\ requestRestart l2 = true
        /\ m_sessionState w2 = XR_SESSION_STATE_LOSS_PENDING)
  /\ (forall t post,
      exists w2 l2,
        PollEvents rt (pre ++ (XR_SUCCESS, XR_TYPE_EVENT_DATA_INSTANCE_LOSS_PENDING t) :: post) w l
          = Ret post w2 l2
        /\ exitRenderLoop l2 = true /\ requestRestart l2 = true
        /\ m_sessionState w2 = m_sessionState w1).
Proof.
  intros Hpre Hrun Hsession.
  assert (Hown : negb (ev_session ev =? XR_NULL_HANDLE)
                 && negb (ev_session ev =? m_session w1) = false).
  { destruct Hsession as [-> | ->]; cbn.
    - reflexivity.
    - rewrite Z.eqb_refl. apply andb_false_r. }
  split; [|split].
  - intros Hstate. erewrite PollEvents_app by eauto.
    cbn. unfold bind. cbn. rewrite Hown, Hstate. cbn. eauto 10.
  - intros Hstate. erewrite PollEvents_app by eauto.
    cbn. unfold bind. cbn. rewrite Hown, Hstate. cbn. eauto 10.
  - intros t post. erewrite PollEvents_app by eauto.
    cbn. eauto 10.
Qed.

(** C7, at a failing input: the program owns session 7 and is focused; a
    state-changed event for session 8 carrying [XR_SESSION_STATE_IDLE] is
    logged as being for an unknown session, begins and ends no session and
    sets no flag and leaves the running flag alone, but the stored session
    state has become [XR_SESSION_STATE_IDLE] and the program no longer reports
    itself focused. *)
Theorem foreign_session_event_overwrites_state :
  let ev := {| ev_session := 8; ev_state := XR_SESSION_STATE_IDLE; ev_time := 0 |} in
  exists w',
    HandleSessionStateChangedEvent quiet_runtime ev sample_world no_flags
      = Ret tt w' no_flags
    /\ m_session sample_world = 7
    /\ m_sessionState sample_world = XR_SESSION_STATE_FOCUSED
    /\ m_sessionState w' = XR_SESSION_STATE_IDLE
    /\ IsSessionFocused sample_world = true /\ IsSessionFocused w' = false
    /\ m_sessionRunning w' = m_sessionRunning sample_world
    /\ trace w' =
         [EvLog Info "XrEventDataSessionStateChanged: state %s->%s session=%lld time=%lld";
          EvLog Error "XrEventDataSessionStateChanged for unknown session"].
Proof. cbv zeta. eexists. repeat split. Qed.

(** ** Input relay *)

Lemma same_setup_refl w : same_setup w w.
Proof. repeat split. Qed.

Lemma same_setup_trans w1 w2 w3 : same_setup w1 w2 -> same_setup w2 w3 -> same_setup w1 w3.
Proof. unfold same_setup. intuition congruence. Qed.

Lemma advances_refl P w : advances P w w.
Proof. split; [apply same_setup_refl|]. exists []. rewrite app_nil_r. auto. Qed.

Lemma advances_trans P w1 w2 w3 : advances P w1 w2 -> advances P w2 w3 -> advances P w1 w3.
Proof.
  intros [Hs1 (e1 & Ht1 & HP1)] [Hs2 (e2 & Ht2 & HP2)].
  split; [eapply same_setup_trans; eauto|].
  exists (e1 ++ e2). rewrite Ht2, Ht1, app_assoc. split; [reflexivity|].
  apply Forall_app; auto.
Qed.

Lemma advances_weaken (P P' : Event -> Prop) w w' :
  (forall e, P e -> P' e) -> advances P w w' -> advances P' w w'.
Proof.
  intros HPP [Hs (evs & Ht & HP)]. split; [exact Hs|].
  exists evs. split; [exact Ht|]. eapply Forall_impl; eauto.
Qed.

(** [w'] is [w] with a few events appended and other mutable members changed. *)
Ltac solve_advances :=
  split; [repeat split|]; cbn; rewrite <- ?app_assoc; cbn;
  first [ exists []; split; [symmetry; apply app_nil_r | constructor]
        | eexists; split; [reflexivity | repeat constructor] ].

Section Getters.
Context {L : Type} (E : Prop) (rt : Runtime).

Lemma wp_get_ActionStateFloat a hand (Q : _ -> World -> L -> Prop) w l :
  E \/ actions_ok rt -> Q (float_state rt a hand) w l ->
  wp E (get_ActionStateFloat rt a hand) Q w l.
Proof.
  intros Hok HQ. unfold get_ActionStateFloat, float_state in *.
  destruct Hok as [He | (_ & Hok & _)]; [| specialize (Hok a hand)];
    destruct (xrGetActionStateFloat rt a hand) as [res v]; cbn in *;
    (apply wp_bind, wp_CHECK_XRRESULT; [intros; first [assumption | congruence] | auto]).
Qed.

Lemma wp_get_ActionStateBoolean a hand (Q : _ -> World -> L -> Prop) w l :
  E \/ actions_ok rt -> Q (button_state rt a hand) w l ->
  wp E (get_ActionStateBoolean rt a hand) Q w l.
Proof.
  intros Hok HQ. unfold get_ActionStateBoolean, button_state in *.
  destruct Hok as [He | (_ & _ & Hok & _)]; [| specialize (Hok a hand)];
    destruct (xrGetActionStateBoolean rt a hand) as [res v]; cbn in *;
    (apply wp_bind, wp_CHECK_XRRESULT; [intros; first [assumption | congruence] | auto]).
Qed.

Lemma wp_get_ActionStateVector2f hand (Q : _ -> World -> L -> Prop) w l :
  E \/ actions_ok rt -> Q (joystick_state rt hand) w l ->
  wp E (get_ActionStateVector2f rt joystickAction hand) Q w l.
Proof.
  intros Hok HQ. unfold get_ActionStateVector2f, joystick_state in *.
  destruct Hok as [He | (_ & _ & _ & Hok & _)]; [| specialize (Hok joystickAction hand)];
    destruct (xrGetActionStateVector2f rt joystickAction hand) as [res v]; cbn in *;
    (apply wp_bind, wp_CHECK_XRRESULT; [intros; first [assumption | congruence] | auto]).
Qed.

Lemma wp_get_ActionStatePose a hand (Q : _ -> World -> L -> Prop) w l :
  E \/ actions_ok rt -> (forall v, Q v w l) ->
  wp E (get_ActionStatePose rt a hand) Q w l.
Proof.
  intros Hok HQ. unfold get_ActionStatePose in *.
  destruct Hok as [He | (_ & _ & _ & _ & Hok & _)]; [| specialize (Hok a hand)];
    destruct (xrGetActionStatePose rt a hand) as [res v]; cbn in *;
    (apply wp_bind, wp_CHECK_XRRESULT;
     [intros; first [assumption | congruence] | intros; apply wp_ret, HQ]).
Qed.

End Getters.

Ltac solve_thrown Hok :=
  let He := fresh in
  destruct Hok as [He | (? & ? & ? & ? & ? & ? & ?)]; [exact He | exfalso; congruence].

(** Runs a conditional statement without loops, case by case. *)
Ltac stanza Hok :=
  unfold wp, when, press, rising_edge, release_edge, CHECK_XRCMD, CHECK_XRRESULT;
  cbn [fst snd];
  repeat match goal with
         | |- context [Z.eqb ?a ?b] => destruct (Z.eqb a b) eqn:?
         | |- context [f32_gt ?a ?b] => destruct (f32_gt a b) eqn:?
         | |- context [XR_FAILED ?r] => destruct (XR_FAILED r) eqn:?
         end;
  cbn; first [ split; [reflexivity | solve_advances] | solve_thrown Hok ].

Section InputRelay.

Lemma at2_upd2 {A} (a : array2 A) i j x :
  at2 (upd2 i x a) j = if decide ((i = 0%nat) <-> (j = 0%nat)) then x else at2 a j.
Proof. destruct i, j; cbn; case_decide; try reflexivity; exfalso; intuition lia. Qed.

Lemma at2_same_slot {A} (a : array2 A) i j :
  ((i = 0%nat) <-> (j = 0%nat)) -> at2 a i = at2 a j.
Proof. destruct i, j; cbn; intros; try reflexivity; exfalso; intuition lia. Qed.

Lemma scalars_sized_zero : scalars_sized {| ret_ := false; trackingState := zero_trackingState |}.
Proof. intros [|h]; cbn; apply length_replicate. Qed.

Lemma scalars_sized_or_bit hand b l : scalars_sized l -> scalars_sized (or_bit hand b l).
Proof.
  intros H h. unfold or_bit. cbn. rewrite at2_upd2. case_decide; [|apply H].
  cbn. apply H.
Qed.

Lemma scalars_sized_put_scalar hand a v l : scalars_sized l -> scalars_sized (put_scalar hand a v l).
Proof.
  intros H h. unfold put_scalar. cbn. rewrite at2_upd2. case_decide; [|apply H].
  cbn. rewrite length_insert. apply H.
Qed.

Lemma scalars_sized_set_ret v l : scalars_sized l -> scalars_sized (set_ret v l).
Proof. intros H h. apply H. Qed.

Lemma scalars_sized_press rt hand c l : scalars_sized l -> scalars_sized (press rt hand c l).
Proof. unfold press. destruct (rising_edge _); auto using scalars_sized_or_bit. Qed.

Lemma wp_set_scalarComps E hand analog v (Q : unit -> World -> PollLocals -> Prop) w l :
  E \/ (analog < cxrAnalog_Num ana)%nat -> scalars_sized l ->
  Q tt w (put_scalar hand analog v l) ->
  wp E (set_scalarComps hand analog v) Q w l.
Proof.
  intros Hlt Hsz HQ. unfold wp, set_scalarComps, bind, local, array_set. cbn.
  rewrite Hsz. destruct (decide (analog < cxrAnalog_Num ana)%nat); [exact HQ | tauto].
Qed.

Lemma scalars_sized_if (c : bool) l1 l2 :
  scalars_sized l1 -> scalars_sized l2 -> scalars_sized (if c then l1 else l2).
Proof. destruct c; auto. Qed.

Lemma scalars_sized_release rt hand l : scalars_sized l -> scalars_sized (release rt hand l).
Proof. intros H. unfold release. apply scalars_sized_if; [apply scalars_sized_set_ret|]; exact H. Qed.

Lemma scalars_sized_analog hand slot a v l :
  scalars_sized l -> scalars_sized (analog hand slot a v l).
Proof. intros H. unfold analog. apply scalars_sized_if; [apply scalars_sized_put_scalar|]; exact H. Qed.

Ltac sized :=
  repeat lazymatch goal with
         | |- scalars_sized (press _ _ _ _) => apply scalars_sized_press
         | |- scalars_sized (release _ _ _) => apply scalars_sized_release
         | |- scalars_sized (analog _ _ _ _ _) => apply scalars_sized_analog
         | |- scalars_sized (put_scalar _ _ _ _) => apply scalars_sized_put_scalar
         | |- scalars_sized (or_bit _ _ _) => apply scalars_sized_or_bit
         | |- scalars_sized (set_ret _ _) => apply scalars_sized_set_ret
         | |- scalars_sized (if _ then _ else _) => apply scalars_sized_if
         | |- _ => assumption
         end.

(** One statement of the loop body: [F] is what it does to the locals. *)
Ltac statement Hs Hsz F :=
  match goal with
  | |- wp _ _ _ ?w ?l =>
      eapply wp_seq with (R := fun _ w' l' => l' = F l /\ advances input_event w w');
      [
      | let Hs' := fresh "Hs" in
        let Hl := fresh "Hl" in
        let l' := fresh "l" in
        let Hsz' := fresh "Hsz" in
        intros _ ? l' [Hl Hs']; cbv beta in Hl;
        apply (advances_trans _ _ _ _ Hs) in Hs'; clear Hs; rename Hs' into Hs;
        assert (Hsz' : scalars_sized l') by (rewrite Hl; sized);
        clear Hsz; rename Hsz' into Hsz ]
  end.

Ltac getter Hok :=
  apply wp_bind;
  first [ apply wp_get_ActionStateBoolean; [exact Hok|]
        | apply wp_get_ActionStateFloat; [exact Hok|]
        | apply wp_get_ActionStateVector2f; [exact Hok|] ].

Lemma in_range_cases (E : Prop) :
  E \/ analogs_in_range ->
  (E \/ (cxrAnalog_Trigger ana < cxrAnalog_Num ana)%nat)
  /\ (E \/ (cxrAnalog_JoystickX ana < cxrAnalog_Num ana)%nat)
  /\ (E \/ (cxrAnalog_JoystickY ana < cxrAnalog_Num ana)%nat)
  /\ (E \/ (cxrAnalog_Grip ana < cxrAnalog_Num ana)%nat).
Proof.
  intros [He | Hr]; [tauto|].
  unfold analogs_in_range in Hr. rewrite !Forall_cons in Hr. tauto.
Qed.

Lemma PollActions_hand_wp E rt hand w l :
  E \/ actions_ok rt -> E \/ analogs_in_range -> scalars_sized l ->
  wp E (PollActions_hand rt hand)
     (fun _ w' l' => l' = hand_update rt hand l /\ advances input_event w w') w l.
Proof.
  intros Hok Hrange Hsz. unfold PollActions_hand.
  apply in_range_cases in Hrange as (Htrigger & HjoyX & HjoyY & Hgrip).
  pose proof (advances_refl input_event w) as Hs. revert Hs. generalize w at 1 3. intros w0 Hs.
  pose (idl := fun l : PollLocals => l).
  (* grab, quit, touchpad *)
  getter Hok. statement Hs Hsz idl; [stanza Hok|].
  getter Hok. statement Hs Hsz idl; [stanza Hok|].
  getter Hok. statement Hs Hsz idl; [stanza Hok|].
  (* home *)
  getter Hok.
  statement Hs Hsz (press rt hand (homeAction, cxrButton_System btn)); [stanza Hok|].
  (* back *)
  getter Hok.
  statement Hs Hsz (release rt hand); [unfold release; stanza Hok|].
  (* side *)
  getter Hok. statement Hs Hsz idl; [stanza Hok|].
  (* trigger *)
  getter Hok.
  statement Hs Hsz
    (analog hand (cxrAnalog_Trigger ana) (f_isActive (float_state rt triggerAction hand))
            (f_currentState (float_state rt triggerAction hand))).
  { unfold analog. apply wp_when; intros ->.
    - apply wp_set_scalarComps; [assumption | sized |]. split; auto using advances_refl.
    - split; auto using advances_refl. }
  (* joystick *)
  getter Hok.
  statement Hs Hsz
    (fun l => analog hand (cxrAnalog_JoystickY ana) (v_isActive (joystick_state rt hand))
                (v2_y (v_currentState (joystick_state rt hand)))
                (analog hand (cxrAnalog_JoystickX ana) (v_isActive (joystick_state rt hand))
                   (v2_x (v_currentState (joystick_state rt hand))) l)).
  { unfold analog. apply wp_when; intros ->.
    - apply wp_bind. unfold wp at 1. cbn.
      apply wp_bind, wp_set_scalarComps; [assumption | sized |].
      apply wp_set_scalarComps; [assumption | sized |].
      split; [reflexivity | solve_advances].
    - split; auto using advances_refl. }
  (* battery, rocker touch *)
  getter Hok. statement Hs Hsz idl; [stanza Hok|].
  getter Hok. statement Hs Hsz idl; [stanza Hok|].
  (* trigger touch *)
  getter Hok.
  statement Hs Hsz (press rt hand (TriggerTouchAction, cxrButton_Trigger_Touch btn));
    [stanza Hok|].
  (* thumbrest touch *)
  getter Hok. statement Hs Hsz idl; [stanza Hok|].
  (* grip *)
  getter Hok.
  statement Hs Hsz
    (analog hand (cxrAnalog_Grip ana) (f_isActive (float_state rt GripAction hand))
            (f_currentState (float_state rt GripAction hand))).
  { unfold analog. apply wp_when; intros ->.
    - apply wp_set_scalarComps; [assumption | sized |]. split; auto using advances_refl.
    - split; auto using advances_refl. }
  (* B, Y, A, X *)
  getter Hok. statement Hs Hsz (press rt hand (BAction, cxrButton_B btn)); [stanza Hok|].
  getter Hok. statement Hs Hsz (press rt hand (YAction, cxrButton_Y btn)); [stanza Hok|].
  getter Hok. statement Hs Hsz (press rt hand (AAction, cxrButton_A btn)); [stanza Hok|].
  getter Hok. statement Hs Hsz (press rt hand (XAction, cxrButton_X btn)); [stanza Hok|].
  (* the four touches *)
  getter Hok. statement Hs Hsz idl; [stanza Hok|].
  getter Hok. statement Hs Hsz idl; [stanza Hok|].
  getter Hok. statement Hs Hsz idl; [stanza Hok|].
  getter Hok. statement Hs Hsz idl; [stanza Hok|].
  (* pose *)
  apply wp_bind, wp_get_ActionStatePose; [exact Hok|]. intros poseState.
  unfold wp. cbn. split; [subst; reflexivity|].
  eapply advances_trans; [exact Hs | solve_advances].
Qed.

Lemma scalars_sized_hand_update rt hand l :
  scalars_sized l -> scalars_sized (hand_update rt hand l).
Proof. intros H. unfold hand_update. sized. Qed.

Lemma PollActions_wp E rt w l :
  E \/ actions_ok rt -> E \/ analogs_in_range ->
  wp E (PollActions rt)
     (fun r w' l' =>
        l' = snapshot rt /\ r = ret_ l' /\ same_setup w w'
        /\ exists evs,
             Forall input_event evs
             /\ trace w' = trace w ++ evs
                   ++ (if m_cloudxr w then [EvSetTrackingState (trackingState l')] else []))
     w l.
Proof.
  intros Hok Hana. unfold PollActions.
  apply wp_bind, wp_set_local.
  apply wp_bind. unfold set_handActive. apply wp_set_member.
  apply wp_bind, wp_CHECK_XRRESULT.
  { intros Hf. destruct Hok as [He | (Hsync & _)]; [exact He | congruence]. }
  intros _.
  apply wp_bind, wp_set_local.
  match goal with |- wp _ _ _ ?w1 ?l1 => set (w0 := w1); set (l0 := l1) end.
  assert (Hl0 : l0 = {| ret_ := false; trackingState := zero_trackingState |}) by reflexivity.
  assert (Hw0 : advances input_event w w0) by (subst w0; solve_advances).
  clearbody w0 l0.
  cbn [for_each].
  eapply wp_seq with
    (R := fun _ w2 l2 =>
            l2 = hand_update rt Side.RIGHT (hand_update rt Side.LEFT l0)
            /\ advances input_event w w2).
  { eapply wp_seq with
      (R := fun _ w1 l1 =>
              l1 = hand_update rt Side.LEFT l0 /\ advances input_event w0 w1).
    - apply PollActions_hand_wp; [exact Hok | exact Hana |].
      subst l0. apply scalars_sized_zero.
    - cbv beta. intros _ w1 l1 [-> Hw1].
      eapply wp_seq with
        (R := fun _ w2 l2 =>
                l2 = hand_update rt Side.RIGHT (hand_update rt Side.LEFT l0)
                /\ advances input_event w1 w2).
      + apply PollActions_hand_wp; [exact Hok | exact Hana |].
        subst l0. apply scalars_sized_hand_update, scalars_sized_zero.
      + cbv beta. intros _ w2 l2 [-> Hw2]. apply wp_ret.
        exact (conj eq_refl (advances_trans _ _ _ _ Hw0 (advances_trans _ _ _ _ Hw1 Hw2))). }
  cbv beta. intros _ w2 l2 [Hl2 [Hs (evs & Ht & Hevs)]].
  assert (Hc : m_cloudxr w2 = m_cloudxr w) by apply Hs.
  unfold wp, bind, member, when, local, emit, set_member. rewrite Hc.
  subst l0. fold (snapshot rt) in Hl2.
  destruct (m_cloudxr w); cbn; (split; [exact Hl2 | split; [reflexivity | split]]).
  - destruct Hs as (? & ? & ? & ? & ? & ? & ? & ?). repeat split; assumption.
  - exists evs. split; [exact Hevs|]. rewrite Ht, <- app_assoc. reflexivity.
  - exact Hs.
  - exists evs. split; [exact Hevs|]. rewrite Ht, app_nil_r. reflexivity.
Qed.


(** *** The snapshot, field by field *)

Lemma ret_press rt hand c l : ret_ (press rt hand c l) = ret_ l.
Proof. unfold press. destruct (rising_edge _); reflexivity. Qed.

Lemma ret_analog hand slot a v l : ret_ (analog hand slot a v l) = ret_ l.
Proof. unfold analog. destruct (a =? XR_TRUE); reflexivity. Qed.

Lemma ret_release rt hand l :
  ret_ (release rt hand l) = ret_ l || release_edge (button_state rt backAction hand).
Proof.
  unfold release. destruct (release_edge _); cbn; [apply eq_sym, orb_true_r | apply eq_sym, orb_false_r].
Qed.

Lemma ret_hand_update rt hand l :
  ret_ (hand_update rt hand l)
  = ret_ l || release_edge (button_state rt backAction hand).
Proof.
  unfold hand_update. rewrite !ret_press, !ret_analog, !ret_press, !ret_analog, ret_release,
    ret_press. reflexivity.
Qed.

Lemma ret_snapshot rt :
  ret_ (snapshot rt)
  = release_edge (button_state rt backAction Side.LEFT)
    || release_edge (button_state rt backAction Side.RIGHT).
Proof. unfold snapshot. rewrite !ret_hand_update. reflexivity. Qed.

Lemma bits_press rt hand c l h :
  bits_of (trackingState (press rt hand c l)) h
  = if same_slot hand h then press_bits rt hand (bits_of (trackingState l) h) c
    else bits_of (trackingState l) h.
Proof.
  unfold press, press_bits, bits_of, same_slot. destruct (rising_edge _); cbn.
  - rewrite at2_upd2. rewrite bool_decide_decide. destruct (decide _) as [Hd|]; [|reflexivity].
    cbn. rewrite (at2_same_slot _ _ _ Hd). reflexivity.
  - destruct (bool_decide _); reflexivity.
Qed.

Lemma bits_analog hand slot a v l h :
  bits_of (trackingState (analog hand slot a v l)) h = bits_of (trackingState l) h.
Proof.
  unfold analog, bits_of. destruct (a =? XR_TRUE); [|reflexivity].
  cbn. rewrite at2_upd2. case_decide as Hd; [|reflexivity].
  cbn. rewrite (at2_same_slot _ _ _ Hd). reflexivity.
Qed.

Lemma bits_release rt hand l h :
  bits_of (trackingState (release rt hand l)) h = bits_of (trackingState l) h.
Proof. unfold release. destruct (release_edge _); reflexivity. Qed.

Lemma bits_hand_update rt hand l h :
  bits_of (trackingState (hand_update rt hand l)) h
  = if same_slot hand h
    then foldl (press_bits rt hand) (bits_of (trackingState l) h) (button_controls)
    else bits_of (trackingState l) h.
Proof.
  unfold hand_update.
  rewrite !bits_press, !bits_analog, !bits_press, !bits_analog, bits_release, bits_press.
  destruct (same_slot hand h); reflexivity.
Qed.

Lemma testbit_button b k :
  0 <= b < 64 -> Z.testbit (uint64 (Z.shiftl 1 b)) k = (b =? k).
Proof.
  intros Hb. unfold uint64. rewrite Z.shiftl_1_l.
  rewrite Z.mod_small by (split; [apply Z.pow_nonneg; lia | apply Z.pow_lt_mono_r; lia]).
  apply Z.pow2_bits_eqb. lia.
Qed.

Lemma testbit_press_bits rt hand controls :
  forall bits k,
    Forall (fun b => 0 <= b < 64) (snd <$> controls) ->
    Z.testbit (foldl (press_bits rt hand) bits controls) k
    = Z.testbit bits k
      || existsb (fun c => rising_edge (button_state rt (fst c) hand) && (snd c =? k)) controls.
Proof.
  induction controls as [|c controls IH]; intros bits k Hr; cbn.
  - symmetry. apply orb_false_r.
  - cbn in Hr. apply Forall_cons in Hr as [Hc Hr]. rewrite IH by exact Hr.
    unfold press_bits. destruct (rising_edge _); cbn.
    + rewrite Z.lor_spec, testbit_button by exact Hc. rewrite orb_assoc. reflexivity.
    + reflexivity.
Qed.

Lemma existsb_control rt hand controls :
  forall c,
    NoDup (snd <$> controls) -> c ∈ controls ->
    existsb (fun c' => rising_edge (button_state rt (fst c') hand) && (snd c' =? snd c)) controls
    = rising_edge (button_state rt (fst c) hand).
Proof.
  induction controls as [|c0 controls IH]; intros c Hnd Hin.
  - inversion Hin.
  - cbn in Hnd. apply NoDup_cons in Hnd as [Hfresh Hnd]. cbn.
    apply elem_of_cons in Hin as [-> | Hin].
    + rewrite Z.eqb_refl, andb_true_r.
      replace (existsb _ controls) with false; [apply orb_false_r|].
      symmetry. apply not_true_is_false. intros Hex.
      apply existsb_exists in Hex as (c' & Hc' & Hb).
      apply andb_true_iff in Hb as [_ Hb]. apply Z.eqb_eq in Hb.
      apply Hfresh. rewrite <- Hb. apply list_elem_of_fmap. exists c'. split; [reflexivity|].
      apply list_elem_of_In. exact Hc'.
    + rewrite IH by assumption.
      replace (snd c0 =? snd c) with false; [rewrite andb_false_r; reflexivity|].
      symmetry. apply Z.eqb_neq. intros Heq. apply Hfresh. rewrite Heq.
      apply list_elem_of_fmap. exists c. split; [reflexivity | exact Hin].
Qed.

(** In the snapshot a button's bit is its control's rising edge. *)
Lemma snapshot_bit rt hand c :
  buttons_wf -> hand ∈ [Side.LEFT; Side.RIGHT] -> c ∈ button_controls ->
  Z.testbit (bits_of (trackingState (snapshot rt)) hand) (snd c)
  = rising_edge (button_state rt (fst c) hand).
Proof.
  intros [Hrange Hnd] Hhand Hc. unfold snapshot.
  rewrite !bits_hand_update.
  assert (Hcases : hand = Side.LEFT \/ hand = Side.RIGHT).
  { apply elem_of_cons in Hhand as [-> | Hhand]; [left; reflexivity|].
    apply elem_of_cons in Hhand as [-> | Hhand]; [right; reflexivity | inversion Hhand]. }
  destruct Hcases as [-> | ->].
  all: change (same_slot Side.LEFT Side.LEFT) with true.
  all: change (same_slot Side.RIGHT Side.RIGHT) with true.
  all: change (same_slot Side.LEFT Side.RIGHT) with false.
  all: change (same_slot Side.RIGHT Side.LEFT) with false.
  all: cbv iota.
  all: rewrite testbit_press_bits by exact Hrange.
  all: rewrite existsb_control by assumption.
  all: change (bits_of _ _) with 0; rewrite Z.bits_0; reflexivity.
Qed.

Lemma scalars_press rt hand c l h :
  scalars_of (trackingState (press rt hand c l)) h = scalars_of (trackingState l) h.
Proof.
  unfold press, scalars_of. destruct (rising_edge _); [|reflexivity].
  cbn. rewrite at2_upd2. case_decide as Hd; [|reflexivity].
  cbn. rewrite (at2_same_slot _ _ _ Hd). reflexivity.
Qed.

Lemma scalars_release rt hand l h :
  scalars_of (trackingState (release rt hand l)) h = scalars_of (trackingState l) h.
Proof. unfold release. destruct (release_edge _); reflexivity. Qed.

Lemma scalars_analog hand slot a v l h :
  scalars_of (trackingState (analog hand slot a v l)) h
  = if same_slot hand h then put_if a slot v (scalars_of (trackingState l) h)
    else scalars_of (trackingState l) h.
Proof.
  unfold analog, put_if, scalars_of, same_slot. destruct (a =? XR_TRUE); cbn.
  - rewrite at2_upd2, bool_decide_decide. destruct (decide _) as [Hd|]; [|reflexivity].
    cbn. rewrite (at2_same_slot _ _ _ Hd). reflexivity.
  - destruct (bool_decide _); reflexivity.
Qed.

Lemma scalars_hand_update rt hand l h :
  scalars_of (trackingState (hand_update rt hand l)) h
  = if same_slot hand h
    then put_if (f_isActive (float_state rt GripAction hand)) (cxrAnalog_Grip ana)
           (f_currentState (float_state rt GripAction hand))
           (put_if (v_isActive (joystick_state rt hand)) (cxrAnalog_JoystickY ana)
              (v2_y (v_currentState (joystick_state rt hand)))
              (put_if (v_isActive (joystick_state rt hand)) (cxrAnalog_JoystickX ana)
                 (v2_x (v_currentState (joystick_state rt hand)))
                 (put_if (f_isActive (float_state rt triggerAction hand))
                    (cxrAnalog_Trigger ana)
                    (f_currentState (float_state rt triggerAction hand))
                    (scalars_of (trackingState l) h))))
    else scalars_of (trackingState l) h.
Proof.
  unfold hand_update.
  rewrite !scalars_press, scalars_analog, scalars_press, !scalars_analog, scalars_release,
    scalars_press.
  destruct (same_slot hand h); reflexivity.
Qed.

Lemma lookup_put_if_ne a slot v xs i :
  slot <> i -> put_if a slot v xs !! i = xs !! i.
Proof. intros Hne. unfold put_if. destruct (a =? XR_TRUE); [apply list_lookup_insert_ne; exact Hne | reflexivity]. Qed.

Lemma lookup_put_if_inactive a slot v xs i :
  a <> XR_TRUE -> put_if a slot v xs !! i = xs !! i.
Proof. intros Hne. unfold put_if. apply Z.eqb_neq in Hne. rewrite Hne. reflexivity. Qed.

(** The scalars of one controller of the snapshot. *)
Lemma snapshot_scalars rt hand :
  hand ∈ [Side.LEFT; Side.RIGHT] ->
  scalars_of (trackingState (snapshot rt)) hand
  = put_if (f_isActive (float_state rt GripAction hand)) (cxrAnalog_Grip ana)
      (f_currentState (float_state rt GripAction hand))
      (put_if (v_isActive (joystick_state rt hand)) (cxrAnalog_JoystickY ana)
         (v2_y (v_currentState (joystick_state rt hand)))
         (put_if (v_isActive (joystick_state rt hand)) (cxrAnalog_JoystickX ana)
            (v2_x (v_currentState (joystick_state rt hand)))
            (put_if (f_isActive (float_state rt triggerAction hand))
               (cxrAnalog_Trigger ana)
               (f_currentState (float_state rt triggerAction hand))
               (replicate (cxrAnalog_Num ana) f32_zero)))).
Proof.
  intros Hhand. unfold snapshot. rewrite !scalars_hand_update.
  assert (Hcases : hand = Side.LEFT \/ hand = Side.RIGHT).
  { apply elem_of_cons in Hhand as [-> | Hhand]; [left; reflexivity|].
    apply elem_of_cons in Hhand as [-> | Hhand]; [right; reflexivity | inversion Hhand]. }
  destruct Hcases as [-> | ->].
  all: change (same_slot Side.LEFT Side.LEFT) with true.
  all: change (same_slot Side.RIGHT Side.RIGHT) with true.
  all: change (same_slot Side.LEFT Side.RIGHT) with false.
  all: change (same_slot Side.RIGHT Side.LEFT) with false.
  all: reflexivity.
Qed.

Lemma PollActions_returns rt w l :
  actions_ok rt -> analogs_in_range -> returns (PollActions rt) w l.
Proof.
  intros Hok Hrange.
  destruct (wp_returns _ _ _ _ (PollActions_wp False rt w l (or_intror Hok) (or_intror Hrange)))
    as (r & w' & l' & Hrun & _).
  exists r, w', l'. exact Hrun.
Qed.

(** What a run of [PollActions] that returns has done. *)
Lemma PollActions_Ret rt w l r w' l' :
  PollActions rt w l = Ret r w' l' ->
  l' = snapshot rt /\ r = ret_ l' /\ same_setup w w'
  /\ exists evs,
       Forall input_event evs
       /\ trace w' = trace w ++ evs
             ++ (if m_cloudxr w then [EvSetTrackingState (trackingState l')] else []).
Proof.
  intros Hrun.
  exact (wp_Ret _ _ _ _ _ _ _ _
           (PollActions_wp True rt w l (or_introl I) (or_introl I)) Hrun).
Qed.

Lemma PollActions_forwards rt w l r w' l' :
  PollActions rt w l = Ret r w' l' -> m_cloudxr w = true ->
  forwards w w' (trackingState (snapshot rt)) /\ m_cloudxr w' = true.
Proof.
  intros Hrun Hc. apply PollActions_Ret in Hrun as (-> & _ & Hs & evs & Hevs & Ht).
  rewrite Hc in Ht. split; [exists evs; auto|].
  destruct Hs as (_ & _ & _ & _ & _ & _ & _ & Hc'). congruence.
Qed.

(** C8: the snapshot that a tick forwards has the bit of a boolean button
    control (home/System, trigger-touch, B, Y, A, X) set, for a hand, exactly
    when that control was sampled for that hand with [isActive],
    [changedSinceLastSync] and [currentState] all [XR_TRUE]; and on a following
    tick where the control is still down but [changedSinceLastSync] is
    [XR_FALSE], the snapshot forwarded then has the bit clear. *)
Theorem rising_edge_only_bits rt w l r w' l' :
  buttons_wf -> m_cloudxr w = true ->
  PollActions rt w l = Ret r w' l' ->
  exists ts,
    forwards w w' ts
    /\ (forall hand c,
          hand ∈ [Side.LEFT; Side.RIGHT] -> c ∈ button_controls ->
          Z.testbit (bits_of ts hand) (snd c) = true
          <-> b_isActive (button_state rt (fst c) hand) = XR_TRUE
              /\ b_changedSinceLastSync (button_state rt (fst c) hand) = XR_TRUE
              /\ b_currentState (button_state rt (fst c) hand) = XR_TRUE)
    /\ (forall rt2 l2 r2 w2 l2' hand c,
          PollActions rt2 w' l2 = Ret r2 w2 l2' ->
          hand ∈ [Side.LEFT; Side.RIGHT] -> c ∈ button_controls ->
          b_currentState (button_state rt2 (fst c) hand) = XR_TRUE ->
          b_changedSinceLastSync (button_state rt2 (fst c) hand) = XR_FALSE ->
          exists ts2, forwards w' w2 ts2 /\ Z.testbit (bits_of ts2 hand) (snd c) = false).
Proof.
  intros Hwf Hc Hrun.
  destruct (PollActions_forwards _ _ _ _ _ _ Hrun Hc) as [Hfw Hc'].
  exists (trackingState (snapshot rt)). split; [exact Hfw|]. split.
  - intros hand c Hhand Hin. rewrite snapshot_bit by assumption.
    unfold rising_edge. rewrite !andb_true_iff, !Z.eqb_eq. tauto.
  - intros rt2 l2 r2 w2 l2' hand c Hrun2 Hhand Hin Hstate Hchanged.
    destruct (PollActions_forwards _ _ _ _ _ _ Hrun2 Hc') as [Hfw2 _].
    exists (trackingState (snapshot rt2)). split; [exact Hfw2|].
    rewrite snapshot_bit by assumption.
    unfold rising_edge. rewrite Hchanged. cbn. rewrite andb_false_r. reflexivity.
Qed.

(** C9: [PollActions] returns [true] exactly when, for some hand, the back
    button was sampled with [isActive] and [changedSinceLastSync] [XR_TRUE] and
    a [currentState] that is not [XR_TRUE] (the release edge); it therefore
    returns [false] when neither hand's back button changed or when it changed
    to pressed.  [PollActions] does return when the runtime calls succeed. *)
Theorem back_release_signal rt w l :
  (forall r w' l',
     PollActions rt w l = Ret r w' l' ->
     (r = true
      <-> exists hand,
            hand ∈ [Side.LEFT; Side.RIGHT]
            /\ b_isActive (button_state rt backAction hand) = XR_TRUE
            /\ b_changedSinceLastSync (button_state rt backAction hand) = XR_TRUE
            /\ b_currentState (button_state rt backAction hand) <> XR_TRUE)
     /\ ((forall hand,
            hand ∈ [Side.LEFT; Side.RIGHT] ->
            b_changedSinceLastSync (button_state rt backAction hand) <> XR_TRUE
            \/ b_currentState (button_state rt backAction hand) = XR_TRUE) ->
         r = false))
  /\ (actions_ok rt -> analogs_in_range -> returns (PollActions rt) w l).
Proof.
  split; [|apply PollActions_returns].
  intros r w' l' Hrun. apply PollActions_Ret in Hrun as (-> & -> & _).
  rewrite ret_snapshot.
  assert (Hedge : forall hand,
             release_edge (button_state rt backAction hand) = true
             <-> b_isActive (button_state rt backAction hand) = XR_TRUE
                 /\ b_changedSinceLastSync (button_state rt backAction hand) = XR_TRUE
                 /\ b_currentState (button_state rt backAction hand) <> XR_TRUE).
  { intros hand. unfold release_edge.
    rewrite !andb_true_iff, negb_true_iff, !Z.eqb_eq, Z.eqb_neq. tauto. }
  split.
  - rewrite orb_true_iff, !Hedge. split.
    + intros [H | H]; [exists Side.LEFT | exists Side.RIGHT];
        (split; [rewrite !elem_of_cons; auto | exact H]).
    + intros (hand & Hhand & H).
      apply elem_of_cons in Hhand as [-> | Hhand]; [left; exact H|].
      apply elem_of_cons in Hhand as [-> | Hhand]; [right; exact H | inversion Hhand].
  - intros Hno. apply orb_false_iff. split; apply not_true_is_false; rewrite Hedge.
    + intros (_ & Hch & Hst).
      destruct (Hno Side.LEFT) as [H | H]; [rewrite !elem_of_cons; auto | |]; auto.
    + intros (_ & Hch & Hst).
      destruct (Hno Side.RIGHT) as [H | H]; [rewrite !elem_of_cons; auto | |]; auto.
Qed.

(** C10, amended: a scalar control reported inactive on a tick leaves its slot
    of the forwarded snapshot at 0.0, and a boolean button control reported
    inactive leaves its bit clear: the snapshot is built from zero on every
    tick, whatever the ticks before it forwarded. *)
Theorem inactive_controls_are_zero rt w l r w' l' :
  buttons_wf -> analogs_wf -> m_cloudxr w = true ->
  PollActions rt w l = Ret r w' l' ->
  exists ts,
    forwards w w' ts
    /\ forall hand,
         hand ∈ [Side.LEFT; Side.RIGHT] ->
         (f_isActive (float_state rt triggerAction hand) <> XR_TRUE ->
          scalars_of ts hand !! cxrAnalog_Trigger ana = Some f32_zero)
         /\ (v_isActive (joystick_state rt hand) <> XR_TRUE ->
             scalars_of ts hand !! cxrAnalog_JoystickX ana = Some f32_zero
             /\ scalars_of ts hand !! cxrAnalog_JoystickY ana = Some f32_zero)
         /\ (f_isActive (float_state rt GripAction hand) <> XR_TRUE ->
             scalars_of ts hand !! cxrAnalog_Grip ana = Some f32_zero)
         /\ (forall c,
               c ∈ button_controls ->
               b_isActive (button_state rt (fst c) hand) <> XR_TRUE ->
               Z.testbit (bits_of ts hand) (snd c) = false).
Proof.
  intros Hbtn [Hrange Hnd] Hc Hrun.
  destruct (PollActions_forwards _ _ _ _ _ _ Hrun Hc) as [Hfw _].
  exists (trackingState (snapshot rt)). split; [exact Hfw|].
  intros hand Hhand. rewrite snapshot_scalars by exact Hhand.
  unfold analogs_in_range in Hrange. rewrite !Forall_cons in Hrange.
  destruct Hrange as (HT & HX & HY & HG & _).
  rewrite !NoDup_cons in Hnd. destruct Hnd as (HnT & HnX & HnY & _).
  assert (cxrAnalog_Trigger ana <> cxrAnalog_JoystickX ana
          /\ cxrAnalog_Trigger ana <> cxrAnalog_JoystickY ana
          /\ cxrAnalog_Trigger ana <> cxrAnalog_Grip ana
          /\ cxrAnalog_JoystickX ana <> cxrAnalog_JoystickY ana
          /\ cxrAnalog_JoystickX ana <> cxrAnalog_Grip ana
          /\ cxrAnalog_JoystickY ana <> cxrAnalog_Grip ana)
    as (HTX & HTY & HTG & HXY & HXG & HYG).
  { repeat rewrite elem_of_cons in HnT. repeat rewrite elem_of_cons in HnX.
    repeat rewrite elem_of_cons in HnY. intuition congruence. }
  repeat split.
  - intros Hin. rewrite !lookup_put_if_ne by congruence.
    rewrite lookup_put_if_inactive by exact Hin. apply lookup_replicate_2. exact HT.
  - rewrite lookup_put_if_ne by congruence.
    rewrite !lookup_put_if_inactive by assumption.
    rewrite lookup_put_if_ne by congruence. apply lookup_replicate_2. exact HX.
  - rewrite lookup_put_if_ne by congruence.
    rewrite !lookup_put_if_inactive by assumption.
    rewrite lookup_put_if_ne by congruence. apply lookup_replicate_2. exact HY.
  - intros Hin. rewrite lookup_put_if_inactive by exact Hin.
    rewrite !lookup_put_if_ne by congruence. apply lookup_replicate_2. exact HG.
  - intros c Hin Hinactive. rewrite snapshot_bit by assumption.
    unfold rising_edge. apply Z.eqb_neq in Hinactive. rewrite Hinactive. reflexivity.
Qed.

End InputRelay.

(** ** Frame compositor *)

Lemma emits_nil w : emits [] w = w.
Proof. destruct w. unfold emits, with_trace. cbn. rewrite app_nil_r. reflexivity. Qed.

Lemma emits_emits e1 e2 w : emits e2 (emits e1 w) = emits (e1 ++ e2) w.
Proof. unfold emits, with_trace. cbn. rewrite app_assoc. reflexivity. Qed.

Lemma emit_emits e evs w : with_trace (trace (emits evs w) ++ [e]) (emits evs w) = emits (evs ++ [e]) w.
Proof. apply emits_emits. Qed.

Lemma set_handPose_same l : set_handPose (handPose l) l = l.
Proof. destruct l. reflexivity. Qed.

Lemma wp_emits {L} E e (Q : unit -> World -> L -> Prop) w l :
  Q tt (emits [e] w) l -> wp E (emit e) Q w l.
Proof. auto. Qed.

Ltac norm_list :=
  repeat first [rewrite <- app_assoc | rewrite app_nil_r | progress cbn [app]].

(** One primitive statement at the head of the program. *)
Ltac wp_step :=
  lazymatch goal with
  | |- wp _ (bind _ _) _ _ _ => apply wp_bind; wp_step
  | |- wp _ (member _) _ _ _ => apply wp_member
  | |- wp _ (local _) _ _ _ => apply wp_local
  | |- wp _ (set_member _) _ _ _ => apply wp_set_member
  | |- wp _ (set_local _) _ _ _ => apply wp_set_local
  | |- wp _ (emit _) _ _ _ => apply wp_emits
  | |- wp _ (Log_Write _ _) _ _ _ => apply wp_emits
  | |- wp _ (ret _) _ _ _ => apply wp_ret
  end; cbv beta.

Lemma wp_for_seq {L} E (Inv : nat -> World -> L -> Prop) (body : nat -> M L unit) n :
  forall w l,
    Inv 0%nat w l ->
    (forall i w' l', (i < n)%nat -> Inv i w' l' -> wp E (body i) (fun _ => Inv (S i)) w' l') ->
    wp E (for_each (seq 0 n) body) (fun _ => Inv n) w l.
Proof.
  intros w l H0 Hbody.
  assert (Hgen : forall k s w l, (s + k = n)%nat -> Inv s w l ->
                   wp E (for_each (seq s k) body) (fun _ => Inv n) w l).
  { induction k as [|k IH]; intros s w1 l1 Hsk Hs; cbn [seq for_each].
    - replace n with s by lia. exact Hs.
    - eapply wp_seq.
      + apply Hbody; [lia | exact Hs].
      + cbv beta. intros _ w2 l2 Hs2. apply IH; [lia | exact Hs2]. }
  apply Hgen; [lia | exact H0].
Qed.

Lemma wp_RenderLayer_hand E rt hand w l :
  E \/ XR_FAILED (fst (xrLocateSpace_aim rt hand)) = false ->
  wp E (RenderLayer_hand rt hand)
     (fun _ w' l' =>
        w' = emits (hand_events rt w hand) w
        /\ l' = set_handPose (handPose l ++ hand_poses rt hand) l) w l.
Proof.
  intros Hok. unfold RenderLayer_hand, hand_events, hand_poses, hand_valid.
  destruct (xrLocateSpace_aim rt hand) as [res loc]. cbn [fst snd] in *.
  apply wp_bind, wp_CHECK_XRRESULT; [intros; destruct Hok; [assumption | congruence]|].
  intros _. destruct (XR_UNQUALIFIED_SUCCESS res); cbn [negb andb].
  - apply wp_when; intros ->; cbn [andb]; [wp_step|];
      rewrite emits_nil, ?app_nil_r, ?set_handPose_same; auto.
  - wp_step. apply wp_when; intros ->; [wp_step|];
      rewrite ?emits_nil, ?app_nil_r, ?set_handPose_same; auto.
Qed.

Lemma render_ok_spec rt w :
  render_ok rt w = true ->
  XR_FAILED (lv_result (xrLocateViews rt)) = false
  /\ viewCountOutput (xrLocateViews rt) = uint32 (Z.of_nat (length (m_views w)))
  /\ viewCountOutput (xrLocateViews rt) = Z.of_nat (length (m_configViews w))
  /\ viewCountOutput (xrLocateViews rt) = Z.of_nat (length (m_swapchains w))
  /\ XR_FAILED (fst (xrLocateSpace_aim rt Side.LEFT)) = false
  /\ XR_FAILED (fst (xrLocateSpace_aim rt Side.RIGHT)) = false
  /\ XR_FAILED (fst (fst (xrLocateSpace_view rt))) = false
  /\ m_cloudxr w = true
  /\ (view_count rt <= Side.COUNT)%nat
  /\ forall i, (i < view_count rt)%nat -> view_ok rt w i.
Proof.
  unfold render_ok. rewrite !andb_true_iff, !negb_true_iff, !Z.eqb_eq, bool_decide_eq_true.
  intros (((((((((H1 & H2) & H3) & H4) & H5) & H6) & H7) & H8) & H9) & H10).
  repeat (split; [assumption|]).
  intros i Hi. rewrite forallb_forall in H10. specialize (H10 i).
  rewrite !andb_true_iff, !negb_true_iff, !bool_decide_eq_true in H10.
  assert (Hin : In i (seq 0 (view_count rt))) by (apply in_seq; lia).
  specialize (H10 Hin). unfold view_ok. tauto.
Qed.


Lemma set_pose_same l : set_pose_ (pose_ l) l = l.
Proof. destruct l. reflexivity. Qed.

Lemma set_projectionLayerViews_same l :
  set_projectionLayerViews (projectionLayerViews l) l = l.
Proof. destruct l. reflexivity. Qed.

Lemma set_projectionLayerViews_twice a b l :
  set_projectionLayerViews a (set_projectionLayerViews b l) = set_projectionLayerViews a l.
Proof. reflexivity. Qed.

Lemma wp_when_ret {L} E c (Q : unit -> World -> L -> Prop) w l :
  Q tt w l -> wp E (when c (ret tt)) Q w l.
Proof. destruct c; auto. Qed.

Lemma wp_assign_pose E i v (Q : unit -> World -> RenderLocals -> Prop) w l :
  ((i < length (pose_ l))%nat -> Q tt w (set_pose_ (<[i := Some v]> (pose_ l)) l)) ->
  ((length (pose_ l) <= i)%nat -> E) ->
  wp E (assign_pose i v) Q w l.
Proof.
  intros HQ HE. unfold assign_pose. wp_step. unfold array_set.
  destruct (decide (i < length (pose_ l))%nat); [wp_step; auto | apply wp_throw, HE; lia].
Qed.

Lemma wp_read_pose E i (Q : XrPosef -> World -> RenderLocals -> Prop) w l v :
  pose_ l !! i = Some (Some v) -> Q v w l -> wp E (read_pose i) Q w l.
Proof.
  intros Hi HQ. unfold read_pose. wp_step.
  apply wp_bind, wp_array_get; [|congruence].
  intros x Hx. rewrite Hi in Hx. injection Hx as <-. wp_step. exact HQ.
Qed.

(** The first pose loop: [pose[i] = m_views[i].pose]. *)
Lemma wp_pose_loop E n w l :
  (n <= length (m_views w))%nat -> E \/ (n <= Side.COUNT)%nat ->
  pose_ l = replicate Side.COUNT None ->
  wp E (for_each (seq 0 n) (fun i =>
          views <- member m_views ;;
          view_i <- array_get views i "m_views[i]" ;;
          assign_pose i (view_pose view_i)))
     (fun _ w' l' =>
        w' = w
        /\ exists arr,
             l' = set_pose_ arr l /\ length arr = Side.COUNT
             /\ forall j, (j < n)%nat ->
                  arr !! j = Some (Some (default zero_pose (view_pose <$> m_views w !! j))))
     w l.
Proof.
  intros Hn Hcount Hpose.
  apply (wp_for_seq E (fun i w' l' =>
           w' = w
           /\ exists arr,
                l' = set_pose_ arr l /\ length arr = Side.COUNT
                /\ forall j, (j < i)%nat ->
                     arr !! j = Some (Some (default zero_pose (view_pose <$> m_views w !! j))))).
  - split; [reflexivity|]. exists (pose_ l). rewrite set_pose_same.
    split; [reflexivity|]. split; [rewrite Hpose; apply length_replicate | lia].
  - intros i w' l' Hi (-> & arr & -> & Hlen & Harr).
    wp_step. apply wp_bind, wp_array_get.
    + intros view_i Hview. apply wp_assign_pose; cbn [pose_ set_pose_].
      * intros Hlt. split; [reflexivity|].
        exists (<[i := Some (view_pose view_i)]> arr). split; [reflexivity|].
        split; [rewrite length_insert; exact Hlen|].
        intros j Hj. destruct (decide (j = i)) as [-> | Hne].
        -- rewrite list_lookup_insert_eq by exact Hlt. rewrite Hview. reflexivity.
        -- rewrite list_lookup_insert_ne by congruence. apply Harr. lia.
      * intros Hge. destruct Hcount as [He | Hc]; [exact He | lia].
    + intros Hnone. apply lookup_ge_None in Hnone. lia.
Qed.

(** The second pose loop, run when a frame was latched: position, then
    orientation, of every pose is overwritten. *)
Lemma wp_override_loop E n (position : XrVector3f) (orientation : XrQuaternionf) w l :
  length (pose_ l) = Side.COUNT ->
  (forall j, (j < n)%nat -> exists v, pose_ l !! j = Some (Some v)) ->
  wp E (for_each (seq 0 n) (fun i =>
          p <- read_pose i ;;
          assign_pose i (with_position position p) ;;
          p <- read_pose i ;;
          assign_pose i (with_orientation orientation p)))
     (fun _ w' l' =>
        w' = w
        /\ exists arr,
             l' = set_pose_ arr l /\ length arr = Side.COUNT
             /\ forall j, (j < n)%nat ->
                  arr !! j = Some (Some {| orientation := orientation; position := position |}))
     w l.
Proof.
  intros Hlen Hinit.
  eapply wp_mono; [apply (wp_for_seq E (fun i w' l' =>
           w' = w
           /\ exists arr,
                l' = set_pose_ arr l /\ length arr = Side.COUNT
                /\ (forall j, (j < i)%nat ->
                      arr !! j = Some (Some {| orientation := orientation; position := position |}))
                /\ (forall j, (i <= j < n)%nat -> exists v, arr !! j = Some (Some v))))|].
  - split; [reflexivity|]. exists (pose_ l). rewrite set_pose_same.
    split; [reflexivity|]. split; [exact Hlen|]. split; [lia|].
    intros j Hj. apply Hinit. lia.
  - intros i w' l' Hi (-> & arr & -> & Hlen' & Hdone & Htodo).
    destruct (Htodo i) as [v Hv]; [lia|].
    assert (Hlt : (i < length arr)%nat) by (apply lookup_lt_is_Some; eauto).
    apply wp_bind, (wp_read_pose E i _ _ _ v); [exact Hv|].
    apply wp_bind, wp_assign_pose; cbn [pose_ set_pose_]; [|lia]. intros _.
    apply wp_bind, (wp_read_pose E i _ _ _ (with_position position v));
      [cbn [pose_ set_pose_]; apply list_lookup_insert_eq; exact Hlt|].
    apply wp_assign_pose; cbn [pose_ set_pose_]; [|rewrite length_insert; lia]. intros _.
    split; [reflexivity|]. eexists. split; [reflexivity|].
    split; [rewrite !length_insert; exact Hlen'|]. split.
    + intros j Hj. destruct (decide (j = i)) as [-> | Hne].
      * rewrite list_lookup_insert_eq by (rewrite length_insert; exact Hlt). reflexivity.
      * rewrite !list_lookup_insert_ne by congruence. apply Hdone. lia.
    + intros j Hj. rewrite !list_lookup_insert_ne by lia. apply Htodo. lia.
  - intros _ w' l' (-> & arr & -> & Hlen' & Hdone & _). eauto.
Qed.
(** The view loop. *)
Lemma wp_view_loop E rt fl w0 wb lb :
  fl = snd (LatchFrame rt) ->
  m_swapchains wb = m_swapchains w0 -> m_views wb = located_views rt w0 ->
  m_swapchainImages wb = m_swapchainImages w0 ->
  m_colorSwapchainFormat wb = m_colorSwapchainFormat w0 ->
  view_count rt = length (m_swapchains w0) ->
  (view_count rt <= length (located_views rt w0))%nat ->
  length (projectionLayerViews lb) = view_count rt ->
  (forall j, (j < view_count rt)%nat -> pose_ lb !! j = Some (Some (stamped_pose rt w0 j))) ->
  (forall i, (i < view_count rt)%nat -> E \/ view_ok rt w0 i) ->
  wp E (for_each (seq 0 (view_count rt)) (RenderLayer_view rt fl))
     (fun _ w' l' =>
        w' = emits (flat_map (view_events rt w0) (seq 0 (view_count rt))) wb
        /\ l' = set_projectionLayerViews (submitted_views rt w0) lb
        /\ views_drawn rt w0 (view_count rt)) wb lb.
Proof.
  intros -> Hsw Hviews Himgs Hfmt Hn Hlv Hplv Hpose Hok.
  eapply wp_mono; [apply (wp_for_seq E (fun i w' l' =>
    w' = emits (flat_map (view_events rt w0) (seq 0 i)) wb
    /\ l' = set_projectionLayerViews
              ((submitted_view rt w0 <$> seq 0 i) ++ drop i (projectionLayerViews lb)) lb
    /\ views_drawn rt w0 i))|].
  - rewrite emits_nil. change (seq 0 0) with (@nil nat).
    rewrite fmap_nil, app_nil_l, drop_0, set_projectionLayerViews_same.
    split; [reflexivity|]. split; [reflexivity|]. intros j Hj. lia.
  - intros i w' l' Hi (-> & -> & Hdrawn).
    destruct (lookup_lt_is_Some_2 (m_swapchains w0) i) as [sc Hsc]; [lia|].
    destruct (lookup_lt_is_Some_2 (located_views rt w0) i) as [xv Hxv]; [lia|].
    assert (Hsco : swapchain_of w0 i = sc) by (unfold swapchain_of; rewrite Hsc; reflexivity).
    specialize (Hok i Hi). unfold view_ok in Hok. rewrite Hsco in Hok.
    assert (Hevents : forall img tex,
              acquired_image rt w0 i = Some img -> frame_texture rt i = Some tex ->
              view_events rt w0 i
              = [ EvXrAcquireSwapchainImage (handle sc); EvXrWaitSwapchainImage (handle sc);
                  EvRenderView
                    {| pose := stamped_pose rt w0 i; fov := view_fov xv;
                       subImage := {| sub_swapchain := handle sc;
                                      imageRect := {| offset := (0, 0);
                                                      extent := (width sc, height sc) |};
                                      imageArrayIndex := 0 |} |}
                    img (m_colorSwapchainFormat w0) tex;
                  EvXrReleaseSwapchainImage (handle sc) ]).
    { intros img tex Himg Htex. unfold view_events, submitted_view.
      rewrite Himg, Htex, Hsco, Hxv. reflexivity. }
    assert (Hsub : submitted_view rt w0 i
                   = {| pose := stamped_pose rt w0 i; fov := view_fov xv;
                        subImage := {| sub_swapchain := handle sc;
                                       imageRect := {| offset := (0, 0);
                                                       extent := (width sc, height sc) |};
                                       imageArrayIndex := 0 |} |}).
    { unfold submitted_view. rewrite Hsco, Hxv. reflexivity. }
    unfold RenderLayer_view, CHECK_XRCMD.
    wp_step. cbn [m_swapchains emits with_trace]. rewrite Hsw.
    apply wp_bind, wp_array_get; [|congruence].
    intros sc' Hsc'. rewrite Hsc in Hsc'. injection Hsc' as <-.
    wp_step.
    unfold acquired_image in Hok, Hevents. rewrite Hsco in Hok, Hevents.
    destruct (xrAcquireSwapchainImage rt (handle sc)) as [res idx] eqn:Hacq. cbn [fst snd] in *.
    apply wp_bind, wp_CHECK_XRRESULT; [intros; destruct Hok as [|(? & _)]; [assumption | congruence]|].
    intros _. wp_step.
    apply wp_bind, wp_CHECK_XRRESULT;
      [intros; destruct Hok as [|(_ & ? & _)]; [assumption | congruence]|].
    intros _.
    apply wp_bind, (wp_read_pose E i _ _ _ (stamped_pose rt w0 i));
      [cbn [pose_ set_projectionLayerViews]; apply Hpose; exact Hi|].
    wp_step. cbn [m_views emits with_trace]. rewrite Hviews.
    apply wp_bind, wp_array_get; [|congruence].
    intros xv' Hxv'. rewrite Hxv in Hxv'. injection Hxv' as <-.
    cbv zeta. wp_step. cbn [projectionLayerViews set_projectionLayerViews].
    assert (Hlen : length ((submitted_view rt w0 <$> seq 0 i) ++ drop i (projectionLayerViews lb))
                   = view_count rt).
    { rewrite length_app, length_fmap, length_seq, length_drop. lia. }
    unfold array_set. rewrite Hlen.
    destruct (decide (i < view_count rt)%nat) as [_|]; [|lia].
    apply wp_bind. wp_step.
    wp_step. cbn [m_swapchainImages emits with_trace]. rewrite Himgs.
    apply wp_bind.
    destruct (m_swapchainImages w0 !! handle sc) as [imgs|] eqn:Himgs0; cbn [mbind option_bind] in *;
      [|apply wp_throw; destruct Hok as [|(_ & _ & _ & [? ?] & _)]; [assumption | discriminate]].
    apply wp_array_get;
      [|intros Hnone; destruct Hok as [|(_ & _ & _ & [? ?] & _)]; [assumption | congruence]].
    intros img Himg.
    wp_step. cbn [m_colorSwapchainFormat emits with_trace]. rewrite Hfmt.
    unfold frame_texture in Hok, Hevents.
    apply wp_bind, wp_array_get;
      [|intros Hnone; rewrite Hnone in Hok; destruct Hok as [|(_ & _ & _ & _ & [? ?])];
        [assumption | discriminate]].
    intros frame_i Hframe. rewrite Hframe in Hevents. cbn [fmap option_fmap option_map] in Hevents.
    wp_step. wp_step.
    apply wp_CHECK_XRRESULT;
      [intros; destruct Hok as [|(_ & _ & ? & _)]; [assumption | congruence]|].
    intros _. split; [|split].
    + rewrite !emits_emits. rewrite seq_S, flat_map_app. cbn [flat_map Nat.add].
      rewrite app_nil_r, (Hevents img (texture frame_i) Himg eq_refl).
      reflexivity.
    + rewrite set_projectionLayerViews_twice. f_equal.
      rewrite seq_S, fmap_app. cbn [Nat.add fmap list_fmap].
      rewrite insert_app_r_alt by (rewrite length_fmap, length_seq; lia).
      rewrite length_fmap, length_seq, Nat.sub_diag.
      destruct (lookup_lt_is_Some_2 (projectionLayerViews lb) i) as [z Hz]; [lia|].
      rewrite (drop_S _ _ _ Hz). cbn [insert list_insert]. rewrite <- app_assoc. cbn.
      rewrite Hsub. reflexivity.
    + intros j Hj. destruct (decide (j = i)) as [-> | Hne]; [|apply Hdrawn; lia].
      unfold acquired_image, frame_texture. rewrite Hsco, Himgs0, Hacq.
      cbn [mbind option_bind snd]. rewrite Himg, Hframe. cbn. eauto.
  - cbv beta. intros _ w' l' (-> & -> & Hdrawn). split; [reflexivity|].
    rewrite drop_ge by lia. rewrite app_nil_r. auto.
Qed.

Lemma length_write_views located buffer : length (write_views located buffer) = length buffer.
Proof.
  unfold write_views. rewrite length_take, length_app, length_drop. lia.
Qed.

(** Within the buffer, element [i] is the view that [xrLocateViews] wrote
    there. *)
Lemma lookup_located_views rt w i x :
  (i < length (m_views w))%nat ->
  lv_views (xrLocateViews rt) !! i = Some x ->
  located_views rt w !! i = Some x.
Proof.
  intros Hi Hx. unfold located_views, write_views.
  rewrite lookup_take_lt by exact Hi. apply lookup_app_l_Some, Hx.
Qed.

Lemma hand_events_input rt w w' hand :
  m_input w' = m_input w -> hand_events rt w' hand = hand_events rt w hand.
Proof. unfold hand_events. intros ->. reflexivity. Qed.

(** What [RenderLayer] does, when it returns. *)
Lemma RenderLayer_wp E rt t w l :
  E \/ render_ok rt w = true ->
  wp E (RenderLayer rt t)
     (fun r w' l' =>
        r = true
        /\ w' = emits (render_events rt w)
                  (with_GsIndex (lv_gsIndex (xrLocateViews rt))
                     (with_views (located_views rt w) w))
        /\ projectionLayerViews l' = submitted_views rt w
        /\ layer l' = submitted_layer rt w
        /\ handPose l' = valid_hand_poses rt
        /\ views_checked rt w) w l.
Proof.
  intros Hok0.
  assert (Hok : E \/ _) by (destruct Hok0 as [He | Hok0];
                             [left; exact He | right; exact (render_ok_spec _ _ Hok0)]).
  clear Hok0. unfold RenderLayer.
  wp_step. cbv zeta. wp_step. wp_step.
  fold (located_views rt w).
  set (w1 := with_GsIndex _ (with_views _ w)).
  apply wp_bind, wp_CHECK_XRRESULT;
    [intros; destruct Hok as [|(? & _)]; [assumption | congruence]|].
  intros _. apply wp_bind, wp_when_ret.
  wp_step. wp_step.
  change (m_configViews w1) with (m_configViews w).
  change (m_swapchains w1) with (m_swapchains w).
  apply wp_bind, wp_CHECK;
    [intros Hf; apply Z.eqb_neq in Hf; destruct Hok as [|(_ & ? & _)]; [assumption | congruence]|].
  intros Hcap. apply Z.eqb_eq in Hcap.
  apply wp_bind, wp_CHECK;
    [intros Hf; apply Z.eqb_neq in Hf; destruct Hok as [|(_ & _ & ? & _)];
     [assumption | congruence]|].
  intros _.
  apply wp_bind, wp_CHECK;
    [intros Hf; apply Z.eqb_neq in Hf; destruct Hok as [|(_ & _ & _ & ? & _)];
     [assumption | congruence]|].
  intros Hsw. apply Z.eqb_eq in Hsw.
  fold (view_count rt).
  assert (Hn : view_count rt = length (m_swapchains w)).
  { unfold view_count. rewrite Hsw. apply Nat2Z.id. }
  assert (Hnv : (view_count rt <= length (located_views rt w))%nat).
  { unfold view_count, located_views. rewrite length_write_views, Hcap. unfold uint32.
    pose proof (Z.mod_le (Z.of_nat (length (m_views w))) (2 ^ 32)). lia. }
  wp_step. wp_step.
  (* the hand loop *)
  cbn [for_each]. apply wp_bind, wp_bind. eapply wp_mono.
  { apply wp_RenderLayer_hand. destruct Hok as [|(_ & _ & _ & _ & ? & _)]; auto. }
  cbv beta. intros _ ? ? [-> ->].
  apply wp_bind. eapply wp_mono.
  { apply wp_RenderLayer_hand. destruct Hok as [|(_ & _ & _ & _ & _ & ? & _)]; auto. }
  cbv beta. intros _ ? ? [-> ->]. wp_step.
  rewrite emits_emits. cbn [handPose set_handPose app].
  change (hand_events rt w1 Side.LEFT) with (hand_events rt w Side.LEFT).
  change (hand_events rt (emits (hand_events rt w Side.LEFT) w1) Side.RIGHT)
    with (hand_events rt w Side.RIGHT).
  fold (valid_hand_poses rt).
  match goal with
  | |- wp _ _ _ _ ?lc =>
      change lc with (set_handPose (valid_hand_poses rt)
                        (set_projectionLayerViews
                           (resize (view_count rt) new_projection_view
                              (projectionLayerViews l)) l))
  end.
  set (l1 := set_handPose _ _).
  (* head pose, forwarding, latch *)
  unfold render_events, latch_events.
  destruct (xrLocateSpace_view rt) as [[res spaceLocation] velocity]. cbn [fst snd] in *.
  apply wp_bind, wp_CHECK_XRRESULT;
    [intros; destruct Hok as [|(_ & _ & _ & _ & _ & _ & ? & _)]; [assumption | congruence]|].
  intros _. wp_step. change (m_cloudxr (emits _ w1)) with (m_cloudxr w).
  apply wp_bind. destruct (m_cloudxr w);
    [|apply wp_throw; destruct Hok as [|(_ & _ & _ & _ & _ & _ & _ & ? & _)];
      [assumption | discriminate]].
  wp_step. wp_step. wp_step.
  change (handPose l1) with (valid_hand_poses rt).
  assert (Hframe : forall i, stamped_pose rt w i
                   = if fst (LatchFrame rt) then remote_pose (snd (LatchFrame rt))
                     else local_pose rt w i) by reflexivity.
  assert (Hviewok : forall i, (i < view_count rt)%nat -> E \/ view_ok rt w i).
  { intros i Hi. destruct Hok as [|(_ & _ & _ & _ & _ & _ & _ & _ & _ & Hv)]; auto. }
  assert (Hcount : E \/ (view_count rt <= Side.COUNT)%nat).
  { destruct Hok as [|(_ & _ & _ & _ & _ & _ & _ & _ & ? & _)]; auto. }
  clear Hok.
  destruct (LatchFrame rt) as [framevaild framesLatched] eqn:Hlatch. cbn [fst snd] in *.
  wp_step. wp_step. rewrite !emits_emits, <- !app_assoc. cbn [app].
  (* the poses *)
  eapply wp_seq.
  { apply wp_pose_loop; [exact Hnv | exact Hcount | reflexivity]. }
  cbv beta. intros _ ? ? (-> & arr & -> & Hlen & Harr).
  match goal with |- wp _ _ _ ?wc _ => set (w2 := wc) in * end.
  eapply wp_seq with
    (R := fun _ w' l' =>
            w' = emits (if framevaild then [] else [EvLog Info "not get framesLatched"]) w2
            /\ exists arr',
                 l' = set_pose_ arr' l1 /\ length arr' = Side.COUNT
                 /\ forall j, (j < view_count rt)%nat ->
                      arr' !! j = Some (Some (stamped_pose rt w j))).
  { destruct framevaild.
    - eapply wp_mono.
      + apply wp_override_loop; cbn [pose_ set_pose_]; [exact Hlen | eauto].
      + cbv beta. intros _ ? ? (-> & arr' & -> & Hlen' & Harr').
        rewrite emits_nil. split; [reflexivity|]. exists arr'.
        split; [reflexivity|]. split; [exact Hlen'|].
        intros j Hj. rewrite Hframe. apply Harr'. exact Hj.
    - wp_step. split; [reflexivity|]. exists arr.
      split; [reflexivity|]. split; [exact Hlen|].
      intros j Hj. rewrite Hframe. apply Harr. exact Hj. }
  cbv beta. intros _ ? ? (-> & arr' & -> & Hlen' & Harr').
  (* the views *)
  eapply wp_seq.
  { apply (wp_view_loop E rt framesLatched w); try reflexivity.
    - rewrite Hlatch. reflexivity.
    - exact Hn.
    - exact Hnv.
    - cbn. apply length_resize.
    - exact Harr'.
    - exact Hviewok. }
  cbv beta. intros _ ? ? (-> & -> & Hdrawn).
  apply wp_bind, wp_when; intros ->.
  - wp_step. wp_step. wp_step. wp_step. wp_step.
    split; [reflexivity|].
    split; [|split; [reflexivity | split; [reflexivity | split; [reflexivity|]]]; exact (conj Hnv (conj Hn Hdrawn))].
    subst w2. rewrite !emits_emits. f_equal. norm_list. reflexivity.
  - wp_step. wp_step. wp_step. wp_step.
    split; [reflexivity|].
    split; [|split; [reflexivity | split; [reflexivity | split; [reflexivity|]]]; exact (conj Hnv (conj Hn Hdrawn))].
    subst w2. rewrite !emits_emits. f_equal. norm_list. reflexivity.
Qed.

Lemma frame_ok_spec rt w :
  frame_ok rt w = true ->
  (m_session w =? XR_NULL_HANDLE) = false
  /\ XR_FAILED (fst (xrWaitFrame rt)) = false
  /\ XR_FAILED (xrBeginFrame rt) = false
  /\ (renders rt = true -> render_ok rt w = true)
  /\ XR_FAILED (xrEndFrame rt) = false.
Proof.
  unfold frame_ok. rewrite !andb_true_iff, !negb_true_iff.
  intros ((((H1 & H2) & H3) & H4) & H5). repeat (split; [assumption|]).
  split; [|assumption]. intros Hr. rewrite Hr in H4. exact H4.
Qed.

Lemma render_events_emits rt evs w : render_events rt (emits evs w) = render_events rt w.
Proof. reflexivity. Qed.

Lemma submitted_layer_emits rt evs w : submitted_layer rt (emits evs w) = submitted_layer rt w.
Proof. reflexivity. Qed.

Lemma located_views_emits rt evs w : located_views rt (emits evs w) = located_views rt w.
Proof. reflexivity. Qed.

Lemma RenderFrame_wp E rt w :
  E \/ frame_ok rt w = true ->
  wp E (RenderFrame rt)
     (fun _ w' _ =>
        w' = frame_world rt w
        /\ (renders rt = true -> views_checked rt w)) w tt.
Proof.
  intros Hok0.
  assert (Hok : E \/ _) by (destruct Hok0 as [He | Hok0];
                             [left; exact He | right; exact (frame_ok_spec _ _ Hok0)]).
  clear Hok0. unfold RenderFrame, frame_world, frame_events, end_info, CHECK_XRCMD.
  unfold renders in *.
  wp_step.
  apply wp_bind, wp_CHECK.
  { intros Hf. apply negb_false_iff in Hf. destruct Hok as [|(? & _)]; [assumption | congruence]. }
  intros _. wp_step.
  destruct (xrWaitFrame rt) as [res frameState]. cbn [fst snd] in *.
  apply wp_bind, wp_CHECK_XRRESULT;
    [intros; destruct Hok as [|(_ & ? & _)]; [assumption | congruence]|].
  intros _. wp_step.
  apply wp_bind, wp_CHECK_XRRESULT;
    [intros; destruct Hok as [|(_ & _ & ? & _)]; [assumption | congruence]|].
  intros _. rewrite emits_emits. cbn [app].
  assert (Hend : E \/ XR_FAILED (xrEndFrame rt) = false)
    by (destruct Hok as [|(_ & _ & _ & _ & ?)]; auto).
  apply wp_bind.
  destruct (shouldRender frameState =? XR_TRUE).
  - apply wp_bind. unfold wp at 1, call.
    assert (Hrender : E \/ render_ok rt (emits [EvXrWaitFrame; EvXrBeginFrame] w) = true).
    { destruct Hok as [|(_ & _ & _ & Hr & _)]; [left; assumption | right; exact (Hr eq_refl)]. }
    pose proof (RenderLayer_wp E rt (predictedDisplayTime frameState)
                  (emits [EvXrWaitFrame; EvXrBeginFrame] w)
                  {| projectionLayerViews := []; layer := new_layer;
                     handPose := []; pose_ := [] |} Hrender) as Hlayer.
    unfold wp in Hlayer.
    destruct (RenderLayer rt _ _ _) as [r w' l' | e w' l']; [|exact Hlayer].
    destruct Hlayer as (-> & -> & _ & Hl & _ & Hdrawn).
    wp_step. wp_step. wp_step. wp_step. wp_step. wp_step.
    apply wp_CHECK_XRRESULT; [intros; destruct Hend; [assumption | congruence]|].
    intros _. rewrite Hl. split; [|intros _; exact Hdrawn].
    rewrite render_events_emits, submitted_layer_emits, located_views_emits.
    unfold emits. cbn. rewrite <- !app_assoc. reflexivity.
  - wp_step. wp_step. wp_step. wp_step. wp_step. wp_step.
    apply wp_CHECK_XRRESULT; [intros; destruct Hend; [assumption | congruence]|].
    intros _. split; [|discriminate].
    unfold emits. cbn. rewrite <- !app_assoc. reflexivity.
Qed.

(** *** What a run that returns has done *)

Lemma RenderLayer_Ret rt t w l r w' l' :
  RenderLayer rt t w l = Ret r w' l' ->
  r = true
  /\ w' = emits (render_events rt w)
            (with_GsIndex (lv_gsIndex (xrLocateViews rt)) (with_views (located_views rt w) w))
  /\ projectionLayerViews l' = submitted_views rt w
  /\ layer l' = submitted_layer rt w
  /\ handPose l' = valid_hand_poses rt
  /\ views_checked rt w.
Proof.
  intros Hrun. exact (wp_Ret _ _ _ _ _ _ _ _ (RenderLayer_wp True rt t w l (or_introl I)) Hrun).
Qed.

Lemma RenderLayer_returns rt t w l :
  render_ok rt w = true -> returns (RenderLayer rt t) w l.
Proof.
  intros Hok.
  destruct (wp_returns _ _ _ _ (RenderLayer_wp False rt t w l (or_intror Hok)))
    as (r & w' & l' & Hrun & _).
  exists r, w', l'. exact Hrun.
Qed.

Lemma RenderFrame_Ret rt w u w' l' :
  RenderFrame rt w tt = Ret u w' l' ->
  w' = frame_world rt w /\ (renders rt = true -> views_checked rt w).
Proof.
  intros Hrun. exact (wp_Ret _ _ _ _ _ _ _ _ (RenderFrame_wp True rt w (or_introl I)) Hrun).
Qed.

Lemma RenderFrame_returns rt w : frame_ok rt w = true -> returns (RenderFrame rt) w tt.
Proof.
  intros Hok.
  destruct (wp_returns _ _ _ _ (RenderFrame_wp False rt w (or_intror Hok)))
    as (r & w' & l' & Hrun & _).
  exists r, w', l'. exact Hrun.
Qed.

Lemma trace_frame_world rt w : trace (frame_world rt w) = trace w ++ frame_events rt w.
Proof. unfold frame_world. destruct (renders rt); reflexivity. Qed.

Lemma length_submitted_views rt w : length (submitted_views rt w) = view_count rt.
Proof. unfold submitted_views. rewrite length_fmap. apply length_seq. Qed.

Lemma lookup_submitted_views rt w i v :
  submitted_views rt w !! i = Some v ->
  (i < view_count rt)%nat /\ v = submitted_view rt w i.
Proof.
  unfold submitted_views. intros Hv.
  apply list_lookup_fmap_Some in Hv as (j & -> & Hj).
  apply lookup_seq in Hj as [-> Hlt]. auto.
Qed.

(** The frame a rendering tick submits. *)
Lemma frame_events_renders rt w :
  renders rt = true ->
  frame_events rt w
  = [EvXrWaitFrame; EvXrBeginFrame] ++ render_events rt w ++ [EvXrEndFrame (end_info rt w)]
  /\ layers (end_info rt w) = [submitted_layer rt w]
  /\ layerCount (end_info rt w) = 1.
Proof. unfold frame_events, end_info. intros ->. auto. Qed.

(** C1: on a tick whose [LatchFrame] returned a frame, every view that
    [RenderLayer] fills in, and that [RenderFrame] then submits in its one layer
    to [xrEndFrame], carries the orientation and the position decoded from the
    latched frame's [poseMatrix], whatever [xrLocateViews] predicted. *)
Theorem remote_pose_overrides_local rt t w l :
  fst (LatchFrame rt) = true ->
  (forall r w' l',
     RenderLayer rt t w l = Ret r w' l' ->
     length (projectionLayerViews l') = view_count rt
     /\ forall i v,
          projectionLayerViews l' !! i = Some v ->
          orientation (pose v) = cxrToQuaternion (poseMatrix (snd (LatchFrame rt)))
          /\ position (pose v) = cxrGetTranslation (poseMatrix (snd (LatchFrame rt))))
  /\ (renders rt = true ->
      forall u w' l',
        RenderFrame rt w tt = Ret u w' l' ->
        exists info layer,
          last (trace w') = Some (EvXrEndFrame info)
          /\ layers info = [layer]
          /\ length (views layer) = view_count rt
          /\ forall i v,
               views layer !! i = Some v ->
               orientation (pose v) = cxrToQuaternion (poseMatrix (snd (LatchFrame rt)))
               /\ position (pose v) = cxrGetTranslation (poseMatrix (snd (LatchFrame rt))))
  /\ (render_ok rt w = true -> returns (RenderLayer rt t) w l)
  /\ (frame_ok rt w = true -> returns (RenderFrame rt) w tt).
Proof.
  intros Hlatch.
  assert (Hpose : forall i v,
             submitted_views rt w !! i = Some v ->
             orientation (pose v) = cxrToQuaternion (poseMatrix (snd (LatchFrame rt)))
             /\ position (pose v) = cxrGetTranslation (poseMatrix (snd (LatchFrame rt)))).
  { intros i v Hv. apply lookup_submitted_views in Hv as [_ ->].
    unfold submitted_view, stamped_pose. rewrite Hlatch. auto. }
  split; [|split; [|split]].
  - intros r w' l' Hrun. apply RenderLayer_Ret in Hrun as (_ & _ & -> & _).
    split; [apply length_submitted_views | exact Hpose].
  - intros Hrenders u w' l' Hrun. apply RenderFrame_Ret in Hrun as [-> _].
    destruct (frame_events_renders rt w Hrenders) as (Hev & Hlayers & _).
    exists (end_info rt w), (submitted_layer rt w).
    rewrite trace_frame_world, Hev, !app_assoc, last_snoc.
    split; [reflexivity|]. split; [exact Hlayers|].
    split; [apply length_submitted_views | exact Hpose].
  - apply RenderLayer_returns.
  - apply RenderFrame_returns.
Qed.

(** C2: on a tick whose [LatchFrame] returned not-available, view [i] as
    [RenderLayer] fills it in, and as [RenderFrame] submits it, carries the pose
    that this tick's [xrLocateViews] wrote for view [i], which is also the pose
    of [m_views[i]] from then on. *)
Theorem local_pose_is_the_fallback rt t w l :
  fst (LatchFrame rt) = false ->
  (forall r w' l',
     RenderLayer rt t w l = Ret r w' l' ->
     m_views w' = located_views rt w
     /\ length (projectionLayerViews l') = view_count rt
     /\ forall i v,
          projectionLayerViews l' !! i = Some v ->
          (forall x, lv_views (xrLocateViews rt) !! i = Some x -> pose v = view_pose x)
          /\ exists located, m_views w' !! i = Some located /\ pose v = view_pose located)
  /\ (renders rt = true ->
      forall u w' l',
        RenderFrame rt w tt = Ret u w' l' ->
        exists info layer,
          last (trace w') = Some (EvXrEndFrame info)
          /\ layers info = [layer]
          /\ length (views layer) = view_count rt
          /\ forall i v,
               views layer !! i = Some v ->
               (forall x, lv_views (xrLocateViews rt) !! i = Some x -> pose v = view_pose x)
               /\ exists located,
                    m_views w' !! i = Some located /\ pose v = view_pose located)
  /\ (render_ok rt w = true -> returns (RenderLayer rt t) w l)
  /\ (frame_ok rt w = true -> returns (RenderFrame rt) w tt).
Proof.
  intros Hlatch.
  assert (Hpose : forall i v,
             views_checked rt w ->
             submitted_views rt w !! i = Some v ->
             (forall x, lv_views (xrLocateViews rt) !! i = Some x -> pose v = view_pose x)
             /\ exists located,
                  located_views rt w !! i = Some located /\ pose v = view_pose located).
  { intros i v (Hlen & _) Hv. apply lookup_submitted_views in Hv as [Hi ->].
    destruct (lookup_lt_is_Some_2 (located_views rt w) i) as [located Hlocated]; [lia|].
    assert (Hhere : pose (submitted_view rt w i) = view_pose located).
    { unfold submitted_view, stamped_pose, local_pose. rewrite Hlatch, Hlocated.
      reflexivity. }
    split; [|exists located; split; [exact Hlocated | exact Hhere]].
    intros x Hx. rewrite Hhere. unfold located_views in Hlen.
    rewrite length_write_views in Hlen.
    rewrite (lookup_located_views rt w i x) in Hlocated by (lia || exact Hx).
    injection Hlocated as <-. reflexivity. }
  split; [|split; [|split]].
  - intros r w' l' Hrun. apply RenderLayer_Ret in Hrun as (_ & -> & -> & _ & _ & Hchecked).
    split; [reflexivity|]. split; [apply length_submitted_views|].
    intros i v Hv. exact (Hpose i v Hchecked Hv).
  - intros Hrenders u w' l' Hrun. apply RenderFrame_Ret in Hrun as [-> Hchecked].
    destruct (frame_events_renders rt w Hrenders) as (Hev & Hlayers & _).
    exists (end_info rt w), (submitted_layer rt w).
    rewrite trace_frame_world, Hev, !app_assoc, last_snoc.
    split; [reflexivity|]. split; [exact Hlayers|].
    split; [apply length_submitted_views|].
    intros i v Hv. unfold frame_world. rewrite Hrenders.
    exact (Hpose i v (Hchecked Hrenders) Hv).
  - apply RenderLayer_returns.
  - apply RenderFrame_returns.
Qed.

(** *** Latch and release *)

Lemma count_events_app p e1 e2 :
  count_events p (e1 ++ e2) = (count_events p e1 + count_events p e2)%nat.
Proof. unfold count_events. rewrite List.filter_app. apply length_app. Qed.








(** C4: with the position-valid and the orientation-valid bit of the located
    view state both unset, a [RenderLayer] whose runtime calls succeed returns
    [true] after acquiring, waiting for, drawing into and releasing the
    swapchain image of every view, and [RenderFrame] submits its layer. *)
Theorem submits_without_valid_tracking rt t w l :
  Z.land (viewStateFlags (xrLocateViews rt)) XR_VIEW_STATE_POSITION_VALID_BIT = 0 ->
  Z.land (viewStateFlags (xrLocateViews rt)) XR_VIEW_STATE_ORIENTATION_VALID_BIT = 0 ->
  (render_ok rt w = true ->
   exists w' l' before after,
     RenderLayer rt t w l = Ret true w' l'
     /\ trace w' = trace w ++ before
                     ++ flat_map (view_events rt w) (seq 0 (view_count rt)) ++ after
     /\ length (projectionLayerViews l') = view_count rt
     /\ views (layer l') = projectionLayerViews l')
  /\ (frame_ok rt w = true -> renders rt = true ->
      exists w' info layer,
        RenderFrame rt w tt = Ret tt w' tt
        /\ last (trace w') = Some (EvXrEndFrame info)
        /\ layerCount info = 1 /\ layers info = [layer]
        /\ length (views layer) = view_count rt).
Proof.
  intros _ _. split.
  - intros Hok. destruct (RenderLayer_returns rt t w l Hok) as (r & w' & l' & Hrun).
    destruct (RenderLayer_Ret _ _ _ _ _ _ _ Hrun) as (-> & -> & Hplv & Hlayer & _).
    eexists _, l', (latch_events rt w),
      (if fst (LatchFrame rt) then [EvReleaseFrame (snd (LatchFrame rt))] else []).
    split; [exact Hrun|]. split; [reflexivity|].
    rewrite Hplv, Hlayer. split; [apply length_submitted_views | reflexivity].
  - intros Hok Hrenders. destruct (RenderFrame_returns rt w Hok) as ([] & w' & [] & Hrun).
    destruct (RenderFrame_Ret _ _ _ _ _ Hrun) as [-> _].
    destruct (frame_events_renders rt w Hrenders) as (Hev & Hlayers & Hcount).
    eexists _, (end_info rt w), (submitted_layer rt w).
    split; [exact Hrun|].
    rewrite trace_frame_world, Hev, !app_assoc, last_snoc.
    repeat split; auto. apply length_submitted_views.
Qed.

(** C5, amended: the list of hand poses that [RenderLayer] forwards with
    [SetSenserPoseState] holds the poses located on this tick with result
    [XR_SUCCESS] and both validity bits, left before right, and nothing else:
    a hand whose query is invalid on this tick has no entry in it, whatever
    earlier ticks located, and no other pose stands in for it. *)
Theorem invalid_hand_is_omitted rt t w l r w' l' :
  RenderLayer rt t w l = Ret r w' l' ->
  (exists head lin ang,
     EvSetSenserPoseState head lin ang (valid_hand_poses rt) ∈ trace w'
     /\ handPose l' = valid_hand_poses rt)
  /\ (hand_valid rt Side.LEFT = false ->
      valid_hand_poses rt
      = if hand_valid rt Side.RIGHT
        then [loc_pose (snd (xrLocateSpace_aim rt Side.RIGHT))] else [])
  /\ (hand_valid rt Side.RIGHT = false ->
      valid_hand_poses rt
      = if hand_valid rt Side.LEFT
        then [loc_pose (snd (xrLocateSpace_aim rt Side.LEFT))] else []).
Proof.
  intros Hrun. apply RenderLayer_Ret in Hrun as (_ & -> & _ & _ & -> & _).
  split; [|split].
  - eexists _, _, _. split; [|reflexivity].
    cbn [trace emits with_trace]. unfold render_events, latch_events.
    rewrite !elem_of_app, !elem_of_cons. auto 10.
  - intros Hl. unfold valid_hand_poses, hand_poses. rewrite Hl. reflexivity.
  - intros Hr. unfold valid_hand_poses, hand_poses. rewrite Hr.
    destruct (hand_valid rt Side.LEFT); reflexivity.
Qed.

(** * Further properties *)

(** ** Session state machine: what a poll keeps *)

Lemma final_bind {L A B} (P : World -> L -> Prop) (m : M L A) (k : A -> M L B) w l :
  P (final_world (m w l)) (final_locals (m w l)) ->
  (forall a w1 l1, m w l = Ret a w1 l1 ->
     P (final_world (k a w1 l1)) (final_locals (k a w1 l1))) ->
  P (final_world (bind m k w l)) (final_locals (bind m k w l)).
Proof.
  intros Hm Hk. unfold bind.
  destruct (m w l) as [a w1 l1 | e w1 l1]; cbn in *; [apply Hk; reflexivity | exact Hm].
Qed.

Lemma keeps_bind {L A B} (I : World -> L -> Prop) (m : M L A) (k : A -> M L B) :
  keeps I m -> (forall a, keeps I (k a)) -> keeps I (bind m k).
Proof.
  intros Hm Hk w l HI. specialize (Hm w l HI). unfold bind.
  destruct (m w l) as [a w1 l1 | e w1 l1]; cbn in *; [apply Hk; exact Hm | exact Hm].
Qed.

Lemma keeps_ret {L A} (I : World -> L -> Prop) (a : A) : keeps I (ret a).
Proof. intros w l HI. exact HI. Qed.

Lemma keeps_throw {L A} (I : World -> L -> Prop) e : keeps I (throw (A := A) e).
Proof. intros w l HI. exact HI. Qed.

Lemma keeps_Log_Write {L} (I : World -> L -> Prop) lvl msg :
  (forall w l, I w l -> I (emits [EvLog lvl msg] w) l) -> keeps I (Log_Write lvl msg).
Proof. intros H w l HI. apply H, HI. Qed.

Lemma keeps_TryReadNextEvent {L} (I : World -> L -> Prop) r :
  (forall lvl msg w l, I w l -> I (emits [EvLog lvl msg] w) l) ->
  keeps I (TryReadNextEvent r).
Proof.
  intros Hlog. destruct r as [xr ev]. unfold TryReadNextEvent.
  destruct (xr =? XR_SUCCESS).
  - apply keeps_bind; [|intros; apply keeps_ret].
    destruct ev; first [apply keeps_Log_Write, Hlog | apply keeps_ret].
  - destruct (xr =? XR_EVENT_UNAVAILABLE); [apply keeps_ret | apply keeps_throw].
Qed.

Lemma TryReadNextEvent_Some {L} r ev w (l : L) w' l' :
  TryReadNextEvent r w l = Ret (Some ev) w' l' -> ev = snd r /\ fst r = XR_SUCCESS.
Proof.
  destruct r as [xr e]. unfold TryReadNextEvent.
  destruct (xr =? XR_SUCCESS) eqn:Hxr.
  - apply Z.eqb_eq in Hxr. destruct e; cbn; intros H; injection H as <- _ _; auto.
  - destruct (xr =? XR_EVENT_UNAVAILABLE); cbn; discriminate.
Qed.

(** The polling loop keeps what each of its events keeps. *)
Lemma keeps_PollEvents_loop rt (I : World -> Flags -> Prop) q :
  (forall lvl msg w l, I w l -> I (emits [EvLog lvl msg] w) l) ->
  Forall (fun r => keeps I (PollEvents_switch rt (snd r))) q ->
  keeps I (PollEvents_loop rt q).
Proof.
  intros Hlog. induction q as [|r q IH]; intros Hq; cbn [PollEvents_loop].
  - apply keeps_ret.
  - apply Forall_cons in Hq as [Hr Hq].
    intros w l HI. pose proof (keeps_TryReadNextEvent I r Hlog w l HI) as Hread.
    apply final_bind; [exact Hread|].
    intros [ev|] w1 l1 Hev; rewrite Hev in Hread; cbn in Hread; [|exact Hread].
    apply TryReadNextEvent_Some in Hev as [-> _].
    specialize (Hr w1 l1 Hread). apply final_bind; [exact Hr|].
    intros c w2 l2 Hsw. rewrite Hsw in Hr. cbn in Hr.
    destruct c; [apply IH; assumption | exact Hr].
Qed.

Ltac crunch :=
  repeat (cbn in *;
    match goal with
    | |- context [match ?x with _ => _ end] =>
        lazymatch x with
        | context [match _ with _ => _ end] => fail
        | _ => destruct x eqn:?
        end
    end).

Ltac grown :=
  eexists; split;
  [ cbn; rewrite <- ?app_assoc; first [reflexivity | symmetry; apply app_nil_r]
  | repeat constructor ].

Lemma session_step_refl w : session_step w w.
Proof. repeat split. exists []. split; [symmetry; apply app_nil_r | constructor]. Qed.

Lemma session_step_trans w1 w2 w3 :
  session_step w1 w2 -> session_step w2 w3 -> session_step w1 w3.
Proof.
  intros (Hs1 & Hf1 & evs1 & Ht1 & He1) (Hs2 & Hf2 & evs2 & Ht2 & He2).
  split; [eapply same_setup_trans; eauto|]. split.
  - destruct Hf1 as (? & ? & ? & ?), Hf2 as (? & ? & ? & ?). repeat split; congruence.
  - exists (evs1 ++ evs2). rewrite Ht2, Ht1, app_assoc. split; [reflexivity|].
    apply Forall_app; auto.
Qed.

Lemma log_step_trans w1 w2 w3 : log_step w1 w2 -> log_step w2 w3 -> log_step w1 w3.
Proof.
  intros (Hr1 & evs1 & Ht1 & He1) (Hr2 & evs2 & Ht2 & He2).
  split; [congruence|]. exists (evs1 ++ evs2). rewrite Ht2, Ht1, app_assoc.
  split; [reflexivity | apply Forall_app; auto].
Qed.

(** What handling one event does, whether it returns or throws. *)
Lemma PollEvents_switch_final rt ev w l :
  let o := PollEvents_switch rt ev w l in
  session_step w (final_world o)
  /\ ((requestRestart l = true -> exitRenderLoop l = true) ->
      requestRestart (final_locals o) = true -> exitRenderLoop (final_locals o) = true)
  /\ (exitRenderLoop l = true -> exitRenderLoop (final_locals o) = true)
  /\ (forall xr, ~ starts_or_stops (xr, ev) -> log_step w (final_world o)).
Proof.
  cbv zeta. unfold PollEvents_switch.
  destruct ev as [n | t | ev | c s e | | | ty].
  3: { unfold HandleSessionStateChangedEvent, CHECK, CHECK_XRCMD, CHECK_XRRESULT, THROW_XR,
         Log_Write, emit, set_member, set_local, member, throw, ret, bind.
       split; [|split; [|split]].
       - crunch; (split; [repeat split|]); (split; [repeat split|]); grown.
       - crunch; auto.
       - crunch; auto.
       - intros xr Hno. destruct (ev_state ev) eqn:Hst;
           try (exfalso; apply Hno; exists ev; split; [reflexivity | auto]; fail);
           crunch; (split; [reflexivity|]); grown. }
  4: { unfold LogActionSourceName, CHECK_XRCMD, CHECK_XRRESULT, THROW_XR,
         Log_Write, emit, set_member, throw, ret, bind.
       split; [|split; [|split]].
       - crunch; (split; [repeat split|]); (split; [repeat split|]); grown.
       - crunch; auto.
       - crunch; auto.
       - intros xr _. crunch; (split; [reflexivity|]); grown. }
  all: cbn; (split; [split; [repeat split|]; (split; [repeat split|]); grown|]);
    (split; [auto|]); (split; [auto|]); intros xr _; (split; [reflexivity|]); grown.
Qed.

Lemma PollEvents_unfold rt q w l :
  PollEvents rt q w l = PollEvents_loop rt q w no_flags.
Proof. reflexivity. Qed.

(** X1: with no event pending ([xrPollEvent] answers [XR_EVENT_UNAVAILABLE]),
    [PollEvents] returns with both flags [false], whatever values the caller
    passed in; it has logged nothing and neither begun nor ended the session,
    the session state and the running flag are as they were, and the answers
    after this one are not read. *)
Theorem nothing_pending_clears_flags rt r rest w l :
  fst r = XR_EVENT_UNAVAILABLE ->
  exists w',
    PollEvents rt (r :: rest) w l = Ret rest w' no_flags
    /\ trace w' = trace w
    /\ m_sessionState w' = m_sessionState w
    /\ m_sessionRunning w' = m_sessionRunning w.
Proof.
  intros Hr. exists w. destruct r as [xr ev]. cbn in Hr. subst xr. repeat split.
Qed.

(** X2: any answer of [xrPollEvent] other than [XR_SUCCESS] and
    [XR_EVENT_UNAVAILABLE], a qualified success code included, makes
    [PollEvents] throw that result for "xrPollEvent"; the events handled before
    it keep their effect and the rest of the queue is not read. *)
Theorem poll_error_is_thrown rt pre xr ev post w l w1 l1 :
  Forall polled_through pre ->
  PollEvents rt pre w l = Ret [] w1 l1 ->
  xr <> XR_SUCCESS -> xr <> XR_EVENT_UNAVAILABLE ->
  PollEvents rt (pre ++ (xr, ev) :: post) w l = Thrown (XrResultError xr "xrPollEvent") w1 l1.
Proof.
  intros Hpre Hrun Hs Hu. erewrite PollEvents_app by eauto.
  cbn [PollEvents_loop]. unfold bind, TryReadNextEvent.
  apply Z.eqb_neq in Hs, Hu. rewrite Hs, Hu. reflexivity.
Qed.

(** X3: however a poll ends, by returning or by throwing, it never leaves
    [requestRestart] set without [exitRenderLoop] set. *)
Theorem restart_implies_exit rt q w l :
  requestRestart (final_locals (PollEvents rt q w l)) = true ->
  exitRenderLoop (final_locals (PollEvents rt q w l)) = true.
Proof.
  rewrite PollEvents_unfold.
  apply (keeps_PollEvents_loop rt
           (fun _ l => requestRestart l = true -> exitRenderLoop l = true) q).
  - auto.
  - apply Forall_forall. intros r _ w1 l1 HI.
    exact (proj1 (proj2 (PollEvents_switch_final rt (snd r) w1 l1)) HI).
  - discriminate.
Qed.

(** X4: once an event of a poll has set [exitRenderLoop], no later event of
    the same poll clears it, and a later failure does not either. *)
Theorem exit_request_is_kept rt pre post w l w1 l1 :
  Forall polled_through pre ->
  PollEvents rt pre w l = Ret [] w1 l1 ->
  exitRenderLoop l1 = true ->
  exitRenderLoop (final_locals (PollEvents rt (pre ++ post) w l)) = true.
Proof.
  intros Hpre Hrun Hexit. erewrite PollEvents_app by eauto.
  apply (keeps_PollEvents_loop rt (fun _ l => exitRenderLoop l = true) post).
  - auto.
  - apply Forall_forall. intros r _ w2 l2 HI.
    exact (proj1 (proj2 (proj2 (PollEvents_switch_final rt (snd r) w2 l2))) HI).
  - exact Hexit.
Qed.

(** X5: a poll, however it ends, leaves the session handle, the app space,
    the blend mode, the view configurations, the swapchains with their images
    and format, the CloudXR client, the views, the input state, [mGsIndex] and
    the frame-end extension as they were; and of the calls that the trace
    records it makes only [Log::Write], [xrBeginSession] and [xrEndSession]: no
    frame or swapchain call, no haptic feedback, no exit request and no call
    to the CloudXR client. *)
Theorem PollEvents_footprint rt q w l :
  same_setup w (final_world (PollEvents rt q w l))
  /\ same_frame_state w (final_world (PollEvents rt q w l))
  /\ exists evs,
       trace (final_world (PollEvents rt q w l)) = trace w ++ evs
       /\ Forall session_event evs.
Proof.
  rewrite PollEvents_unfold.
  apply (keeps_PollEvents_loop rt (fun w' _ => session_step w w') q).
  - intros lvl msg w1 l1 H. eapply session_step_trans; [exact H|].
    repeat split. grown.
  - apply Forall_forall. intros r _ w1 l1 HI.
    eapply session_step_trans; [exact HI|].
    exact (proj1 (PollEvents_switch_final rt (snd r) w1 l1)).
  - apply session_step_refl.
Qed.

(** X6: the running flag changes only on a state change to
    [XR_SESSION_STATE_READY] or [XR_SESSION_STATE_STOPPING]: a poll whose queue
    delivers neither leaves [m_sessionRunning] as it was and neither begins nor
    ends the session, whatever else the queue holds. *)
Theorem running_flag_needs_ready_or_stopping rt q w l :
  Forall (fun r => ~ starts_or_stops r) q ->
  m_sessionRunning (final_world (PollEvents rt q w l)) = m_sessionRunning w
  /\ exists evs,
       trace (final_world (PollEvents rt q w l)) = trace w ++ evs
       /\ Forall log_event evs.
Proof.
  intros Hq. rewrite PollEvents_unfold.
  apply (keeps_PollEvents_loop rt (fun w' _ => log_step w w') q).
  - intros lvl msg w1 l1 H. eapply log_step_trans; [exact H|].
    split; [reflexivity | grown].
  - eapply Forall_impl; [exact Hq|]. intros [xr ev] Hno w1 l1 HI.
    eapply log_step_trans; [exact HI|].
    exact (proj2 (proj2 (proj2 (PollEvents_switch_final rt ev w1 l1))) xr Hno).
  - split; [reflexivity | grown].
Qed.

(** X7: a state change to [XR_SESSION_STATE_READY] for the owned session
    stores the state, calls [xrBeginSession] once and, when that succeeds, sets
    the running flag.  When [xrBeginSession] fails the handler throws its
    result with the new state already stored and the running flag as it was;
    without a session ([m_session] null) the [CHECK] fails before the runtime
    is called. *)
Theorem ready_begins_the_session rt ev w l :
  ev_state ev = XR_SESSION_STATE_READY ->
  ev_session ev = XR_NULL_HANDLE \/ ev_session ev = m_session w ->
  (m_session w <> XR_NULL_HANDLE -> XR_FAILED (xrBeginSession rt) = false ->
   exists w',
     HandleSessionStateChangedEvent rt ev w l = Ret tt w' l
     /\ m_sessionRunning w' = true
     /\ m_sessionState w' = XR_SESSION_STATE_READY
     /\ trace w' = trace w ++ [state_changed_log; EvXrBeginSession])
  /\ (m_session w <> XR_NULL_HANDLE -> XR_FAILED (xrBeginSession rt) = true ->
      exists w',
        HandleSessionStateChangedEvent rt ev w l
        = Thrown (XrResultError (xrBeginSession rt) "xrBeginSession") w' l
        /\ m_sessionRunning w' = m_sessionRunning w
        /\ m_sessionState w' = XR_SESSION_STATE_READY
        /\ trace w' = trace w ++ [state_changed_log; EvXrBeginSession])
  /\ (m_session w = XR_NULL_HANDLE ->
      exists w',
        HandleSessionStateChangedEvent rt ev w l
        = Thrown (CheckFailed "m_session != XR_NULL_HANDLE") w' l
        /\ m_sessionRunning w' = m_sessionRunning w
        /\ m_sessionState w' = XR_SESSION_STATE_READY
        /\ trace w' = trace w ++ [state_changed_log]).
Proof.
  intros Hstate Hsession.
  assert (Hown : negb (ev_session ev =? XR_NULL_HANDLE)
                 && negb (ev_session ev =? m_session w) = false).
  { destruct Hsession as [-> | ->]; cbn; [reflexivity|].
    rewrite Z.eqb_refl. apply andb_false_r. }
  unfold HandleSessionStateChangedEvent, bind. cbn. rewrite Hown, Hstate. cbn.
  unfold CHECK, CHECK_XRCMD, CHECK_XRRESULT.
  split; [|split].
  - intros Hs%Z.eqb_neq Hok. rewrite Hs. cbn. rewrite Hok. cbn.
    eexists. split; [reflexivity|]. cbn. rewrite <- app_assoc. auto.
  - intros Hs%Z.eqb_neq Hfail. rewrite Hs. cbn. rewrite Hfail. cbn.
    eexists. split; [reflexivity|]. cbn. rewrite <- app_assoc. auto.
  - intros Hs%Z.eqb_eq. rewrite Hs. cbn.
    eexists. split; [reflexivity|]. cbn. auto.
Qed.

(** X8: a state change to [XR_SESSION_STATE_STOPPING] for the owned session
    clears the running flag before it calls [xrEndSession]: the flag is [false]
    afterwards whether [xrEndSession] succeeds or the handler throws its
    failure. *)
Theorem stopping_clears_running_first rt ev w l :
  ev_state ev = XR_SESSION_STATE_STOPPING ->
  ev_session ev = XR_NULL_HANDLE \/ ev_session ev = m_session w ->
  m_session w <> XR_NULL_HANDLE ->
  exists w',
    HandleSessionStateChangedEvent rt ev w l
    = (if XR_FAILED (xrEndSession rt)
       then Thrown (XrResultError (xrEndSession rt) "xrEndSession") w' l
       else Ret tt w' l)
    /\ m_sessionRunning w' = false
    /\ m_sessionState w' = XR_SESSION_STATE_STOPPING
    /\ trace w' = trace w ++ [state_changed_log; EvXrEndSession].
Proof.
  intros Hstate Hsession Hs%Z.eqb_neq.
  assert (Hown : negb (ev_session ev =? XR_NULL_HANDLE)
                 && negb (ev_session ev =? m_session w) = false).
  { destruct Hsession as [-> | ->]; cbn; [reflexivity|].
    rewrite Z.eqb_refl. apply andb_false_r. }
  unfold HandleSessionStateChangedEvent, bind. cbn. rewrite Hown, Hstate. cbn.
  unfold CHECK, CHECK_XRCMD, CHECK_XRRESULT. rewrite Hs. cbn.
  eexists. split; [destruct (XR_FAILED (xrEndSession rt)); reflexivity|].
  cbn. rewrite <- app_assoc. auto.
Qed.

(** ** Input relay: the world a tick leaves *)

Lemma input_world_init w : w = emits [] (with_input (m_input w) w).
Proof. unfold emits. cbn. rewrite app_nil_r. destruct w; reflexivity. Qed.

(** Runs one statement of the loop body on a world of the form
    [emits e (with_input i w0)]. *)
Ltac world_stanza :=
  unfold wp, when, CHECK_XRCMD, CHECK_XRRESULT, THROW_XR, set_handScale, set_handXYPos,
    set_scalarComps, or_booleanComps, Log_Write, emit, set_member, set_local, local, throw,
    ret, bind, grab_step, scale_step, joystick_step, haptic_events, quit_events, edge_events,
    click_events, squeezed, changed_edge, rising_edge;
  cbn [fst snd];
  repeat (match goal with
          | |- context [Z.eqb ?a ?b] => destruct (Z.eqb a b) eqn:?
          | |- context [f32_gt ?a ?b] => destruct (f32_gt a b) eqn:?
          | |- context [XR_FAILED ?r] => destruct (XR_FAILED r) eqn:?
          | |- context [array_set ?a ?b ?c] => destruct (array_set a b c) eqn:?
          end; cbn -[f32_div f32_lit f32_sub f32_mul f32_one array_set]);
  cbn -[f32_div f32_lit f32_sub f32_mul f32_one]; try exact I;
  unfold emits, with_trace, with_input; cbn -[f32_div f32_lit f32_sub f32_mul f32_one];
  rewrite <- ?app_assoc, ?app_nil_r; reflexivity.

Ltac sample Hok :=
  apply wp_bind;
  first [ apply wp_get_ActionStateBoolean; [exact Hok|]
        | apply wp_get_ActionStateFloat; [exact Hok|]
        | apply wp_get_ActionStateVector2f; [exact Hok|] ].

(** One statement: it emits [DE] and maps [m_input] by [F]. *)
Ltac world_statement DE F :=
  lazymatch goal with
  | Hw : ?w = emits ?e (with_input ?i ?w0) |- wp _ _ _ ?w _ =>
      eapply wp_seq with (R := fun _ w' _ => w' = emits (e ++ DE) (with_input (F i) w0));
      [ subst w; world_stanza
      | let w' := fresh "w" in
        let Hw' := fresh "Hw" in
        let e' := fresh "e" in
        let i' := fresh "i" in
        let He := fresh "He" in
        let Hi := fresh "Hi" in
        intros _ w' ? Hw';
        remember (e ++ DE) as e' eqn:He in Hw';
        remember (F i) as i' eqn:Hi in Hw';
        clear Hw ]
  end.

Lemma PollActions_hand_world_from rt hand w0 e i w l :
  w = emits e (with_input i w0) ->
  wp True (PollActions_hand rt hand)
     (fun _ w' _ =>
        w' = emits (e ++ hand_input_events rt hand) (with_input (hand_input rt hand i) w0))
     w l.
Proof.
  intros Hw. unfold PollActions_hand.
  pose (Hok := or_introl I : True \/ actions_ok rt).
  (* grab, quit, touchpad *)
  sample Hok.
  world_statement (haptic_events (float_state rt grabAction hand) hand)
                  (grab_step (float_state rt grabAction hand) hand).
  sample Hok.
  world_statement (quit_events (button_state rt quitAction hand)) (fun i : InputState => i).
  sample Hok.
  world_statement
    (edge_events (button_state rt touchpadAction hand)
       "pico keyevent  touchpadValue pressed %d" "pico keyevent  touchpadValue released %d")
    (scale_step (button_state rt touchpadAction hand)
       (f32_div (f32_lit 1 100) (f32_lit 1 10)) hand).
  (* home, back, side *)
  sample Hok.
  world_statement
    (edge_events (button_state rt homeAction hand)
       "pico keyevent  homekey pressed %d xxx" "pico keyevent  homekey released %d xxx")
    (fun i : InputState => i).
  sample Hok.
  world_statement
    (edge_events (button_state rt backAction hand)
       "pico keyevent  backkey pressed %d" "pico keyevent  backkey released %d")
    (fun i : InputState => i).
  sample Hok.
  world_statement
    (edge_events (button_state rt sideAction hand)
       "pico keyevent  sidekey pressed %d" "pico keyevent  sidekey released %d")
    (scale_step (button_state rt sideAction hand) (f32_div (f32_lit 1 4) (f32_lit 1 10)) hand).
  (* trigger, joystick, battery *)
  sample Hok.
  world_statement (@nil Event) (fun i : InputState => i).
  sample Hok.
  world_statement (@nil Event) (joystick_step (joystick_state rt hand) hand).
  sample Hok.
  world_statement (@nil Event) (fun i : InputState => i).
  (* the touches and the grip *)
  sample Hok.
  world_statement
    (click_events (button_state rt RockerTouchAction hand) "pico keyevent  RockerTouch click %d")
    (fun i : InputState => i).
  sample Hok.
  world_statement
    (click_events (button_state rt TriggerTouchAction hand)
       "pico keyevent  TriggerTouch click %d")
    (fun i : InputState => i).
  sample Hok.
  world_statement
    (click_events (button_state rt ThumbrestTouchAction hand)
       "pico keyevent  ThumbrestTouch click %d")
    (fun i : InputState => i).
  sample Hok.
  world_statement (@nil Event) (fun i : InputState => i).
  (* B, Y, A, X *)
  sample Hok.
  world_statement
    (edge_events (button_state rt BAction hand)
       "pico keyevent  Bkey pressed %d" "pico keyevent  Bkey released %d")
    (scale_step (button_state rt BAction hand) (f32_div (f32_lit 15 100) (f32_lit 1 10)) hand).
  sample Hok.
  world_statement
    (edge_events (button_state rt YAction hand)
       "pico keyevent  Ykey pressed %d" "pico keyevent  Ykey released %d")
    (scale_step (button_state rt YAction hand) (f32_div (f32_lit 15 100) (f32_lit 1 10)) hand).
  sample Hok.
  world_statement
    (edge_events (button_state rt AAction hand)
       "pico keyevent  Akey pressed %d" "pico keyevent  Akey released %d")
    (scale_step (button_state rt AAction hand) (f32_div (f32_lit 5 100) (f32_lit 1 10)) hand).
  sample Hok.
  world_statement
    (edge_events (button_state rt XAction hand)
       "pico keyevent  Xkey pressed %d" "pico keyevent  Xkey released %d")
    (scale_step (button_state rt XAction hand) (f32_div (f32_lit 5 100) (f32_lit 1 10)) hand).
  (* the touches of A, X, B, Y *)
  sample Hok.
  world_statement
    (click_events (button_state rt ATouchAction hand) "pico keyevent  Atouch %d")
    (fun i : InputState => i).
  sample Hok.
  world_statement
    (click_events (button_state rt XTouchAction hand) "pico keyevent  Xtouch %d")
    (fun i : InputState => i).
  sample Hok.
  world_statement
    (click_events (button_state rt BTouchAction hand) "pico keyevent  Btouch %d")
    (fun i : InputState => i).
  sample Hok.
  world_statement
    (click_events (button_state rt YTouchAction hand) "pico keyevent  Ytouch %d")
    (fun i : InputState => i).
  (* pose *)
  unfold wp, bind, get_ActionStatePose, CHECK_XRCMD, CHECK_XRRESULT, THROW_XR, member,
    set_handActive, set_member, ret, throw.
  unfold hand_input, hand_input_events, pose_step, pose_state.
  destruct (xrGetActionStatePose rt poseAction hand) as [res poseState]. cbn [fst snd].
  destruct (XR_FAILED res); [exact I|].
  subst. unfold emits, with_trace, with_input.
  cbn -[f32_div f32_lit f32_sub f32_mul f32_one haptic_events quit_events edge_events
        click_events scale_step grab_step joystick_step].
  rewrite <- !app_assoc, !app_nil_l. reflexivity.
Qed.

Lemma PollActions_hand_world rt hand w l :
  wp True (PollActions_hand rt hand)
     (fun _ w' _ =>
        w' = emits (hand_input_events rt hand) (with_input (hand_input rt hand (m_input w)) w))
     w l.
Proof.
  eapply wp_mono; [apply (PollActions_hand_world_from rt hand w [] (m_input w)),
                     input_world_init|].
  cbv beta. intros _ w' _ ->. reflexivity.
Qed.

Lemma PollActions_world_locals rt w l :
  wp True (PollActions rt)
     (fun _ w' l' =>
        w' = emits (hand_input_events rt Side.LEFT ++ hand_input_events rt Side.RIGHT
                    ++ (if m_cloudxr w then [EvSetTrackingState (trackingState l')] else []))
               (with_input (polled_input rt (m_input w)) w))
     w l.
Proof.
  unfold PollActions.
  apply wp_bind, wp_set_local.
  apply wp_bind. unfold set_handActive. apply wp_set_member.
  apply wp_bind, wp_CHECK_XRRESULT; [auto|]. intros _.
  apply wp_bind, wp_set_local.
  cbn [for_each].
  set (i0 := put_handActive {| slot0 := XR_FALSE; slot1 := XR_FALSE |} (m_input w)).
  eapply wp_seq with
    (R := fun _ w2 _ =>
            w2 = emits (hand_input_events rt Side.LEFT ++ hand_input_events rt Side.RIGHT)
                   (with_input (polled_input rt (m_input w)) w)).
  { eapply wp_seq.
    - apply (PollActions_hand_world_from rt Side.LEFT w [] i0).
      unfold emits. cbn. rewrite app_nil_r. reflexivity.
    - cbv beta. intros _ w1 l1 Hw1. eapply wp_seq.
      + apply (PollActions_hand_world_from rt Side.RIGHT w _ _ _ _ Hw1).
      + cbv beta. intros _ w2 l2 ->. apply wp_ret. reflexivity. }
  cbv beta. intros _ w2 l2 ->.
  unfold wp, bind, member, when, local, emit, set_member, ret. cbn.
  destruct (m_cloudxr w); cbn.
  - unfold emits, with_trace. cbn. rewrite <- !app_assoc. reflexivity.
  - rewrite app_nil_r. reflexivity.
Qed.

(** The world a [PollActions] that returns has left. *)
Lemma PollActions_world rt w l r w' l' :
  PollActions rt w l = Ret r w' l' ->
  w' = emits (polled_events rt w) (with_input (polled_input rt (m_input w)) w).
Proof.
  intros Hrun.
  assert (Hl : l' = snapshot rt) by (apply PollActions_Ret in Hrun; tauto).
  pose proof (wp_Ret _ _ _ _ _ _ _ _ (PollActions_world_locals rt w l) Hrun) as Hw.
  cbv beta in Hw. rewrite Hl in Hw. exact Hw.
Qed.

(** *** The input state, field by field *)

Lemma upd2_at2 {A} (a : array2 A) h : upd2 h (at2 a h) a = a.
Proof. destruct a, h; reflexivity. Qed.

Lemma upd2_upd2 {A} (a : array2 A) h x y : upd2 h y (upd2 h x a) = upd2 h y a.
Proof. destruct h; reflexivity. Qed.

Lemma at2_upd2_same {A} (a : array2 A) h x : at2 (upd2 h x a) h = x.
Proof. destruct h; reflexivity. Qed.

Lemma handScale_grab_step g hand i :
  handScale (grab_step g hand i)
  = upd2 hand (grab_value g (at2 (handScale i) hand)) (handScale i).
Proof.
  unfold grab_step, grab_value. destruct (f_isActive g =? XR_TRUE); cbn; [reflexivity|].
  symmetry. apply upd2_at2.
Qed.

Lemma handScale_scale_step s pressed hand i :
  handScale (scale_step s pressed hand i)
  = upd2 hand (scale_value s pressed (at2 (handScale i) hand)) (handScale i).
Proof.
  unfold scale_step, scale_value. destruct (changed_edge s); cbn; [reflexivity|].
  symmetry. apply upd2_at2.
Qed.

Lemma handScale_joystick_step j hand i : handScale (joystick_step j hand i) = handScale i.
Proof. unfold joystick_step. destruct (v_isActive j =? XR_TRUE); reflexivity. Qed.

Lemma handScale_hand_input rt hand i :
  handScale (hand_input rt hand i)
  = upd2 hand (hand_scale rt hand (at2 (handScale i) hand)) (handScale i).
Proof.
  unfold hand_input, hand_scale, pose_step, put_handActive. cbn [handScale foldl scaling_buttons fst snd].
  repeat first [ rewrite handScale_scale_step | rewrite handScale_joystick_step
               | rewrite handScale_grab_step | rewrite upd2_upd2 | rewrite at2_upd2_same ].
  reflexivity.
Qed.

Lemma handActive_scale_step s pressed hand i :
  handActive (scale_step s pressed hand i) = handActive i.
Proof. unfold scale_step. destruct (changed_edge s); reflexivity. Qed.

Lemma handActive_joystick_step j hand i : handActive (joystick_step j hand i) = handActive i.
Proof. unfold joystick_step. destruct (v_isActive j =? XR_TRUE); reflexivity. Qed.

Lemma handActive_grab_step g hand i : handActive (grab_step g hand i) = handActive i.
Proof. unfold grab_step. destruct (f_isActive g =? XR_TRUE); reflexivity. Qed.

Lemma handActive_hand_input rt hand i :
  handActive (hand_input rt hand i)
  = upd2 hand (p_isActive (pose_state rt hand)) (handActive i).
Proof.
  unfold hand_input, pose_step, put_handActive. cbn [handActive].
  rewrite !handActive_scale_step, handActive_joystick_step, !handActive_scale_step,
    handActive_grab_step. reflexivity.
Qed.

Lemma handXYPos_scale_step s pressed hand i :
  handXYPos (scale_step s pressed hand i) = handXYPos i.
Proof. unfold scale_step. destruct (changed_edge s); reflexivity. Qed.

Lemma handXYPos_grab_step g hand i : handXYPos (grab_step g hand i) = handXYPos i.
Proof. unfold grab_step. destruct (f_isActive g =? XR_TRUE); reflexivity. Qed.

Lemma handXYPos_hand_input rt hand i :
  handXYPos (hand_input rt hand i)
  = if v_isActive (joystick_state rt hand) =? XR_TRUE
    then upd2 hand (v_currentState (joystick_state rt hand)) (handXYPos i)
    else handXYPos i.
Proof.
  unfold hand_input, pose_step, put_handActive. cbn [handXYPos].
  rewrite !handXYPos_scale_step. unfold joystick_step.
  destruct (v_isActive (joystick_state rt hand) =? XR_TRUE); cbn [handXYPos put_handXYPos];
    rewrite !handXYPos_scale_step, handXYPos_grab_step; reflexivity.
Qed.

Lemma m_input_polled rt w l r w' l' :
  PollActions rt w l = Ret r w' l' -> m_input w' = polled_input rt (m_input w).
Proof. intros Hrun. rewrite (PollActions_world _ _ _ _ _ _ Hrun). reflexivity. Qed.

Lemma trace_polled rt w l r w' l' :
  PollActions rt w l = Ret r w' l' -> trace w' = trace w ++ polled_events rt w.
Proof. intros Hrun. rewrite (PollActions_world _ _ _ _ _ _ Hrun). reflexivity. Qed.

Lemma hand_cases hand :
  hand ∈ [Side.LEFT; Side.RIGHT] -> hand = Side.LEFT \/ hand = Side.RIGHT.
Proof.
  intros Hhand. apply elem_of_cons in Hhand as [-> | Hhand]; [left; reflexivity|].
  apply elem_of_cons in Hhand as [-> | Hhand]; [right; reflexivity | inversion Hhand].
Qed.

(** X9: after a [PollActions] that returns, [handActive] of each hand is the
    [isActive] that [xrGetActionStatePose] reported for that hand's pose action
    on this tick: the reset to [XR_FALSE] at the start of the call is
    overwritten for both hands. *)
Theorem hand_active_follows_pose rt w l r w' l' :
  PollActions rt w l = Ret r w' l' ->
  handActive (m_input w')
  = {| slot0 := p_isActive (pose_state rt Side.LEFT);
       slot1 := p_isActive (pose_state rt Side.RIGHT) |}.
Proof.
  intros Hrun. rewrite (m_input_polled _ _ _ _ _ _ Hrun). unfold polled_input.
  rewrite !handActive_hand_input. reflexivity.
Qed.

(** X10: after a [PollActions] that returns, [handXYPos] of a hand holds the
    joystick's current position when the joystick action is active for that
    hand, and the value it had before the call when it is not. *)
Theorem joystick_position_is_recorded rt w l r w' l' hand :
  PollActions rt w l = Ret r w' l' ->
  hand ∈ [Side.LEFT; Side.RIGHT] ->
  (v_isActive (joystick_state rt hand) = XR_TRUE ->
   at2 (handXYPos (m_input w')) hand = v_currentState (joystick_state rt hand))
  /\ (v_isActive (joystick_state rt hand) <> XR_TRUE ->
      at2 (handXYPos (m_input w')) hand = at2 (handXYPos (m_input w)) hand).
Proof.
  intros Hrun Hhand. rewrite (m_input_polled _ _ _ _ _ _ Hrun). unfold polled_input.
  rewrite !handXYPos_hand_input. cbn [handXYPos put_handActive].
  apply hand_cases in Hhand as [-> | ->]; split; intros Hact.
  all: try (apply Z.eqb_eq in Hact); try (apply Z.eqb_neq in Hact).
  all: rewrite ?Hact.
  all: repeat match goal with
         | |- context [if ?c then _ else _] => destruct c
         end; reflexivity.
Qed.

(** *** The scale of a hand *)

Lemma hand_scale_idle rt hand v controls :
  Forall (fun c => changed_edge (button_state rt (fst c) hand) = false) controls ->
  foldl (fun v c => scale_value (button_state rt (fst c) hand) (snd c) v) v controls = v.
Proof.
  revert v. induction controls as [|c controls IH]; intros v Hc; [reflexivity|].
  apply Forall_cons in Hc as [Hc Hcs]. cbn [foldl]. rewrite IH by exact Hcs.
  unfold scale_value. rewrite Hc. reflexivity.
Qed.

Lemma handScale_polled rt i hand :
  hand ∈ [Side.LEFT; Side.RIGHT] ->
  at2 (handScale (polled_input rt i)) hand = hand_scale rt hand (at2 (handScale i) hand).
Proof.
  intros Hhand. unfold polled_input. rewrite !handScale_hand_input.
  cbn [handScale put_handActive].
  apply hand_cases in Hhand as [-> | ->]; reflexivity.
Qed.

(** X11: [handScale] of a hand after a [PollActions] that returns.  The
    stanzas that write it run in the order grab, touchpad, side, B, Y, A, X, so
    the last of these controls that fired decides: a button sampled active and
    changed, with no later button changed, leaves its press scale when it went
    down and 1.0 when it was released, whatever the grab and the earlier buttons
    did; when no button changed an active grab leaves 1 - 0.5 * grab; and when
    nothing fired the scale is what it was before the call. *)
Theorem hand_scale_last_control_decides rt w l r w' l' hand :
  PollActions rt w l = Ret r w' l' ->
  hand ∈ [Side.LEFT; Side.RIGHT] ->
  (forall before a pressed after,
     scaling_buttons = before ++ (a, pressed) :: after ->
     changed_edge (button_state rt a hand) = true ->
     Forall (fun c => changed_edge (button_state rt (fst c) hand) = false) after ->
     at2 (handScale (m_input w')) hand
     = if b_currentState (button_state rt a hand) =? XR_TRUE then pressed else f32_one)
  /\ (Forall (fun c => changed_edge (button_state rt (fst c) hand) = false) scaling_buttons ->
      (f_isActive (float_state rt grabAction hand) = XR_TRUE ->
       at2 (handScale (m_input w')) hand
       = f32_sub f32_one
           (f32_mul (f32_lit 1 2) (f_currentState (float_state rt grabAction hand))))
      /\ (f_isActive (float_state rt grabAction hand) <> XR_TRUE ->
          at2 (handScale (m_input w')) hand = at2 (handScale (m_input w)) hand)).
Proof.
  intros Hrun Hhand. rewrite (m_input_polled _ _ _ _ _ _ Hrun).
  rewrite handScale_polled by exact Hhand. unfold hand_scale. split.
  - intros before a pressed after -> Hedge Hafter.
    rewrite foldl_app. cbn [foldl fst snd]. rewrite hand_scale_idle by exact Hafter.
    unfold scale_value. rewrite Hedge. reflexivity.
  - intros Hidle. rewrite hand_scale_idle by exact Hidle. unfold grab_value.
    split; intros Hact.
    + apply Z.eqb_eq in Hact. rewrite Hact. reflexivity.
    + apply Z.eqb_neq in Hact. rewrite Hact. reflexivity.
Qed.

(** *** What a tick calls *)

Lemma count_events_none p evs :
  Forall (fun e => p e = false) evs -> count_events p evs = 0%nat.
Proof.
  induction 1 as [|e evs He _ IH]; [reflexivity|].
  unfold count_events in *. cbn. rewrite He. exact IH.
Qed.

Lemma edge_events_logs s pressed released :
  Forall log_event (edge_events s pressed released).
Proof. unfold edge_events. destruct (changed_edge s); repeat constructor. Qed.

Lemma click_events_logs s msg : Forall log_event (click_events s msg).
Proof. unfold click_events. destruct (rising_edge s); repeat constructor. Qed.

Lemma count_logs p evs :
  (forall lvl msg, p (EvLog lvl msg) = false) -> Forall log_event evs ->
  count_events p evs = 0%nat.
Proof.
  intros Hp Hlogs. apply count_events_none. eapply Forall_impl; [exact Hlogs|].
  intros [] Hl; cbn in Hl; try contradiction. apply Hp.
Qed.

(** Count the calls of one kind among the events of a hand: the logs count
    for nothing. *)
Lemma count_hand_input_events p rt hand :
  (forall lvl msg, p (EvLog lvl msg) = false) ->
  count_events p (hand_input_events rt hand)
  = (count_events p (haptic_events (float_state rt grabAction hand) hand)
     + count_events p (quit_events (button_state rt quitAction hand)))%nat.
Proof.
  intros Hp. unfold hand_input_events. rewrite !count_events_app.
  rewrite !(count_logs p _ Hp (edge_events_logs _ _ _)).
  rewrite !(count_logs p _ Hp (click_events_logs _ _)). lia.
Qed.

(** X12: a [PollActions] that returns calls [xrApplyHapticFeedback] for a
    hand once when that hand's grab action is active with a value above 0.9,
    and not at all otherwise. *)
Theorem haptics_when_squeezed rt w l r w' l' hand :
  PollActions rt w l = Ret r w' l' ->
  hand ∈ [Side.LEFT; Side.RIGHT] ->
  exists tick,
    trace w' = trace w ++ tick
    /\ count_events (is_haptic hand) tick
       = if (f_isActive (float_state rt grabAction hand) =? XR_TRUE)
            && f32_gt (f_currentState (float_state rt grabAction hand)) (f32_lit 9 10)
         then 1%nat else 0%nat.
Proof.
  intros Hrun Hhand. exists (polled_events rt w). split; [exact (trace_polled _ _ _ _ _ _ Hrun)|].
  unfold polled_events. rewrite !count_events_app.
  rewrite !count_hand_input_events by reflexivity.
  unfold haptic_events, quit_events, squeezed.
  apply hand_cases in Hhand as [-> | ->].
  all: repeat match goal with
         | |- context [if ?c then _ else _] => destruct c
         end; reflexivity.
Qed.

(** X13: a [PollActions] that returns calls [xrRequestExitSession] once for
    every hand whose quit action was sampled active, changed and pressed: twice
    when both hands report the press on the same tick, never on a release or
    while the button is held. *)
Theorem exit_requested_per_hand rt w l r w' l' :
  PollActions rt w l = Ret r w' l' ->
  exists tick,
    trace w' = trace w ++ tick
    /\ count_events is_exit_request tick
       = ((if rising_edge (button_state rt quitAction Side.LEFT) then 1 else 0)
          + (if rising_edge (button_state rt quitAction Side.RIGHT) then 1 else 0))%nat.
Proof.
  intros Hrun. exists (polled_events rt w). split; [exact (trace_polled _ _ _ _ _ _ Hrun)|].
  unfold polled_events. rewrite !count_events_app.
  rewrite !count_hand_input_events by reflexivity.
  unfold haptic_events, quit_events.
  repeat match goal with
         | |- context [if ?c then _ else _] => destruct c
         end; reflexivity.
Qed.

Lemma forwarded_snapshots_app e1 e2 :
  forwarded_snapshots (e1 ++ e2) = forwarded_snapshots e1 ++ forwarded_snapshots e2.
Proof. unfold forwarded_snapshots. apply omap_app. Qed.

Lemma forwarded_snapshots_none evs :
  Forall (fun e => is_snapshot e = false) evs -> forwarded_snapshots evs = [].
Proof.
  induction 1 as [|e evs He _ IH]; [reflexivity|].
  unfold forwarded_snapshots in *. cbn. destruct e; try discriminate; exact IH.
Qed.

Lemma hand_input_events_no_snapshot rt hand :
  Forall (fun e => is_snapshot e = false) (hand_input_events rt hand).
Proof.
  assert (Hlogs : forall evs, Forall log_event evs ->
                              Forall (fun e => is_snapshot e = false) evs).
  { intros evs H. eapply Forall_impl; [exact H|]. intros [] Hl; cbn in Hl; tauto. }
  unfold hand_input_events.
  repeat (apply Forall_app; split);
    first [ apply Hlogs, edge_events_logs | apply Hlogs, click_events_logs | idtac ].
  - unfold haptic_events. destruct (squeezed _); repeat constructor.
  - unfold quit_events. destruct (rising_edge _); repeat constructor.
Qed.

(** X14: a [PollActions] that returns hands one snapshot to the CloudXR
    client when there is a client and calls [SetTrackingState] not at all when
    [m_cloudxr] is null; the value it returns is the same in both cases. *)
Theorem snapshot_needs_a_client rt w l r w' l' :
  PollActions rt w l = Ret r w' l' ->
  forwarded_snapshots (trace w')
  = forwarded_snapshots (trace w)
    ++ (if m_cloudxr w then [trackingState (snapshot rt)] else [])
  /\ r = ret_ (snapshot rt).
Proof.
  intros Hrun. split.
  - rewrite (trace_polled _ _ _ _ _ _ Hrun). unfold polled_events.
    rewrite !forwarded_snapshots_app.
    rewrite !(forwarded_snapshots_none _ (hand_input_events_no_snapshot _ _)).
    destruct (m_cloudxr w); reflexivity.
  - apply PollActions_Ret in Hrun as (-> & -> & _). reflexivity.
Qed.

(** X15: the button mask of a forwarded snapshot has no bit set other than
    those of the six button controls: a set bit is the bit of one of
    home/System, trigger-touch, B, Y, A, X, and that control was sampled active,
    changed and pressed for that hand on this tick. *)
Theorem only_button_bits_are_set rt w l r w' l' :
  Forall (fun b => 0 <= b < 64) (snd <$> button_controls) ->
  m_cloudxr w = true ->
  PollActions rt w l = Ret r w' l' ->
  exists ts,
    forwards w w' ts
    /\ forall hand k,
         hand ∈ [Side.LEFT; Side.RIGHT] ->
         Z.testbit (bits_of ts hand) k = true ->
         exists c,
           c ∈ button_controls /\ snd c = k
           /\ rising_edge (button_state rt (fst c) hand) = true.
Proof.
  intros Hrange Hc Hrun.
  destruct (PollActions_forwards _ _ _ _ _ _ Hrun Hc) as [Hfw _].
  exists (trackingState (snapshot rt)). split; [exact Hfw|].
  intros hand k Hhand Hbit. unfold snapshot in Hbit. rewrite !bits_hand_update in Hbit.
  apply hand_cases in Hhand as [-> | ->].
  all: change (same_slot Side.LEFT Side.LEFT) with true in Hbit.
  all: change (same_slot Side.RIGHT Side.RIGHT) with true in Hbit.
  all: change (same_slot Side.LEFT Side.RIGHT) with false in Hbit.
  all: change (same_slot Side.RIGHT Side.LEFT) with false in Hbit.
  all: cbv iota in Hbit.
  all: rewrite testbit_press_bits in Hbit by exact Hrange.
  all: change (bits_of _ _) with 0 in Hbit; rewrite Z.bits_0 in Hbit; cbn [orb] in Hbit.
  all: apply existsb_exists in Hbit as (c & Hin & Hb).
  all: apply andb_true_iff in Hb as [Hedge Hk]; apply Z.eqb_eq in Hk.
  all: exists c; (split; [apply list_elem_of_In; exact Hin | auto]).
Qed.

Lemma length_put_if a slot v xs : length (put_if a slot v xs) = length xs.
Proof. unfold put_if. destruct (a =? XR_TRUE); [apply length_insert | reflexivity]. Qed.

Lemma lookup_put_if_active slot v xs :
  (slot < length xs)%nat -> put_if XR_TRUE slot v xs !! slot = Some v.
Proof. intros Hlt. unfold put_if. cbn. apply list_lookup_insert_eq. exact Hlt. Qed.

(** X16: the scalar array of each controller of a forwarded snapshot has
    [cxrAnalog_Num] slots; the slot of an active trigger, joystick axis or grip
    holds the value sampled on this tick; every slot other than those four is
    0.0. *)
Theorem scalar_slots_of_the_snapshot rt w l r w' l' :
  analogs_wf -> m_cloudxr w = true ->
  PollActions rt w l = Ret r w' l' ->
  exists ts,
    forwards w w' ts
    /\ forall hand,
         hand ∈ [Side.LEFT; Side.RIGHT] ->
         length (scalars_of ts hand) = cxrAnalog_Num ana
         /\ (f_isActive (float_state rt triggerAction hand) = XR_TRUE ->
             scalars_of ts hand !! cxrAnalog_Trigger ana
             = Some (f_currentState (float_state rt triggerAction hand)))
         /\ (v_isActive (joystick_state rt hand) = XR_TRUE ->
             scalars_of ts hand !! cxrAnalog_JoystickX ana
             = Some (v2_x (v_currentState (joystick_state rt hand)))
             /\ scalars_of ts hand !! cxrAnalog_JoystickY ana
                = Some (v2_y (v_currentState (joystick_state rt hand))))
         /\ (f_isActive (float_state rt GripAction hand) = XR_TRUE ->
             scalars_of ts hand !! cxrAnalog_Grip ana
             = Some (f_currentState (float_state rt GripAction hand)))
         /\ (forall i,
               (i < cxrAnalog_Num ana)%nat ->
               i ∉ [cxrAnalog_Trigger ana; cxrAnalog_JoystickX ana;
                    cxrAnalog_JoystickY ana; cxrAnalog_Grip ana] ->
               scalars_of ts hand !! i = Some f32_zero).
Proof.
  intros [Hrange Hnd] Hc Hrun.
  destruct (PollActions_forwards _ _ _ _ _ _ Hrun Hc) as [Hfw _].
  exists (trackingState (snapshot rt)). split; [exact Hfw|].
  intros hand Hhand. rewrite snapshot_scalars by exact Hhand.
  unfold analogs_in_range in Hrange. rewrite !Forall_cons in Hrange.
  destruct Hrange as (HT & HX & HY & HG & _).
  rewrite !NoDup_cons in Hnd. destruct Hnd as (HnT & HnX & HnY & _).
  assert (cxrAnalog_Trigger ana <> cxrAnalog_JoystickX ana
          /\ cxrAnalog_Trigger ana <> cxrAnalog_JoystickY ana
          /\ cxrAnalog_Trigger ana <> cxrAnalog_Grip ana
          /\ cxrAnalog_JoystickX ana <> cxrAnalog_JoystickY ana
          /\ cxrAnalog_JoystickX ana <> cxrAnalog_Grip ana
          /\ cxrAnalog_JoystickY ana <> cxrAnalog_Grip ana)
    as (HTX & HTY & HTG & HXY & HXG & HYG).
  { repeat rewrite elem_of_cons in HnT. repeat rewrite elem_of_cons in HnX.
    repeat rewrite elem_of_cons in HnY. intuition congruence. }
  split; [rewrite !length_put_if; apply length_replicate|].
  split; [|split; [|split; [|]]].
  - intros Hact. rewrite !lookup_put_if_ne by congruence. rewrite Hact.
    apply lookup_put_if_active. rewrite length_replicate. exact HT.
  - intros Hact. rewrite Hact. split.
    + rewrite !lookup_put_if_ne by congruence. apply lookup_put_if_active.
      rewrite length_put_if, length_replicate. exact HX.
    + rewrite lookup_put_if_ne by congruence. apply lookup_put_if_active.
      rewrite !length_put_if, length_replicate. exact HY.
  - intros Hact. rewrite Hact. apply lookup_put_if_active.
    rewrite !length_put_if, length_replicate. exact HG.
  - intros i Hi Hnot. repeat rewrite elem_of_cons in Hnot.
    rewrite !lookup_put_if_ne by (intros Heq; symmetry in Heq; apply Hnot; auto 10).
    apply lookup_replicate_2. exact Hi.
Qed.

(** X17: when [xrSyncActions] fails, [PollActions] throws its result before
    it samples any action: nothing is logged, called or forwarded, and
    [handActive] has already been reset to [XR_FALSE] for both hands. *)
Theorem failed_sync_resets_hand_activity rt w l :
  XR_FAILED (xrSyncActions rt) = true ->
  exists w' l',
    PollActions rt w l = Thrown (XrResultError (xrSyncActions rt) "xrSyncActions") w' l'
    /\ trace w' = trace w
    /\ handActive (m_input w') = {| slot0 := XR_FALSE; slot1 := XR_FALSE |}
    /\ handScale (m_input w') = handScale (m_input w)
    /\ handXYPos (m_input w') = handXYPos (m_input w).
Proof.
  intros Hfail. unfold PollActions, bind, CHECK_XRCMD, CHECK_XRRESULT. cbn.
  rewrite Hfail. cbn. eexists _, _. split; [reflexivity|]. repeat split.
Qed.

(** *** A tick that throws *)

Section Keeping.
Context {L : Type} (P : Event -> Prop) (w0 : World).

Lemma keeps_set_local (f : L -> L) : keeps (trace_grows P w0) (set_local f).
Proof. intros w l HI. exact HI. Qed.

Lemma keeps_local {A} (f : L -> A) : keeps (trace_grows P w0) (local f).
Proof. intros w l HI. exact HI. Qed.

Lemma keeps_member {A} (f : World -> A) : keeps (trace_grows (L := L) P w0) (member f).
Proof. intros w l HI. exact HI. Qed.

Lemma keeps_set_member (f : World -> World) :
  (forall w, trace (f w) = trace w) -> keeps (trace_grows (L := L) P w0) (set_member f).
Proof. intros Hf w l (evs & Ht & Hevs). exists evs. cbn. rewrite Hf. auto. Qed.

Lemma keeps_emit e : P e -> keeps (trace_grows (L := L) P w0) (emit e).
Proof.
  intros He w l (evs & Ht & Hevs). exists (evs ++ [e]). cbn. rewrite Ht, app_assoc.
  split; [reflexivity|]. apply Forall_app. split; [exact Hevs | repeat constructor; exact He].
Qed.

Lemma keeps_when (c : bool) (m : M L unit) :
  keeps (trace_grows P w0) m -> keeps (trace_grows P w0) (when c m).
Proof. intros Hm. destruct c; [exact Hm | apply keeps_ret]. Qed.

Lemma keeps_CHECK_XRRESULT res what : keeps (trace_grows (L := L) P w0) (CHECK_XRRESULT res what).
Proof. unfold CHECK_XRRESULT. destruct (XR_FAILED res); [apply keeps_throw | apply keeps_ret]. Qed.

Lemma keeps_for_each {A} (xs : list A) (body : A -> M L unit) :
  (forall x, keeps (trace_grows P w0) (body x)) ->
  keeps (trace_grows P w0) (for_each xs body).
Proof.
  intros Hbody. induction xs as [|x xs IH]; cbn [for_each]; [apply keeps_ret|].
  apply keeps_bind; [apply Hbody | intros _; exact IH].
Qed.

End Keeping.

(** Takes a loop-free body apart, statement by statement. *)
Ltac keep :=
  repeat lazymatch goal with
         | |- keeps _ (bind _ _) => apply keeps_bind; [|intros ?]
         | |- keeps _ (ret _) => apply keeps_ret
         | |- keeps _ (throw _) => apply keeps_throw
         | |- keeps _ (set_local _) => apply keeps_set_local
         | |- keeps _ (local _) => apply keeps_local
         | |- keeps _ (member _) => apply keeps_member
         | |- keeps _ (CHECK_XRRESULT _ _) => apply keeps_CHECK_XRRESULT
         | |- keeps _ (emit _) => apply keeps_emit; exact I
         | |- keeps _ (set_member _) => apply keeps_set_member; reflexivity
         | |- keeps _ (when _ _) => apply keeps_when
         | |- keeps _ (if ?c then _ else _) => destruct c
         | |- keeps _ (match ?x with _ => _ end) => destruct x
         end.

Lemma keeps_PollActions_hand rt hand w0 :
  keeps (trace_grows input_event w0) (PollActions_hand rt hand).
Proof.
  unfold PollActions_hand, get_ActionStateFloat, get_ActionStateBoolean,
    get_ActionStateVector2f, get_ActionStatePose, CHECK_XRCMD, Log_Write, set_handScale,
    set_handXYPos, set_handActive, set_scalarComps, or_booleanComps.
  keep.
Qed.

(** X18: a [PollActions] that throws, because a query of an action state,
    the haptic call or the exit request failed, has handed no snapshot to the
    CloudXR client: what it sampled before the failure is dropped, and the
    trace holds only the logs, haptic calls and exit requests made until
    then. *)
Theorem failed_tick_forwards_nothing rt w l e w' l' :
  PollActions rt w l = Thrown e w' l' ->
  exists evs,
    trace w' = trace w ++ evs /\ Forall input_event evs
    /\ forwarded_snapshots (trace w') = forwarded_snapshots (trace w).
Proof.
  intros Hrun.
  assert (Hgrows : trace_grows input_event w w' l').
  { revert Hrun. unfold PollActions, bind, set_local, set_handActive, set_member,
      CHECK_XRCMD, CHECK_XRRESULT, THROW_XR, throw, ret.
    destruct (XR_FAILED (xrSyncActions rt)).
    - intros H. injection H as _ <- _. exists []. cbn. rewrite app_nil_r. auto.
    - match goal with
      | |- context [for_each ?xs ?body ?w1 ?l1] =>
          pose proof (keeps_for_each input_event w xs body
                        (fun x => keeps_PollActions_hand rt x w) w1 l1) as Hloop;
          destruct (for_each xs body w1 l1) as [u w2 l2 | e2 w2 l2]
      end.
      + unfold member, when, local, emit, set_member. destruct (m_cloudxr w2); discriminate.
      + intros H. injection H as _ <- <-. apply Hloop.
        exists []. cbn. rewrite app_nil_r. auto. }
  destruct Hgrows as (evs & Ht & Hevs). exists evs. split; [exact Ht|]. split; [exact Hevs|].
  rewrite Ht, forwarded_snapshots_app.
  rewrite (forwarded_snapshots_none evs); [apply app_nil_r|].
  eapply Forall_impl; [exact Hevs|]. intros [] Hi; cbn in Hi; tauto.
Qed.

(** ** Frame compositor *)

(** X19: on a tick that the runtime does not want rendered ([shouldRender]
    is not [XR_TRUE]), [RenderFrame] still waits for, begins and ends the frame,
    and ends it with no layer: [layerCount] is 0, no view is located, no frame
    is latched, and the frame-end extension carries the [gsIndex] of the last
    tick that rendered. *)
Theorem idle_tick_submits_no_layer rt w :
  renders rt = false ->
  (forall u w' l',
     RenderFrame rt w tt = Ret u w' l' ->
     exists info,
       trace w' = trace w ++ [EvXrWaitFrame; EvXrBeginFrame; EvXrEndFrame info]
       /\ layers info = [] /\ layerCount info = 0
       /\ displayTime info = predictedDisplayTime (snd (xrWaitFrame rt))
       /\ next info = {| useHeadposeExt := 1; gsIndex := mGsIndex w |}
       /\ m_views w' = m_views w /\ mGsIndex w' = mGsIndex w)
  /\ (m_session w <> XR_NULL_HANDLE -> XR_FAILED (fst (xrWaitFrame rt)) = false ->
      XR_FAILED (xrBeginFrame rt) = false -> XR_FAILED (xrEndFrame rt) = false ->
      returns (RenderFrame rt) w tt).
Proof.
  intros Hidle. split.
  - intros u w' l' Hrun. apply RenderFrame_Ret in Hrun as [-> _].
    exists (end_info rt w). rewrite trace_frame_world.
    unfold frame_world, frame_events, end_info. rewrite Hidle. cbn.
    repeat split.
  - intros Hs Hwait Hbegin Hend. apply RenderFrame_returns. unfold frame_ok.
    apply Z.eqb_neq in Hs. rewrite Hs, Hwait, Hbegin, Hend, Hidle. reflexivity.
Qed.

(** X20: every view of the layer that a [RenderLayer] returns covers the
    whole of its own swapchain: view [i] has the field of view that
    [xrLocateViews] located for view [i] on this tick, the handle of
    [m_swapchains[i]], an image rectangle at offset (0, 0) with that swapchain's
    width and height, and array index 0. *)
Theorem view_covers_its_swapchain rt t w l r w' l' :
  RenderLayer rt t w l = Ret r w' l' ->
  views (layer l') = projectionLayerViews l'
  /\ length (projectionLayerViews l') = length (m_swapchains w)
  /\ forall i v,
       projectionLayerViews l' !! i = Some v ->
       (forall x, lv_views (xrLocateViews rt) !! i = Some x -> fov v = view_fov x)
       /\ exists located sc,
            m_views w' !! i = Some located /\ m_swapchains w !! i = Some sc
            /\ fov v = view_fov located
            /\ sub_swapchain (subImage v) = handle sc
            /\ imageRect (subImage v)
               = {| offset := (0, 0); extent := (width sc, height sc) |}
            /\ imageArrayIndex (subImage v) = 0.
Proof.
  intros Hrun.
  apply RenderLayer_Ret in Hrun as (_ & -> & -> & -> & _ & (Hviews & Hchains & _)).
  split; [reflexivity|]. split; [rewrite length_submitted_views; exact Hchains|].
  intros i v Hv. apply lookup_submitted_views in Hv as [Hi ->].
  destruct (lookup_lt_is_Some_2 (located_views rt w) i) as [located Hlocated]; [lia|].
  destruct (lookup_lt_is_Some_2 (m_swapchains w) i) as [sc Hsc]; [lia|].
  split.
  - intros x Hx. unfold located_views in Hviews. rewrite length_write_views in Hviews.
    unfold submitted_view. cbn [fov].
    rewrite (lookup_located_views rt w i x) by (lia || exact Hx). reflexivity.
  - exists located, sc. split; [exact Hlocated|]. split; [exact Hsc|].
    unfold submitted_view, swapchain_of. rewrite Hlocated, Hsc. repeat split.
Qed.

(** X21: the frame-end extension of a rendering tick carries the [gsIndex]
    that this tick's [xrLocateViews] reported, and a following tick that does
    not render submits that same [gsIndex] again; both frames end for the
    display time their own [xrWaitFrame] predicted, with the program's blend
    mode. *)
Theorem gs_index_is_carried rt1 rt2 w u1 w1 l1 u2 w2 l2 :
  renders rt1 = true -> renders rt2 = false ->
  RenderFrame rt1 w tt = Ret u1 w1 l1 ->
  RenderFrame rt2 w1 tt = Ret u2 w2 l2 ->
  exists info1 info2,
    last (trace w1) = Some (EvXrEndFrame info1)
    /\ last (trace w2) = Some (EvXrEndFrame info2)
    /\ next info1 = {| useHeadposeExt := 1; gsIndex := lv_gsIndex (xrLocateViews rt1) |}
    /\ next info2 = next info1
    /\ displayTime info1 = predictedDisplayTime (snd (xrWaitFrame rt1))
    /\ displayTime info2 = predictedDisplayTime (snd (xrWaitFrame rt2))
    /\ environmentBlendMode info1 = m_environmentBlendMode w
    /\ environmentBlendMode info2 = m_environmentBlendMode w.
Proof.
  intros Hr1 Hr2 Hrun1 Hrun2.
  apply RenderFrame_Ret in Hrun1 as [-> _]. apply RenderFrame_Ret in Hrun2 as [-> _].
  exists (end_info rt1 w), (end_info rt2 (frame_world rt1 w)).
  rewrite !trace_frame_world. unfold frame_events. rewrite !app_assoc, !last_snoc.
  unfold end_info, frame_world. rewrite Hr1, Hr2. cbn. repeat split.
Qed.

(** X22: when [xrLocateViews] reports a number of views other than the size
    of [m_views], of [m_configViews] or of [m_swapchains], [RenderLayer] fails
    a [CHECK] before it locates a hand, talks to the CloudXR client or touches
    a swapchain: no frame is latched.  [m_views] and [mGsIndex] have by then
    been overwritten with what [xrLocateViews] returned: element [i] of
    [m_views] is the view the call wrote for [i], and the size of [m_views] is
    as before. *)
Theorem view_count_mismatch_stops_before_latch rt t w l :
  XR_FAILED (lv_result (xrLocateViews rt)) = false ->
  viewCountOutput (xrLocateViews rt) <> uint32 (Z.of_nat (length (m_views w)))
  \/ viewCountOutput (xrLocateViews rt) <> Z.of_nat (length (m_configViews w))
  \/ viewCountOutput (xrLocateViews rt) <> Z.of_nat (length (m_swapchains w)) ->
  exists what w',
    RenderLayer rt t w l = Thrown (CheckFailed what) w' l
    /\ trace w' = trace w
    /\ m_views w' = located_views rt w
    /\ mGsIndex w' = lv_gsIndex (xrLocateViews rt)
    /\ length (m_views w') = length (m_views w)
    /\ forall i x,
         (i < length (m_views w))%nat ->
         lv_views (xrLocateViews rt) !! i = Some x -> m_views w' !! i = Some x.
Proof.
  intros Hok Hmis.
  assert (Hwritten : forall w',
             m_views w' = located_views rt w ->
             length (m_views w') = length (m_views w)
             /\ forall i x,
                  (i < length (m_views w))%nat ->
                  lv_views (xrLocateViews rt) !! i = Some x -> m_views w' !! i = Some x).
  { intros w' ->. split; [apply length_write_views|].
    intros i x Hi Hx. exact (lookup_located_views rt w i x Hi Hx). }
  unfold RenderLayer, bind, member, set_member, CHECK_XRRESULT, CHECK, when.
  cbn. rewrite Hok. cbn.
  destruct (_ || _); cbn.
  all: destruct (viewCountOutput (xrLocateViews rt) =? uint32 (Z.of_nat (length (m_views w))))
         eqn:H1; cbn;
         [|eexists _, _; split; [reflexivity|]; do 3 (split; [reflexivity|]);
           apply Hwritten; reflexivity].
  all: destruct (viewCountOutput (xrLocateViews rt) =? Z.of_nat (length (m_configViews w)))
         eqn:H2; cbn;
         [|eexists _, _; split; [reflexivity|]; do 3 (split; [reflexivity|]);
           apply Hwritten; reflexivity].
  all: destruct (viewCountOutput (xrLocateViews rt) =? Z.of_nat (length (m_swapchains w)))
         eqn:H3; cbn;
         [|eexists _, _; split; [reflexivity|]; do 3 (split; [reflexivity|]);
           apply Hwritten; reflexivity].
  all: exfalso; apply Z.eqb_eq in H1, H2, H3; tauto.
Qed.

(** X24: [RenderFrame] does not end a frame it could not begin.  Without a
    session it throws before it calls the runtime; when [xrWaitFrame] fails it
    throws without calling [xrBeginFrame]; when [xrBeginFrame] fails it throws
    without rendering (no view located, no frame latched) and without calling
    [xrEndFrame]. *)
Theorem frame_is_not_ended_unless_begun rt w :
  (m_session w = XR_NULL_HANDLE ->
   RenderFrame rt w tt = Thrown (CheckFailed "m_session != XR_NULL_HANDLE") w tt)
  /\ (m_session w <> XR_NULL_HANDLE -> XR_FAILED (fst (xrWaitFrame rt)) = true ->
      RenderFrame rt w tt
      = Thrown (XrResultError (fst (xrWaitFrame rt)) "xrWaitFrame") (emits [EvXrWaitFrame] w) tt)
  /\ (m_session w <> XR_NULL_HANDLE -> XR_FAILED (fst (xrWaitFrame rt)) = false ->
      XR_FAILED (xrBeginFrame rt) = true ->
      RenderFrame rt w tt
      = Thrown (XrResultError (xrBeginFrame rt) "xrBeginFrame")
          (emits [EvXrWaitFrame; EvXrBeginFrame] w) tt).
Proof.
  unfold RenderFrame, bind, member, CHECK, CHECK_XRCMD, CHECK_XRRESULT, THROW_XR, emit,
    set_member, throw, ret.
  destruct (xrWaitFrame rt) as [res frameState]. cbn [fst snd].
  split; [|split].
  - intros ->. reflexivity.
  - intros Hs%Z.eqb_neq Hwait. rewrite Hs. cbn. rewrite Hwait. reflexivity.
  - intros Hs%Z.eqb_neq Hwait Hbegin. rewrite Hs. cbn. rewrite Hwait. cbn.
    rewrite Hbegin. unfold emits, with_trace. cbn. rewrite <- app_assoc. reflexivity.
Qed.

(** *** A layer that fails *)

Lemma when_thrown_bind {L A B} (I : World -> L -> Prop) (m : M L A) (k : A -> M L B) w l :
  I w l -> keeps I m ->
  (forall a w1 l1, I w1 l1 -> when_thrown I (k a w1 l1)) ->
  when_thrown I (bind m k w l).
Proof.
  intros HI Hm Hk. specialize (Hm w l HI). unfold bind.
  destruct (m w l) as [a w1 l1 | e w1 l1]; cbn in *; [apply Hk; exact Hm | exact Hm].
Qed.

Lemma keeps_CHECK {L} (I : World -> L -> Prop) c what : keeps I (CHECK c what).
Proof. unfold CHECK. destruct c; [apply keeps_ret | apply keeps_throw]. Qed.

Lemma keeps_array_get {L A} (I : World -> L -> Prop) (xs : list A) i what :
  keeps I (array_get xs i what).
Proof. unfold array_get. destruct (xs !! i); [apply keeps_ret | apply keeps_throw]. Qed.

Ltac keep_layer :=
  repeat lazymatch goal with
         | |- keeps _ (bind _ _) => apply keeps_bind; [|intros ?]
         | |- keeps _ (ret _) => apply keeps_ret
         | |- keeps _ (throw _) => apply keeps_throw
         | |- keeps _ (set_local _) => apply keeps_set_local
         | |- keeps _ (local _) => apply keeps_local
         | |- keeps _ (member _) => apply keeps_member
         | |- keeps _ (CHECK_XRRESULT _ _) => apply keeps_CHECK_XRRESULT
         | |- keeps _ (CHECK _ _) => apply keeps_CHECK
         | |- keeps _ (array_get _ _ _) => apply keeps_array_get
         | |- keeps _ (emit _) => apply keeps_emit; exact I
         | |- keeps _ (set_member _) => apply keeps_set_member; reflexivity
         | |- keeps _ (when _ _) => apply keeps_when
         | |- keeps _ (for_each _ _) => apply keeps_for_each; intros ?
         | |- keeps _ (if ?c then _ else _) => destruct c
         | |- keeps _ (match ?x with _ => _ end) => destruct x
         end.

Lemma RenderLayer_thrown_from rt t w0 w l :
  trace_grows no_release_event w0 w l ->
  when_thrown (trace_grows no_release_event w0) (RenderLayer rt t w l).
Proof.
  intros HI. unfold RenderLayer.
  repeat (cbv zeta;
          lazymatch goal with
          | |- when_thrown _ (bind (when ?c (emit (EvReleaseFrame _))) _ _ _) => fail
          | |- when_thrown _ (bind _ _ _ _) =>
              apply when_thrown_bind;
              [ exact HI
              | unfold RenderLayer_hand, RenderLayer_view, assign_pose, read_pose, CHECK_XRCMD,
                  Log_Write; keep_layer
              | clear HI; intros ? ? ? HI ]
          | |- when_thrown _ (match ?x with _ => _ end _ _) => destruct x
          end).
  unfold when, bind, emit, set_member, member, local, set_local, ret.
  repeat match goal with |- context [if ?c then _ else _] => destruct c end; exact I.
Qed.

Lemma RenderLayer_thrown rt t w l :
  when_thrown (trace_grows no_release_event w) (RenderLayer rt t w l).
Proof. apply RenderLayer_thrown_from. exists []. rewrite app_nil_r. auto. Qed.

(** X23: a [RenderLayer] that throws, because a runtime call or a [CHECK]
    failed, has not called [ReleaseFrame]: a frame that it latched before the
    failure is not given back to the CloudXR client. *)
Theorem failed_layer_releases_nothing rt t w l e w' l' :
  thrown_by_program e ->
  RenderLayer rt t w l = Thrown e w' l' ->
  exists evs, trace w' = trace w ++ evs /\ count_events is_release evs = 0%nat.
Proof.
  intros _ Hrun. pose proof (RenderLayer_thrown rt t w l) as Hthrown.
  rewrite Hrun in Hthrown. destruct Hthrown as (evs & Ht & Hevs).
  exists evs. split; [exact Ht|]. apply count_events_none.
  eapply Forall_impl; [exact Hevs|]. intros [] Hn; cbn in Hn; tauto.
Qed.

(** *** Tracking loss *)

Lemma count_loss_hand_events rt w hand :
  count_events is_loss_log (hand_events rt w hand)
  = if hand_unlocated rt hand && (at2 (handActive (m_input w)) hand =? XR_TRUE)
    then 1%nat else 0%nat.
Proof. unfold hand_events, hand_unlocated. destruct (_ && _); reflexivity. Qed.

Lemma view_events_no_loss_log rt w s :
  Forall (fun e => is_loss_log e = false) (flat_map (view_events rt w) s).
Proof.
  induction s as [|i s IH]; [constructor|].
  cbn [flat_map]. apply Forall_app. split; [|exact IH].
  unfold view_events. repeat constructor.
Qed.

Lemma count_loss_render_events rt w :
  count_events is_loss_log (render_events rt w)
  = (count_events is_loss_log (hand_events rt w Side.LEFT)
     + count_events is_loss_log (hand_events rt w Side.RIGHT))%nat.
Proof.
  unfold render_events, latch_events. rewrite !count_events_app.
  rewrite (count_events_none _ _ (view_events_no_loss_log rt w _)).
  assert (Hlatch : count_events is_loss_log
                     (if fst (LatchFrame rt) then [] else [EvLog Info "not get framesLatched"])
                   = 0%nat)
    by (destruct (fst (LatchFrame rt)); vm_compute; reflexivity).
  assert (Hrelease : count_events is_loss_log
                       (if fst (LatchFrame rt) then [EvReleaseFrame (snd (LatchFrame rt))]
                        else []) = 0%nat)
    by (destruct (fst (LatchFrame rt)); reflexivity).
  rewrite Hlatch, Hrelease.
  change (count_events is_loss_log [EvSetSenserPoseState _ _ _ _; EvLatchFrame _]) with 0%nat.
  lia.
Qed.

(** X25: [RenderLayer] logs that a hand could not be located only for a hand
    that the last [PollActions] found active.  After a [PollActions] and a
    [RenderLayer] that both return, the layer's events hold one such log line
    for every hand whose aim space was located with a qualified success code
    and whose pose action [PollActions] sampled active, and no other. *)
Theorem tracking_loss_is_logged_for_active_hands rt1 rt2 t w l r w1 l1 lr r2 w2 l2 :
  PollActions rt1 w l = Ret r w1 l1 ->
  RenderLayer rt2 t w1 lr = Ret r2 w2 l2 ->
  exists tick,
    trace w2 = trace w1 ++ tick
    /\ count_events is_loss_log tick
       = ((if hand_unlocated rt2 Side.LEFT
              && Z.eqb (p_isActive (pose_state rt1 Side.LEFT)) XR_TRUE then 1 else 0)
          + (if hand_unlocated rt2 Side.RIGHT
                && Z.eqb (p_isActive (pose_state rt1 Side.RIGHT)) XR_TRUE then 1 else 0))%nat.
Proof.
  intros Hpoll Hlayer.
  pose proof (hand_active_follows_pose _ _ _ _ _ _ Hpoll) as Hactive.
  apply RenderLayer_Ret in Hlayer as (_ & -> & _).
  exists (render_events rt2 w1). split; [reflexivity|].
  rewrite count_loss_render_events, !count_loss_hand_events, Hactive. reflexivity.
Qed.

(** ** Set-up *)

Lemma swapchains_world_0 rt w0 : swapchains_world rt w0 0 = w0.
Proof.
  unfold swapchains_world. cbn [replicate seq fmap list_fmap foldl].
  rewrite emits_nil, app_nil_r. destruct w0; reflexivity.
Qed.

Lemma swapchains_world_S rt w0 k :
  swapchains_world rt w0 (S k)
  = emits [swapchain_log]
      (with_swapchainImages
         (register_images rt (m_swapchainImages (swapchains_world rt w0 k)) k)
         (with_swapchains
            (m_swapchains (swapchains_world rt w0 k)
             ++ [created_swapchain rt (m_configViews w0) k])
            (swapchains_world rt w0 k))).
Proof.
  unfold swapchains_world. rewrite seq_S, fmap_app, foldl_app, replicate_S_end.
  rewrite Nat.add_0_l, <- emits_emits, app_assoc. reflexivity.
Qed.

Lemma m_configViews_swapchains_world rt w0 k :
  m_configViews (swapchains_world rt w0 k) = m_configViews w0.
Proof. reflexivity. Qed.

(** One round of the swapchain loop. *)
Lemma CreateSwapchains_view_wp E rt i w0 (fr : Frame unit) :
  E \/ swapchain_ok rt (m_configViews w0) i ->
  wp E (CreateSwapchains_view rt i)
     (fun _ w' fr' =>
        w' = swapchains_world rt w0 (S i) /\ fr' = fr
        /\ swapchain_ok rt (m_configViews w0) i)
     (swapchains_world rt w0 i) fr.
Proof.
  intros Hok. unfold CreateSwapchains_view. rewrite swapchains_world_S.
  set (wk := swapchains_world rt w0 i).
  assert (Hcv : m_configViews wk = m_configViews w0) by reflexivity.
  clearbody wk.
  apply wp_bind, wp_member. rewrite Hcv.
  apply wp_bind, wp_array_get.
  2: { intros Hnone. destruct Hok as [He | (Hlt & _)]; [exact He|].
       apply lookup_ge_None in Hnone. exfalso.
       exact (Nat.lt_irrefl _ (Nat.lt_le_trans _ _ _ Hlt Hnone)). }
  intros vp Hvp. apply wp_bind. unfold Log_Write. apply wp_emits.
  unfold swapchain_ok, created_swapchain, register_images, allocated_images in *.
  unfold XrViewConfigurationView in *. rewrite Hvp. cbn [default].
  destruct (xrCreateSwapchain rt i) as [res1 h]. cbn [fst snd] in *.
  apply wp_bind, wp_CHECK_XRRESULT; [intros; destruct Hok as [|(_ & ? & _)]; [assumption | congruence]|].
  intros Hcreate. apply wp_bind, wp_set_member.
  destruct (xrEnumerateSwapchainImages rt h) as [res2 imageCount]. cbn [fst snd] in *.
  apply wp_bind, wp_CHECK_XRRESULT;
    [intros; destruct Hok as [|(_ & _ & ? & _)]; [assumption | congruence]|].
  intros Himages. apply wp_bind, wp_array_get.
  2: { intros Hnone. destruct Hok as [He | (_ & _ & _ & Hne & _)]; [exact He|].
       destruct (AllocateSwapchainImageStructs rt i imageCount); [congruence | discriminate]. }
  intros img Himg. apply wp_bind, wp_CHECK_XRRESULT;
    [intros; destruct Hok as [|(_ & _ & _ & _ & ?)]; [assumption | congruence]|].
  intros Hdata. apply wp_set_member.
  split; [|split; [reflexivity|]].
  - unfold emits, with_trace, with_swapchainImages, with_swapchains. cbn. reflexivity.
  - split; [apply lookup_lt_Some in Hvp; exact Hvp|].
    repeat split; try assumption. intros Hnil. rewrite Hnil in Himg. discriminate.
Qed.

(** [CreateSwapchains] returns exactly when every check and call goes through,
    and then leaves [created_world]. *)
Lemma CreateSwapchains_wp E rt w (fr : Frame unit) :
  E \/ swapchains_ok rt w (members fr) ->
  wp E (CreateSwapchains rt)
     (fun _ w' fr' =>
        w' = created_world rt w /\ fr' = fr /\ swapchains_ok rt w (members fr))
     w fr.
Proof.
  unfold CreateSwapchains, swapchains_ok, created_world, config_views, enumerated_views,
    swapchain_formats.
  destruct (xrEnumerateViewConfigurationViews rt) as [r1 n1].
  destruct (xrEnumerateViewConfigurationViews_data rt) as [[r2 n2] wr2].
  destruct (xrEnumerateSwapchainFormats rt) as [r3 n3].
  destruct (xrEnumerateSwapchainFormats_data rt) as [[r4 n4] wr4].
  cbn [fst snd]. intros Hok.
  apply wp_bind, wp_member.
  apply wp_bind, wp_CHECK.
  { intros Hc. destruct Hok as [He | (Hs & _)]; [exact He|]. exfalso.
    apply negb_false_iff, Z.eqb_eq in Hc. auto. }
  intros Hsession. apply negb_true_iff, Z.eqb_neq in Hsession.
  apply wp_bind, wp_member.
  apply wp_bind, wp_CHECK.
  { intros Hc. destruct Hok as [He | (_ & Hs & _)]; [exact He|]. exfalso.
    rewrite Hs in Hc. discriminate. }
  intros Hswapchains. apply Nat.eqb_eq, length_zero_iff_nil in Hswapchains.
  apply wp_bind, wp_member.
  apply wp_bind, wp_CHECK.
  { intros Hc. destruct Hok as [He | (_ & _ & Hs & _)]; [exact He|]. exfalso.
    rewrite Hs in Hc. discriminate. }
  intros Hviews. apply Nat.eqb_eq, length_zero_iff_nil in Hviews.
  apply wp_bind, wp_CHECK_XRRESULT.
  { intros Hc. destruct Hok as [He | (_ & _ & _ & Hs & _)]; [exact He | congruence]. }
  intros Hprops.
  apply wp_bind, wp_emits. apply wp_bind, wp_emits. apply wp_bind, wp_emits.
  rewrite !emits_emits. cbn [app].
  apply wp_bind, wp_local.
  apply wp_bind. unfold CHECK_MSG.
  destruct (m_viewConfigType (members fr) =? XR_VIEW_CONFIGURATION_TYPE_PRIMARY_STEREO)
    eqn:Hstereo.
  2: { apply wp_throw. destruct Hok as [He | (_ & _ & _ & _ & Hs & _)]; [exact He|].
       exfalso. apply Z.eqb_neq in Hstereo. auto. }
  apply Z.eqb_eq in Hstereo. apply wp_ret.
  apply wp_bind, wp_CHECK_XRRESULT.
  { intros Hc. destruct Hok as [He | (_ & _ & _ & _ & _ & Hs & _)]; [exact He | congruence]. }
  intros Hcount.
  apply wp_bind, wp_set_member. apply wp_bind, wp_set_member.
  apply wp_bind, wp_CHECK_XRRESULT.
  { intros Hc. destruct Hok as [He | (_ & _ & _ & _ & _ & _ & Hs & _)];
      [exact He | congruence]. }
  intros Hdata.
  apply wp_bind, wp_set_member.
  match goal with |- wp _ _ _ ?w1 _ => set (wv := w1) end.
  assert (Hwv : wv = emits setup_logs
                       (with_views (resize n2 new_view (m_views w))
                          (with_configViews
                             (fill_buffer wr2 (resize n1 new_config_view (m_configViews w)))
                             w))) by reflexivity.
  clearbody wv.
  apply wp_when.
  2: { intros Hnone. rewrite Hnone. split; [exact Hwv|]. split; [reflexivity|].
       apply Nat.ltb_ge in Hnone. do 7 (split; [assumption|]). intros Hpos.
       exfalso. exact (Nat.lt_irrefl _ (Nat.lt_le_trans _ _ _ Hpos Hnone)). }
  intros Hsome. rewrite Hsome. apply Nat.ltb_lt in Hsome.
  apply wp_bind, wp_CHECK_XRRESULT.
  { intros Hc. destruct Hok as [He | (_ & _ & _ & _ & _ & _ & _ & Hs)]; [exact He|].
    destruct (Hs Hsome) as (Hs' & _). congruence. }
  intros Hformats.
  apply wp_bind, wp_CHECK_XRRESULT.
  { intros Hc. destruct Hok as [He | (_ & _ & _ & _ & _ & _ & _ & Hs)]; [exact He|].
    destruct (Hs Hsome) as (_ & Hs' & _). congruence. }
  intros Hformats_data.
  apply wp_bind, wp_CHECK.
  { intros Hc. destruct Hok as [He | (_ & _ & _ & _ & _ & _ & _ & Hs)]; [exact He|].
    destruct (Hs Hsome) as (_ & _ & Hs' & _). exfalso. apply Nat.eqb_neq in Hc. auto. }
  intros Hsize. apply Nat.eqb_eq in Hsize.
  apply wp_bind, wp_set_member. apply wp_bind, wp_emits.
  match goal with |- wp _ _ _ ?w1 _ => set (wf := w1) end.
  assert (Hwf : wf = emits [EvLog Info "Swapchain Formats: %s"]
                       (with_colorSwapchainFormat
                          (SelectColorSwapchainFormat rt (fill_buffer wr4 (replicate n3 0)))
                          wv)) by reflexivity.
  assert (Hcv : m_configViews wf
                = fill_buffer wr2 (resize n1 new_config_view (m_configViews w))).
  { rewrite Hwf, Hwv. reflexivity. }
  clearbody wf.
  eapply wp_mono.
  - apply (wp_for_seq E
             (fun k w' fr' =>
                w' = swapchains_world rt wf k /\ fr' = fr
                /\ forall i, (i < k)%nat -> swapchain_ok rt (m_configViews wf) i)).
    + rewrite swapchains_world_0. split; [reflexivity|]. split; [reflexivity|].
      intros i Hi. inversion Hi.
    + intros i w' fr' Hi (-> & -> & Hdone).
      eapply wp_mono.
      * apply CreateSwapchains_view_wp.
        destruct Hok as [He | (_ & _ & _ & _ & _ & _ & _ & Hs)]; [left; exact He|].
        right. rewrite Hcv. apply (Hs Hsome). exact Hi.
      * cbn beta. intros [] w' fr' (-> & -> & Hthis).
        split; [reflexivity|]. split; [reflexivity|].
        intros j Hj. assert (Hcases : (j < i)%nat \/ j = i) by lia.
        destruct Hcases as [Hlt | ->]; [apply Hdone; exact Hlt | exact Hthis].
  - cbn beta. intros [] w' fr' (-> & -> & Hall).
    split; [rewrite Hwf, Hwv; reflexivity|]. split; [reflexivity|].
    do 7 (split; [assumption|]). intros _.
    do 3 (split; [assumption|]). rewrite <- Hcv. exact Hall.
Qed.

Lemma CreateSwapchains_Ret rt w (fr : Frame unit) u w' fr' :
  CreateSwapchains rt w fr = Ret u w' fr' ->
  w' = created_world rt w /\ fr' = fr /\ swapchains_ok rt w (members fr).
Proof.
  intros Hrun.
  exact (wp_Ret _ _ _ _ _ _ _ _ (CreateSwapchains_wp True rt w fr (or_introl I)) Hrun).
Qed.

(** The members of [created_world]. *)
Lemma created_world_members rt w :
  m_swapchains (created_world rt w)
  = m_swapchains w
    ++ (created_swapchain rt (config_views rt w) <$> seq 0 (enumerated_views rt))
  /\ m_swapchainImages (created_world rt w)
     = foldl (register_images rt) (m_swapchainImages w) (seq 0 (enumerated_views rt))
  /\ m_configViews (created_world rt w) = config_views rt w
  /\ m_views (created_world rt w) = resize (enumerated_views rt) new_view (m_views w)
  /\ m_session (created_world rt w) = m_session w.
Proof.
  unfold created_world. destruct (enumerated_views rt) as [|n].
  - cbn. rewrite app_nil_r. repeat split.
  - repeat split.
Qed.

Lemma lookup_created_swapchains rt cv n i sc :
  (created_swapchain rt cv <$> seq 0 n) !! i = Some sc ->
  (i < n)%nat /\ sc = created_swapchain rt cv i.
Proof.
  intros Hsc. rewrite list_lookup_fmap in Hsc.
  destruct (seq 0 n !! i) as [j|] eqn:Hj; [|discriminate].
  apply lookup_seq in Hj as [-> Hlt]. injection Hsc as <-. split; [exact Hlt | reflexivity].
Qed.

(** An entry of the image registry stays as it is. *)
Lemma register_images_kept rt m i h imgs :
  m !! h = Some imgs -> register_images rt m i !! h = Some imgs.
Proof.
  intros Hm. unfold register_images, map_insert_new.
  match goal with |- context [match ?x with _ => _ end] => destruct x eqn:Hhere end;
    [exact Hm|].
  rewrite lookup_insert_ne; [exact Hm|]. intros <-. congruence.
Qed.

Lemma foldl_register_images_kept rt js : forall m h imgs,
  m !! h = Some imgs -> foldl (register_images rt) m js !! h = Some imgs.
Proof.
  induction js as [|j js IH]; intros m h imgs Hm; [exact Hm|].
  cbn [foldl]. apply IH, register_images_kept, Hm.
Qed.

(** The registry after [k] rounds, started empty: the entry of a handle holds
    the images of the first view that got it. *)
Lemma lookup_registered_images rt k : forall i,
  (i < k)%nat ->
  (forall j, (j < i)%nat -> created_handle rt j <> created_handle rt i) ->
  foldl (register_images rt) ∅ (seq 0 k) !! created_handle rt i
  = Some (allocated_images rt i).
Proof.
  induction k as [|k IH]; intros i Hi Hfirst; [lia|].
  rewrite seq_S, foldl_app. cbn [foldl]. rewrite Nat.add_0_l.
  assert (Hcases : (i < k)%nat \/ i = k) by lia.
  destruct Hcases as [Hlt | ->].
  - apply register_images_kept, IH; assumption.
  - unfold register_images at 1. unfold map_insert_new. fold (created_handle rt k).
    match goal with |- context [match ?x with _ => _ end] => destruct x eqn:Hhere end.
    + exfalso. clear IH Hi.
      assert (Hgen : forall n, (n <= k)%nat -> forall v,
                 foldl (register_images rt) ∅ (seq 0 n) !! created_handle rt k = Some v ->
                 False).
      { induction n as [|n IHn]; intros Hn v Hv; [cbn in Hv; rewrite lookup_empty in Hv; discriminate|].
        rewrite seq_S, foldl_app in Hv. cbn [foldl] in Hv. rewrite Nat.add_0_l in Hv.
        unfold register_images at 1 in Hv. unfold map_insert_new in Hv.
        fold (created_handle rt n) in Hv.
        match type of Hv with context [match ?x with _ => _ end] =>
          destruct x eqn:Hn' end.
        - apply (IHn ltac:(lia) _ Hv).
        - destruct (decide (created_handle rt n = created_handle rt k)) as [Heq | Hne].
          + apply (Hfirst n); [lia | exact Heq].
          + rewrite lookup_insert_ne in Hv by exact Hne. apply (IHn ltac:(lia) _ Hv). }
      exact (Hgen k (Nat.le_refl k) _ Hhere).
    + apply lookup_insert_eq.
Qed.

(** Among the views up to [i], the first one that got the handle of view [i]. *)
Lemma first_with_handle rt i :
  exists j, (j <= i)%nat /\ created_handle rt j = created_handle rt i
    /\ forall j', (j' < j)%nat -> created_handle rt j' <> created_handle rt i.
Proof.
  assert (Hgen : forall n,
             (forall j', (j' < n)%nat -> created_handle rt j' <> created_handle rt i)
             \/ exists j, (j < n)%nat /\ created_handle rt j = created_handle rt i
                  /\ forall j', (j' < j)%nat -> created_handle rt j' <> created_handle rt i).
  { induction n as [|n [Hnone | Hsome]].
    - left. intros j' Hj'. lia.
    - destruct (decide (created_handle rt n = created_handle rt i)) as [Heq | Hne].
      + right. exists n. split; [lia|]. split; [exact Heq | exact Hnone].
      + left. intros j' Hj'. assert (Hcases : (j' < n)%nat \/ j' = n) by lia.
        destruct Hcases as [Hlt | ->]; [apply Hnone; exact Hlt | exact Hne].
    - right. destruct Hsome as (j & Hj & Hrest). exists j. split; [lia | exact Hrest]. }
  destruct (Hgen i) as [Hnone | (j & Hj & Heq & Hfirst)].
  - exists i. split; [lia|]. split; [reflexivity | exact Hnone].
  - exists j. split; [lia|]. split; [exact Heq | exact Hfirst].
Qed.




(** A value that fits [int32_t] is stored as it is. *)
Lemma int32_fits z : -2 ^ 31 <= z < 2 ^ 31 -> int32 z = z.
Proof. intros Hz. unfold int32. rewrite Z.mod_small by lia. lia. Qed.

(** A [uint32_t] from 2^31 on becomes negative. *)
Lemma int32_wraps z : 2 ^ 31 <= z < 2 ^ 32 -> int32 z = z - 2 ^ 32.
Proof.
  intros Hz. unfold int32.
  replace (z + 2 ^ 31) with (z - 2 ^ 31 + 1 * 2 ^ 32) by lia.
  rewrite Z.mod_add by lia. rewrite Z.mod_small by lia. lia.
Qed.

(** X26: when [CreateSwapchains] returns, [m_swapchains] and [m_views] both
    hold as many elements as the second [xrEnumerateViewConfigurationViews]
    call reported, [m_configViews] holds at least as many, and the swapchain of
    view [i] has the handle the runtime gave it and, as its width and height,
    the recommended width and height of [m_configViews[i]] converted to
    [int32_t]: the recommended size itself when it is below 2^31, the size
    minus 2^32 from there on. *)
Theorem one_swapchain_per_view rt w (fr : Frame unit) u w' fr' :
  CreateSwapchains rt w fr = Ret u w' fr' ->
  length (m_swapchains w') = enumerated_views rt
  /\ length (m_views w') = enumerated_views rt
  /\ (enumerated_views rt <= length (m_configViews w'))%nat
  /\ forall i sc,
       m_swapchains w' !! i = Some sc ->
       exists vp,
         m_configViews w' !! i = Some vp
         /\ handle sc = created_handle rt i
         /\ width sc = int32 (recommendedImageRectWidth vp)
         /\ height sc = int32 (recommendedImageRectHeight vp)
         /\ (0 <= recommendedImageRectWidth vp < 2 ^ 31 ->
             width sc = recommendedImageRectWidth vp)
         /\ (0 <= recommendedImageRectHeight vp < 2 ^ 31 ->
             height sc = recommendedImageRectHeight vp)
         /\ (2 ^ 31 <= recommendedImageRectWidth vp < 2 ^ 32 ->
             width sc = recommendedImageRectWidth vp - 2 ^ 32)
         /\ (2 ^ 31 <= recommendedImageRectHeight vp < 2 ^ 32 ->
             height sc = recommendedImageRectHeight vp - 2 ^ 32).
Proof.
  intros Hrun. apply CreateSwapchains_Ret in Hrun as (-> & -> & Hok).
  destruct (created_world_members rt w) as (Hsc & _ & Hcv & Hv & _).
  rewrite Hsc, Hcv, Hv.
  destruct Hok as (_ & Hempty & _ & _ & _ & _ & _ & Hloop). rewrite Hempty. cbn [app].
  assert (Hin : forall i, (i < enumerated_views rt)%nat ->
                          (i < length (config_views rt w))%nat).
  { intros i Hi. assert (Hpos : (0 < enumerated_views rt)%nat) by lia.
    destruct (Hloop Hpos) as (_ & _ & _ & Hall). destruct (Hall i Hi) as (Hlt & _).
    exact Hlt. }
  split; [rewrite length_fmap, length_seq; reflexivity|].
  split; [apply length_resize|].
  split.
  { destruct (enumerated_views rt) as [|n]; [apply Nat.le_0_l|].
    apply Nat.le_succ_l, Hin, Nat.lt_succ_diag_r. }
  intros i sc Hlook. apply lookup_created_swapchains in Hlook as [Hi ->].
  destruct (lookup_lt_is_Some_2 (config_views rt w) i (Hin i Hi)) as [vp Hvp].
  exists vp. split; [exact Hvp|]. unfold created_swapchain.
  unfold XrViewConfigurationView in *. rewrite Hvp. cbn [default handle width height].
  do 3 (split; [reflexivity|]).
  split; [intros Hfit; apply int32_fits; lia|].
  split; [intros Hfit; apply int32_fits; lia|].
  split; intros Hwide; apply int32_wraps; exact Hwide.
Qed.

Lemma CreateSwapchains_refused rt w (fr : Frame unit) :
  m_session w <> XR_NULL_HANDLE -> m_swapchains w <> [] ->
  CreateSwapchains rt w fr = Thrown (CheckFailed "m_swapchains.empty()") w fr.
Proof.
  intros Hsession Hsome. apply Z.eqb_neq in Hsession.
  unfold CreateSwapchains.
  unfold bind at 1 2. unfold member at 1. unfold CHECK at 1.
  rewrite Hsession. cbn [negb]. unfold ret at 1.
  unfold bind at 1 2. unfold member at 1. unfold CHECK at 1.
  destruct (m_swapchains w) as [|sc rest]; [contradiction|]. reflexivity.
Qed.

(** X27: swapchains are created once.  After a [CreateSwapchains] that returned
    with at least one view, a second [CreateSwapchains], whatever the runtime
    answers, fails its check [m_swapchains.empty()] and leaves the program as
    it was. *)
Theorem swapchains_are_created_once rt rt2 w (fr fr2 : Frame unit) u w' fr' :
  CreateSwapchains rt w fr = Ret u w' fr' ->
  (0 < enumerated_views rt)%nat ->
  CreateSwapchains rt2 w' fr2 = Thrown (CheckFailed "m_swapchains.empty()") w' fr2.
Proof.
  intros Hrun Hpos. apply CreateSwapchains_Ret in Hrun as (-> & -> & Hok).
  destruct (created_world_members rt w) as (Hsc & _ & _ & _ & Hsession).
  apply CreateSwapchains_refused.
  - rewrite Hsession. destruct Hok as (Hs & _). exact Hs.
  - rewrite Hsc. destruct (enumerated_views rt) as [|n]; [lia|].
    intros Hnil. apply (f_equal length) in Hnil.
    rewrite length_app, length_fmap, length_seq in Hnil. cbn in Hnil. lia.
Qed.

(** X28: the image registry after set-up.  When [CreateSwapchains] returns
    from a program whose [m_swapchainImages] was empty, the entry of every
    created swapchain's handle exists and is not empty: it holds the image
    structures allocated for the first view that was given this handle. *)
Theorem every_swapchain_has_images rt w (fr : Frame unit) u w' fr' :
  CreateSwapchains rt w fr = Ret u w' fr' ->
  m_swapchainImages w = ∅ ->
  forall i sc,
    m_swapchains w' !! i = Some sc ->
    exists j,
      (j <= i)%nat /\ created_handle rt j = handle sc
      /\ (forall j', (j' < j)%nat -> created_handle rt j' <> handle sc)
      /\ m_swapchainImages w' !! handle sc = Some (allocated_images rt j)
      /\ allocated_images rt j <> [].
Proof.
  intros Hrun Hnone i sc Hlook. apply CreateSwapchains_Ret in Hrun as (-> & -> & Hok).
  destruct (created_world_members rt w) as (Hsc & Himages & _).
  rewrite Hsc in Hlook. rewrite Himages, Hnone.
  destruct Hok as (_ & Hempty & _ & _ & _ & _ & _ & Hloop).
  rewrite Hempty in Hlook. cbn [app] in Hlook.
  apply lookup_created_swapchains in Hlook as [Hi ->].
  cbn [handle created_swapchain]. fold (created_handle rt i).
  destruct (first_with_handle rt i) as (j & Hj & Heq & Hfirst).
  exists j. split; [exact Hj|]. split; [exact Heq|]. split; [exact Hfirst|].
  assert (Hpos : (0 < enumerated_views rt)%nat) by lia.
  destruct (Hloop Hpos) as (_ & _ & _ & Hall).
  assert (Hjn : (j < enumerated_views rt)%nat) by lia.
  split.
  - rewrite <- Heq. apply lookup_registered_images; [exact Hjn|].
    intros j' Hj'. rewrite Heq. apply Hfirst, Hj'.
  - destruct (Hall j Hjn) as (_ & _ & _ & Hsome & _). exact Hsome.
Qed.


(** X30: set-up, then a frame.  If [CreateSwapchains] returned and a later
    [RenderLayer] returns, the layer has one projection view per view that
    set-up enumerated, and view [i] is drawn into the swapchain created for
    it, over an image rectangle at (0, 0) whose extent is the recommended
    width and height of [m_configViews[i]] converted to [int32_t]: the
    recommended size itself when both are below 2^31. *)
Theorem eyes_render_at_recommended_size rt rt2 w (fr : Frame unit) u w1 fr1 t l r w2 l2 :
  CreateSwapchains rt w fr = Ret u w1 fr1 ->
  RenderLayer rt2 t w1 l = Ret r w2 l2 ->
  length (projectionLayerViews l2) = enumerated_views rt
  /\ forall i v,
       projectionLayerViews l2 !! i = Some v ->
       exists vp,
         m_configViews w1 !! i = Some vp
         /\ sub_swapchain (subImage v) = created_handle rt i
         /\ imageRect (subImage v)
            = {| offset := (0, 0);
                 extent := (int32 (recommendedImageRectWidth vp),
                            int32 (recommendedImageRectHeight vp)) |}
         /\ (0 <= recommendedImageRectWidth vp < 2 ^ 31 ->
             0 <= recommendedImageRectHeight vp < 2 ^ 31 ->
             extent (imageRect (subImage v))
             = (recommendedImageRectWidth vp, recommendedImageRectHeight vp)).
Proof.
  intros Hsetup Hrun.
  apply RenderLayer_Ret in Hrun as (_ & -> & -> & _ & _ & (_ & Hchains & _)).
  assert (Hlen : length (m_swapchains w1) = enumerated_views rt).
  { apply CreateSwapchains_Ret in Hsetup as (-> & -> & Hok).
    destruct (created_world_members rt w) as (Hsc & _).
    destruct Hok as (_ & Hempty & _). rewrite Hsc, Hempty. cbn [app].
    rewrite length_fmap, length_seq. reflexivity. }
  split; [rewrite length_submitted_views, Hchains; exact Hlen|].
  intros i v Hv. apply lookup_submitted_views in Hv as [Hi ->].
  destruct (lookup_lt_is_Some_2 (m_swapchains w1) i) as [sc Hsc]; [lia|].
  apply CreateSwapchains_Ret in Hsetup as (-> & -> & Hok).
  destruct (created_world_members rt w) as (Hscs & _ & Hcv & _).
  destruct Hok as (_ & Hempty & _ & _ & _ & _ & _ & Hloop).
  assert (Hin : (i < enumerated_views rt)%nat) by lia.
  assert (Hpos : (0 < enumerated_views rt)%nat) by lia.
  destruct (Hloop Hpos) as (_ & _ & _ & Hall). destruct (Hall i Hin) as (Hlt & _).
  destruct (lookup_lt_is_Some_2 (config_views rt w) i Hlt) as [vp Hvp].
  exists vp. rewrite Hcv. split; [exact Hvp|].
  unfold submitted_view, swapchain_of. cbn [subImage sub_swapchain imageRect].
  rewrite Hsc. cbn [default].
  rewrite Hscs, Hempty in Hsc. cbn [app] in Hsc.
  apply lookup_created_swapchains in Hsc as [_ ->].
  unfold created_swapchain. unfold XrViewConfigurationView in *. rewrite Hvp.
  cbn [default handle width height extent].
  split; [reflexivity|]. split; [reflexivity|].
  intros Hw Hh. cbn.
  rewrite (int32_fits (recommendedImageRectWidth vp)),
    (int32_fits (recommendedImageRectHeight vp)); [reflexivity | lia | lia].
Qed.

End CloudXR.


(** * The model at work *)

Lemma sample_buttons_wf : buttons_wf sample_buttons.
Proof. split; compute_done. Defined.

Lemma sample_analogs_wf : analogs_wf sample_analogs.
Proof. split; compute_done. Defined.

Lemma sample_runtime_actions_ok buttons floats aim flags latch :
  actions_ok (sample_runtime buttons floats aim flags latch).
Proof. repeat split. Defined.

(** ** Session state machine *)

(** After a ready event, an exiting event of the owned session. *)
Lemma PollEvents_exit_flags_witness :
  exists w2 l2,
    PollEvents quiet_runtime
      [ready_event; (XR_SUCCESS, XR_TYPE_EVENT_DATA_SESSION_STATE_CHANGED exiting_event)]
      sample_world no_flags = Ret [] w2 l2
    /\ exitRenderLoop l2 = true /\ requestRestart l2 = false
    /\ m_sessionState w2 = XR_SESSION_STATE_EXITING.
Proof.
  pose (run := PollEvents quiet_runtime [ready_event] sample_world no_flags).
  assert (Hpre : Forall polled_through [ready_event]).
  { repeat constructor. intros t. discriminate. }
  assert (Hrun : run = Ret [] (final_world run) (final_locals run))
    by (vm_compute; reflexivity).
  destruct (PollEvents_exit_flags quiet_runtime [ready_event] sample_world no_flags
              (final_world run) (final_locals run) exiting_event Hpre Hrun
              (or_intror eq_refl)) as (Hexit & _ & _).
  exact (Hexit eq_refl).
Defined.


(** ** Input relay *)

(** The A button goes down on one tick and stays down on the next. *)
Lemma rising_edge_only_bits_witness :
  exists r1 w1 l1 r2 w2 l2 ts1 ts2,
    PollActions sample_buttons sample_analogs (a_button_runtime pressed_now)
      sample_world poll_locals0 = Ret r1 w1 l1
    /\ PollActions sample_buttons sample_analogs (a_button_runtime held_down)
         w1 l1 = Ret r2 w2 l2
    /\ forwards sample_world w1 ts1 /\ forwards w1 w2 ts2
    /\ Z.testbit (bits_of ts1 Side.RIGHT) (cxrButton_A sample_buttons) = true
    /\ Z.testbit (bits_of ts2 Side.RIGHT) (cxrButton_A sample_buttons) = false.
Proof.
  destruct (PollActions_returns sample_buttons sample_analogs (a_button_runtime pressed_now)
              sample_world poll_locals0 (sample_runtime_actions_ok _ _ _ _ _)
              (proj1 sample_analogs_wf)) as (r1 & w1 & l1 & Hrun1).
  destruct (PollActions_returns sample_buttons sample_analogs (a_button_runtime held_down)
              w1 l1 (sample_runtime_actions_ok _ _ _ _ _)
              (proj1 sample_analogs_wf)) as (r2 & w2 & l2 & Hrun2).
  destruct (rising_edge_only_bits sample_buttons sample_analogs
              (a_button_runtime pressed_now) sample_world poll_locals0 r1 w1 l1
              sample_buttons_wf eq_refl Hrun1) as (ts1 & Hfw1 & Hbits & Hnext).
  assert (Hhand : Side.RIGHT ∈ [Side.LEFT; Side.RIGHT]) by compute_done.
  assert (Hctl : (AAction, cxrButton_A sample_buttons) ∈ button_controls sample_buttons)
    by (unfold button_controls; rewrite !elem_of_cons; auto 10).
  destruct (Hnext _ _ _ _ _ Side.RIGHT (AAction, cxrButton_A sample_buttons)
              Hrun2 Hhand Hctl eq_refl eq_refl) as (ts2 & Hfw2 & Hclear).
  exists r1, w1, l1, r2, w2, l2, ts1, ts2.
  repeat (split; [assumption|]). split; [|exact Hclear].
  apply (Hbits Side.RIGHT (AAction, cxrButton_A sample_buttons) Hhand Hctl).
  repeat split.
Defined.

(** The left back button is released. *)
Lemma back_release_signal_witness :
  exists w' l',
    PollActions sample_buttons sample_analogs (back_button_runtime released_now)
      sample_world poll_locals0 = Ret true w' l'.
Proof.
  destruct (back_release_signal sample_buttons sample_analogs
              (back_button_runtime released_now) sample_world poll_locals0)
    as [Hsignal Hreturns].
  destruct (Hreturns (sample_runtime_actions_ok _ _ _ _ _) (proj1 sample_analogs_wf))
    as (r & w' & l' & Hrun).
  destruct (Hsignal r w' l' Hrun) as [Hiff _].
  assert (Hr : r = true).
  { apply Hiff. exists Side.LEFT. split; [compute_done|]. repeat split. discriminate. }
  exists w', l'. rewrite <- Hr. exact Hrun.
Defined.

(** C10 as stated fails: the left trigger is active at 1.0 on one tick and
    inactive on the next; the snapshot forwarded on the second tick holds 0.0
    in the trigger slot, not the 1.0 of the tick before. *)
Lemma inactive_scalar_is_not_retained :
  exists r1 w1 l1 r2 w2 l2 ts1 ts2,
    PollActions sample_buttons sample_analogs trigger_runtime sample_world poll_locals0
      = Ret r1 w1 l1
    /\ PollActions sample_buttons sample_analogs quiet_runtime w1 l1 = Ret r2 w2 l2
    /\ forwarded_snapshots (trace w2) = [ts1; ts2]
    /\ f_isActive (float_state quiet_runtime triggerAction Side.LEFT) = XR_FALSE
    /\ scalars_of ts1 Side.LEFT !! cxrAnalog_Trigger sample_analogs = Some f32_one
    /\ scalars_of ts2 Side.LEFT !! cxrAnalog_Trigger sample_analogs = Some f32_zero
    /\ f32_zero <> f32_one.
Proof.
  pose (tick1 := PollActions sample_buttons sample_analogs trigger_runtime
                   sample_world poll_locals0).
  pose (tick2 := PollActions sample_buttons sample_analogs quiet_runtime
                   (final_world tick1) (final_locals tick1)).
  exists false, (final_world tick1), (final_locals tick1),
         false, (final_world tick2), (final_locals tick2),
         (trackingState (final_locals tick1)), (trackingState (final_locals tick2)).
  vm_compute. repeat (split; [reflexivity|]). discriminate.
Qed.

(** Every control is inactive: the forwarded snapshot is all zero. *)
Lemma inactive_controls_are_zero_witness :
  exists r w' l' ts,
    PollActions sample_buttons sample_analogs
      (sample_runtime (fun _ _ => inactive_button) (fun _ _ => inactive_float)
                      (fun _ => hand_lost) 3 (false, no_frames))
      sample_world poll_locals0 = Ret r w' l'
    /\ forwards sample_world w' ts
    /\ scalars_of ts Side.LEFT !! cxrAnalog_Trigger sample_analogs = Some f32_zero
    /\ Z.testbit (bits_of ts Side.LEFT) (cxrButton_A sample_buttons) = false.
Proof.
  set (rt := sample_runtime (fun _ _ => inactive_button) (fun _ _ => inactive_float)
                            (fun _ => hand_lost) 3 (false, no_frames)).
  destruct (PollActions_returns sample_buttons sample_analogs rt sample_world poll_locals0
              (sample_runtime_actions_ok _ _ _ _ _) (proj1 sample_analogs_wf))
    as (r & w' & l' & Hrun).
  destruct (inactive_controls_are_zero sample_buttons sample_analogs rt
              sample_world poll_locals0 r w' l'
              sample_buttons_wf sample_analogs_wf eq_refl Hrun) as (ts & Hfw & Hzero).
  assert (Hhand : Side.LEFT ∈ [Side.LEFT; Side.RIGHT]) by compute_done.
  destruct (Hzero Side.LEFT Hhand) as (Htrigger & _ & _ & Hbutton).
  exists r, w', l', ts. split; [exact Hrun|]. split; [exact Hfw|]. split.
  - apply Htrigger. discriminate.
  - apply (Hbutton (AAction, cxrButton_A sample_buttons)); [|discriminate].
    unfold button_controls. rewrite !elem_of_cons. auto 10.
Defined.

(** ** Frame compositor *)

(** A latched frame whose pose differs from the located views. *)
Lemma remote_pose_overrides_local_witness :
  exists w' info layer,
    RenderFrame sample_quaternion sample_translation (latched_runtime 3) sample_world tt = Ret tt w' tt
    /\ last (trace w') = Some (EvXrEndFrame info)
    /\ layers info = [layer]
    /\ length (views layer) = 2%nat
    /\ forall i v,
         views layer !! i = Some v ->
         orientation (pose v) = sample_quaternion remote_matrix
         /\ position (pose v) = sample_translation remote_matrix.
Proof.
  destruct (remote_pose_overrides_local sample_quaternion sample_translation
              (latched_runtime 3) 1000 sample_world render_locals0 eq_refl)
    as (_ & Hframe & _ & Hreturns).
  assert (Hok : frame_ok (latched_runtime 3) sample_world = true) by (vm_compute; reflexivity).
  destruct (Hreturns Hok) as ([] & w' & [] & Hrun).
  destruct (Hframe eq_refl tt w' tt Hrun) as (info & layer & Hlast & Hlayers & Hlen & Hpose).
  exists w', info, layer. auto.
Defined.

(** No frame: the located views are submitted. *)
Lemma local_pose_is_the_fallback_witness :
  exists w' info layer,
    RenderFrame sample_quaternion sample_translation quiet_runtime sample_world tt = Ret tt w' tt
    /\ last (trace w') = Some (EvXrEndFrame info)
    /\ layers info = [layer]
    /\ length (views layer) = 2%nat
    /\ (forall i v,
          views layer !! i = Some v ->
          (forall x, lv_views (xrLocateViews quiet_runtime) !! i = Some x ->
                     pose v = view_pose x)
          /\ exists located, m_views w' !! i = Some located /\ pose v = view_pose located)
    /\ (forall v, views layer !! 0%nat = Some v -> pose v = sample_pose 1 2 3)
    /\ (forall v, views layer !! 1%nat = Some v -> pose v = sample_pose 2 2 3).
Proof.
  destruct (local_pose_is_the_fallback sample_quaternion sample_translation
              quiet_runtime 1000 sample_world render_locals0 eq_refl)
    as (_ & Hframe & _ & Hreturns).
  assert (Hok : frame_ok quiet_runtime sample_world = true) by (vm_compute; reflexivity).
  destruct (Hreturns Hok) as ([] & w' & [] & Hrun).
  destruct (Hframe eq_refl tt w' tt Hrun) as (info & layer & Hlast & Hlayers & Hlen & Hpose).
  exists w', info, layer.
  split; [exact Hrun|]. split; [exact Hlast|]. split; [exact Hlayers|].
  split; [exact Hlen|]. split; [exact Hpose|].
  split; intros v Hv; exact (proj1 (Hpose _ v Hv) _ eq_refl).
Defined.


(** Both validity bits unset. *)
Lemma submits_without_valid_tracking_witness :
  exists w' info layer,
    RenderFrame sample_quaternion sample_translation (latched_runtime 0) sample_world tt = Ret tt w' tt
    /\ last (trace w') = Some (EvXrEndFrame info)
    /\ layerCount info = 1 /\ layers info = [layer]
    /\ length (views layer) = 2%nat.
Proof.
  destruct (submits_without_valid_tracking sample_quaternion sample_translation
              (latched_runtime 0) 1000 sample_world render_locals0 eq_refl eq_refl)
    as [_ Hframe].
  assert (Hok : frame_ok (latched_runtime 0) sample_world = true) by (vm_compute; reflexivity).
  exact (Hframe Hok eq_refl).
Defined.


(** C5 as stated fails: the left hand is located at (9, 9, 9) on one tick and
    its query is invalid on the next; the list forwarded on the second tick is
    empty, it does not hold the pose of the tick before. *)
Lemma stale_hand_pose_is_dropped :
  exists w1 l1 w2 l2,
    RenderLayer sample_quaternion sample_translation left_hand_runtime 1000 sample_world render_locals0 = Ret true w1 l1
    /\ RenderLayer sample_quaternion sample_translation quiet_runtime 1016 w1 render_locals0 = Ret true w2 l2
    /\ hand_valid left_hand_runtime Side.LEFT = true
    /\ hand_valid quiet_runtime Side.LEFT = false
    /\ handPose l1 = [sample_pose 9 9 9]
    /\ handPose l2 = []
    /\ forwarded_hand_poses (trace w2) = [[sample_pose 9 9 9]; []].
Proof.
  pose (tick1 := RenderLayer sample_quaternion sample_translation left_hand_runtime 1000 sample_world render_locals0).
  pose (tick2 := RenderLayer sample_quaternion sample_translation quiet_runtime 1016 (final_world tick1) render_locals0).
  exists (final_world tick1), (final_locals tick1),
         (final_world tick2), (final_locals tick2).
  vm_compute. repeat split.
Qed.

(** The right hand alone is located. *)
Lemma invalid_hand_is_omitted_witness :
  exists w' l',
    RenderLayer sample_quaternion sample_translation
      (sample_runtime (fun _ _ => released_button) (fun _ _ => inactive_float)
         (fun hand => match hand with O => hand_lost | _ => hand_located (sample_pose 4 5 6) end)
         3 (false, no_frames))
      1000 sample_world render_locals0 = Ret true w' l'
    /\ handPose l' = [sample_pose 4 5 6].
Proof.
  set (rt := sample_runtime _ _ _ _ _).
  assert (Hok : render_ok rt sample_world = true) by (vm_compute; reflexivity).
  destruct (RenderLayer_returns sample_quaternion sample_translation rt 1000 sample_world
              render_locals0 Hok) as (r & w' & l' & Hrun).
  destruct (RenderLayer_Ret _ _ _ _ _ _ _ _ _ Hrun) as (-> & _).
  destruct (invalid_hand_is_omitted sample_quaternion sample_translation
              rt 1000 sample_world render_locals0 true w' l' Hrun)
    as ((_ & _ & _ & _ & Hposes) & Hleft & _).
  exists w', l'. split; [exact Hrun|]. rewrite Hposes. exact (Hleft eq_refl).
Defined.

(** ** Further examples: session state machine *)

Lemma nothing_pending_clears_flags_witness :
  exists w',
    PollEvents quiet_runtime [(XR_EVENT_UNAVAILABLE, XR_TYPE_EVENT_OTHER 0); ready_event]
      sample_world {| exitRenderLoop := true; requestRestart := true |}
    = Ret [ready_event] w' no_flags
    /\ trace w' = trace sample_world
    /\ m_sessionState w' = m_sessionState sample_world
    /\ m_sessionRunning w' = m_sessionRunning sample_world.
Proof.
  exact (nothing_pending_clears_flags quiet_runtime
           (XR_EVENT_UNAVAILABLE, XR_TYPE_EVENT_OTHER 0) [ready_event] sample_world
           {| exitRenderLoop := true; requestRestart := true |} eq_refl).
Defined.

(** [xrPollEvent] times out (a qualified success) after a focused event. *)
Lemma poll_error_is_thrown_witness :
  PollEvents quiet_runtime [focused_event; (1, XR_TYPE_EVENT_OTHER 0); ready_event]
    sample_world no_flags
  = Thrown (XrResultError 1 "xrPollEvent")
      (final_world (PollEvents quiet_runtime [focused_event] sample_world no_flags)) no_flags.
Proof.
  apply (poll_error_is_thrown quiet_runtime [focused_event] 1 (XR_TYPE_EVENT_OTHER 0)
           [ready_event] sample_world no_flags).
  - repeat constructor. intros t. discriminate.
  - reflexivity.
  - discriminate.
  - discriminate.
Defined.

Lemma restart_implies_exit_witness :
  exitRenderLoop
    (final_locals (PollEvents quiet_runtime [focused_event; loss_pending_event]
                     sample_world no_flags)) = true.
Proof.
  exact (restart_implies_exit quiet_runtime [focused_event; loss_pending_event]
           sample_world no_flags eq_refl).
Defined.

(** The session is lost, then stopped, and then [xrEndSession] fails. *)
Lemma exit_request_is_kept_witness :
  exitRenderLoop
    (final_locals (PollEvents failing_session_runtime
                     ([loss_pending_event] ++ [focused_event; stopping_event])
                     sample_world no_flags)) = true.
Proof.
  apply (exit_request_is_kept failing_session_runtime [loss_pending_event]
           [focused_event; stopping_event] sample_world no_flags
           (final_world (PollEvents failing_session_runtime [loss_pending_event]
                           sample_world no_flags))
           {| exitRenderLoop := true; requestRestart := true |}).
  - repeat constructor. intros t. discriminate.
  - reflexivity.
  - reflexivity.
Defined.

Lemma running_flag_needs_ready_or_stopping_witness :
  m_sessionRunning
    (final_world (PollEvents quiet_runtime
                    [focused_event; (XR_SUCCESS, XR_TYPE_EVENT_DATA_INTERACTION_PROFILE_CHANGED);
                     loss_pending_event]
                    sample_world no_flags)) = true.
Proof.
  refine (proj1 (running_flag_needs_ready_or_stopping quiet_runtime
                   [focused_event; (XR_SUCCESS, XR_TYPE_EVENT_DATA_INTERACTION_PROFILE_CHANGED);
                    loss_pending_event]
                   sample_world no_flags _)).
  repeat constructor; intros (ev & Hev & Hst); cbn in Hev;
    try discriminate; injection Hev as <-; destruct Hst; discriminate.
Defined.

Lemma ready_begins_the_session_witness :
  exists w',
    HandleSessionStateChangedEvent quiet_runtime
      {| ev_session := 7; ev_state := XR_SESSION_STATE_READY; ev_time := 1 |}
      idle_world no_flags = Ret tt w' no_flags
    /\ m_sessionRunning w' = true
    /\ m_sessionState w' = XR_SESSION_STATE_READY
    /\ trace w' = trace idle_world ++ [state_changed_log; EvXrBeginSession].
Proof.
  apply (ready_begins_the_session quiet_runtime
           {| ev_session := 7; ev_state := XR_SESSION_STATE_READY; ev_time := 1 |}
           idle_world no_flags eq_refl (or_intror eq_refl)).
  - discriminate.
  - reflexivity.
Defined.

Lemma stopping_clears_running_first_witness :
  exists w',
    HandleSessionStateChangedEvent failing_session_runtime
      {| ev_session := 7; ev_state := XR_SESSION_STATE_STOPPING; ev_time := 3 |}
      sample_world no_flags = Thrown (XrResultError (-2) "xrEndSession") w' no_flags
    /\ m_sessionRunning w' = false
    /\ m_sessionState w' = XR_SESSION_STATE_STOPPING
    /\ trace w' = trace sample_world ++ [state_changed_log; EvXrEndSession].
Proof.
  apply (stopping_clears_running_first failing_session_runtime
           {| ev_session := 7; ev_state := XR_SESSION_STATE_STOPPING; ev_time := 3 |}
           sample_world no_flags eq_refl (or_intror eq_refl)).
  discriminate.
Defined.

(** ** Further examples: input relay *)

Lemma left_hand_listed : Side.LEFT ∈ [Side.LEFT; Side.RIGHT].
Proof. apply elem_of_cons. left. reflexivity. Defined.

Lemma right_hand_listed : Side.RIGHT ∈ [Side.LEFT; Side.RIGHT].
Proof. apply elem_of_cons. right. apply elem_of_cons. left. reflexivity. Defined.

Lemma quiet_tick_returns :
  returns (PollActions sample_buttons sample_analogs quiet_runtime) sample_world poll_locals0.
Proof.
  apply PollActions_returns; [apply sample_runtime_actions_ok | exact (proj1 sample_analogs_wf)].
Defined.

(** Both pose actions are active on a program that had both hands inactive. *)
Lemma hand_active_follows_pose_witness :
  exists r w' l',
    PollActions sample_buttons sample_analogs quiet_runtime sample_world poll_locals0
    = Ret r w' l'
    /\ handActive (m_input sample_world) = {| slot0 := XR_FALSE; slot1 := XR_FALSE |}
    /\ handActive (m_input w') = {| slot0 := XR_TRUE; slot1 := XR_TRUE |}.
Proof.
  destruct quiet_tick_returns as (r & w' & l' & Hrun). exists r, w', l'.
  split; [exact Hrun|]. split; [reflexivity|].
  exact (hand_active_follows_pose sample_buttons sample_analogs quiet_runtime
           sample_world poll_locals0 r w' l' Hrun).
Defined.

Lemma joystick_position_is_recorded_witness :
  exists r w' l',
    PollActions sample_buttons sample_analogs joystick_runtime sample_world poll_locals0
    = Ret r w' l'
    /\ at2 (handXYPos (m_input w')) Side.LEFT = {| v2_x := f32_one; v2_y := f32_zero |}
    /\ at2 (handXYPos (m_input w')) Side.RIGHT = zero_v2.
Proof.
  assert (Hok : actions_ok joystick_runtime)
    by (repeat split; intros a h; try reflexivity; destruct h; reflexivity).
  destruct (PollActions_returns sample_buttons sample_analogs joystick_runtime
              sample_world poll_locals0 Hok (proj1 sample_analogs_wf)) as (r & w' & l' & Hrun).
  exists r, w', l'. split; [exact Hrun|]. split.
  - apply (joystick_position_is_recorded sample_buttons sample_analogs joystick_runtime
             sample_world poll_locals0 r w' l' Side.LEFT Hrun left_hand_listed).
    reflexivity.
  - apply (joystick_position_is_recorded sample_buttons sample_analogs joystick_runtime
             sample_world poll_locals0 r w' l' Side.RIGHT Hrun right_hand_listed).
    discriminate.
Defined.

(** B goes down and X comes up on the same tick: X, sampled last, decides. *)
Lemma hand_scale_last_control_decides_witness :
  exists r w' l',
    PollActions sample_buttons sample_analogs b_and_x_runtime sample_world poll_locals0
    = Ret r w' l'
    /\ at2 (handScale (m_input w')) Side.RIGHT = f32_one.
Proof.
  destruct (PollActions_returns sample_buttons sample_analogs b_and_x_runtime
              sample_world poll_locals0 (sample_runtime_actions_ok _ _ _ _ _)
              (proj1 sample_analogs_wf)) as (r & w' & l' & Hrun).
  exists r, w', l'. split; [exact Hrun|].
  destruct (hand_scale_last_control_decides sample_buttons sample_analogs b_and_x_runtime
              sample_world poll_locals0 r w' l' Side.RIGHT Hrun right_hand_listed)
    as [Hlast _].
  exact (Hlast (take 5 scaling_buttons) XAction (f32_div (f32_lit 5 100) (f32_lit 1 10)) []
           eq_refl eq_refl (Forall_nil_2 _)).
Defined.

Lemma haptics_when_squeezed_witness :
  exists r w' l' tick,
    PollActions sample_buttons sample_analogs squeeze_and_quit_runtime sample_world
      poll_locals0 = Ret r w' l'
    /\ trace w' = trace sample_world ++ tick
    /\ count_events (is_haptic Side.LEFT) tick = 1%nat.
Proof.
  destruct (PollActions_returns sample_buttons sample_analogs squeeze_and_quit_runtime
              sample_world poll_locals0 (sample_runtime_actions_ok _ _ _ _ _)
              (proj1 sample_analogs_wf)) as (r & w' & l' & Hrun).
  destruct (haptics_when_squeezed sample_buttons sample_analogs squeeze_and_quit_runtime
              sample_world poll_locals0 r w' l' Side.LEFT Hrun left_hand_listed)
    as (tick & Ht & Hcount).
  exists r, w', l', tick. auto.
Defined.

(** Quit pressed on both controllers on one tick. *)
Lemma exit_requested_per_hand_witness :
  exists r w' l' tick,
    PollActions sample_buttons sample_analogs squeeze_and_quit_runtime sample_world
      poll_locals0 = Ret r w' l'
    /\ trace w' = trace sample_world ++ tick
    /\ count_events is_exit_request tick = 2%nat.
Proof.
  destruct (PollActions_returns sample_buttons sample_analogs squeeze_and_quit_runtime
              sample_world poll_locals0 (sample_runtime_actions_ok _ _ _ _ _)
              (proj1 sample_analogs_wf)) as (r & w' & l' & Hrun).
  destruct (exit_requested_per_hand sample_buttons sample_analogs squeeze_and_quit_runtime
              sample_world poll_locals0 r w' l' Hrun) as (tick & Ht & Hcount).
  exists r, w', l', tick. auto.
Defined.

(** The back button is released on a program without a client. *)
Lemma snapshot_needs_a_client_witness :
  exists w' l',
    PollActions sample_buttons sample_analogs (back_button_runtime released_now)
      clientless_world poll_locals0 = Ret true w' l'
    /\ forwarded_snapshots (trace w') = [].
Proof.
  destruct (PollActions_returns sample_buttons sample_analogs (back_button_runtime released_now)
              clientless_world poll_locals0 (sample_runtime_actions_ok _ _ _ _ _)
              (proj1 sample_analogs_wf)) as (r & w' & l' & Hrun).
  destruct (snapshot_needs_a_client sample_buttons sample_analogs
              (back_button_runtime released_now) clientless_world poll_locals0 r w' l' Hrun)
    as [Hnone Hr].
  exists w', l'. split; [rewrite Hrun, Hr; reflexivity | exact Hnone].
Defined.

Lemma only_button_bits_are_set_witness :
  exists r w' l' ts,
    PollActions sample_buttons sample_analogs (a_button_runtime pressed_now) sample_world
      poll_locals0 = Ret r w' l'
    /\ forwards sample_world w' ts
    /\ forall hand k,
         hand ∈ [Side.LEFT; Side.RIGHT] ->
         Z.testbit (bits_of ts hand) k = true ->
         exists c,
           c ∈ button_controls sample_buttons /\ snd c = k
           /\ rising_edge (button_state (a_button_runtime pressed_now) (fst c) hand) = true.
Proof.
  destruct (PollActions_returns sample_buttons sample_analogs (a_button_runtime pressed_now)
              sample_world poll_locals0 (sample_runtime_actions_ok _ _ _ _ _)
              (proj1 sample_analogs_wf)) as (r & w' & l' & Hrun).
  destruct (only_button_bits_are_set sample_buttons sample_analogs
              (a_button_runtime pressed_now) sample_world poll_locals0 r w' l'
              (proj1 sample_buttons_wf) eq_refl Hrun) as (ts & Hfw & Hbits).
  exists r, w', l', ts. auto.
Defined.

Lemma scalar_slots_of_the_snapshot_witness :
  exists r w' l' ts,
    PollActions sample_buttons sample_analogs trigger_runtime sample_world poll_locals0
    = Ret r w' l'
    /\ forwards sample_world w' ts
    /\ length (scalars_of ts Side.LEFT) = 7%nat
    /\ scalars_of ts Side.LEFT !! 0%nat = Some f32_one
    /\ scalars_of ts Side.LEFT !! 1%nat = Some f32_zero.
Proof.
  destruct (PollActions_returns sample_buttons sample_analogs trigger_runtime
              sample_world poll_locals0 (sample_runtime_actions_ok _ _ _ _ _)
              (proj1 sample_analogs_wf)) as (r & w' & l' & Hrun).
  destruct (scalar_slots_of_the_snapshot sample_buttons sample_analogs trigger_runtime
              sample_world poll_locals0 r w' l' sample_analogs_wf eq_refl Hrun)
    as (ts & Hfw & Hslots).
  destruct (Hslots Side.LEFT left_hand_listed) as (Hlen & Htrigger & _ & _ & Hother).
  exists r, w', l', ts. split; [exact Hrun|]. split; [exact Hfw|]. split; [exact Hlen|].
  split; [exact (Htrigger eq_refl)|].
  apply Hother; [cbn; lia|]. cbn. intros Hin.
  repeat (apply elem_of_cons in Hin as [Hin | Hin]; [discriminate|]). inversion Hin.
Defined.

Lemma failed_sync_resets_hand_activity_witness :
  exists w' l',
    PollActions sample_buttons sample_analogs failing_sync_runtime sample_world poll_locals0
    = Thrown (XrResultError (-2) "xrSyncActions") w' l'
    /\ trace w' = trace sample_world
    /\ handActive (m_input w') = {| slot0 := XR_FALSE; slot1 := XR_FALSE |}
    /\ handScale (m_input w') = handScale (m_input sample_world)
    /\ handXYPos (m_input w') = handXYPos (m_input sample_world).
Proof.
  exact (failed_sync_resets_hand_activity sample_buttons sample_analogs failing_sync_runtime
           sample_world poll_locals0 eq_refl).
Defined.

(** The right hand's A press is sampled, then the query of X fails. *)
Lemma failed_tick_forwards_nothing_witness :
  exists w' l' evs,
    PollActions sample_buttons sample_analogs failing_query_runtime sample_world poll_locals0
    = Thrown (XrResultError (-2) "xrGetActionStateBoolean") w' l'
    /\ trace w' = trace sample_world ++ evs /\ Forall input_event evs
    /\ forwarded_snapshots (trace w') = forwarded_snapshots (trace sample_world).
Proof.
  pose (run := PollActions sample_buttons sample_analogs failing_query_runtime
                 sample_world poll_locals0).
  assert (Hrun : run = Thrown (XrResultError (-2) "xrGetActionStateBoolean")
                         (final_world run) (final_locals run))
    by (vm_compute; reflexivity).
  destruct (failed_tick_forwards_nothing sample_buttons sample_analogs failing_query_runtime
              sample_world poll_locals0 _ _ _ Hrun) as (evs & Ht & Hevs & Hnone).
  exists (final_world run), (final_locals run), evs. auto.
Defined.

(** ** Further examples: frame compositor *)

Lemma idle_tick_submits_no_layer_witness :
  exists w' info,
    RenderFrame sample_quaternion sample_translation idle_frame_runtime sample_world tt
    = Ret tt w' tt
    /\ trace w' = trace sample_world ++ [EvXrWaitFrame; EvXrBeginFrame; EvXrEndFrame info]
    /\ layers info = [] /\ layerCount info = 0
    /\ m_views w' = m_views sample_world.
Proof.
  destruct (idle_tick_submits_no_layer sample_quaternion sample_translation
              idle_frame_runtime sample_world eq_refl) as [Hidle Hreturns].
  destruct Hreturns as ([] & w' & [] & Hrun); try reflexivity; [discriminate|].
  destruct (Hidle tt w' tt Hrun) as (info & Ht & Hl & Hc & _ & _ & Hv & _).
  exists w', info. auto.
Defined.

Lemma view_covers_its_swapchain_witness :
  exists w' l',
    RenderLayer sample_quaternion sample_translation (latched_runtime 3) 1000 sample_world
      render_locals0 = Ret true w' l'
    /\ length (projectionLayerViews l') = 2%nat
    /\ (forall i v,
          projectionLayerViews l' !! i = Some v ->
          (forall x, lv_views (xrLocateViews (latched_runtime 3)) !! i = Some x ->
                     fov v = view_fov x)
          /\ exists located sc,
               m_views w' !! i = Some located /\ m_swapchains sample_world !! i = Some sc
               /\ fov v = view_fov located
               /\ sub_swapchain (subImage v) = handle sc
               /\ imageRect (subImage v)
                  = {| offset := (0, 0); extent := (width sc, height sc) |}
               /\ imageArrayIndex (subImage v) = 0)
    /\ (forall v, projectionLayerViews l' !! 0%nat = Some v -> fov v = sample_fov)
    /\ (forall v, projectionLayerViews l' !! 1%nat = Some v -> fov v = sample_fov).
Proof.
  pose (run := RenderLayer sample_quaternion sample_translation (latched_runtime 3) 1000
                 sample_world render_locals0).
  assert (Hrun : run = Ret true (final_world run) (final_locals run))
    by (vm_compute; reflexivity).
  destruct (view_covers_its_swapchain sample_quaternion sample_translation
              (latched_runtime 3) 1000 sample_world render_locals0 _ _ _ Hrun)
    as (_ & Hlen & Hviews).
  exists (final_world run), (final_locals run).
  split; [exact Hrun|]. split; [exact Hlen|]. split; [exact Hviews|].
  split; intros v Hv; exact (proj1 (Hviews _ v Hv) _ eq_refl).
Defined.

(** A tick that renders with [gsIndex] 3, then a tick that does not. *)
Lemma gs_index_is_carried_witness :
  exists w1 w2 info1 info2,
    RenderFrame sample_quaternion sample_translation (latched_runtime 3) sample_world tt
    = Ret tt w1 tt
    /\ RenderFrame sample_quaternion sample_translation idle_frame_runtime w1 tt
       = Ret tt w2 tt
    /\ last (trace w1) = Some (EvXrEndFrame info1)
    /\ last (trace w2) = Some (EvXrEndFrame info2)
    /\ next info1 = {| useHeadposeExt := 1; gsIndex := 3 |}
    /\ next info2 = next info1.
Proof.
  pose (run1 := RenderFrame sample_quaternion sample_translation (latched_runtime 3)
                  sample_world tt).
  pose (run2 := RenderFrame sample_quaternion sample_translation idle_frame_runtime
                  (final_world run1) tt).
  assert (Hrun1 : run1 = Ret tt (final_world run1) tt) by (vm_compute; reflexivity).
  assert (Hrun2 : run2 = Ret tt (final_world run2) tt) by (vm_compute; reflexivity).
  destruct (gs_index_is_carried sample_quaternion sample_translation (latched_runtime 3)
              idle_frame_runtime sample_world _ _ _ _ _ _ eq_refl eq_refl Hrun1 Hrun2)
    as (info1 & info2 & H1 & H2 & Hn1 & Hn2 & _).
  exists (final_world run1), (final_world run2), info1, info2. auto 10.
Defined.

Lemma view_count_mismatch_stops_before_latch_witness :
  exists what w',
    RenderLayer sample_quaternion sample_translation one_view_runtime 1000 sample_world
      render_locals0 = Thrown (CheckFailed what) w' render_locals0
    /\ trace w' = trace sample_world
    /\ m_views w' = located_views one_view_runtime sample_world
    /\ mGsIndex w' = 9
    /\ length (m_views w') = 2%nat
    /\ m_views w' !! 0%nat
       = Some {| view_pose := sample_pose 1 2 3; view_fov := sample_fov |}.
Proof.
  pose proof (view_count_mismatch_stops_before_latch sample_quaternion sample_translation
                one_view_runtime 1000 sample_world render_locals0 eq_refl) as Hthm.
  match type of Hthm with
  | ?P -> _ => assert (Hmis : P) by (left; discriminate)
  end.
  destruct (Hthm Hmis) as (what & w' & Hrun & Htrace & Hviews & Hgs & Hlen & Hwritten).
  exists what, w'. split; [exact Hrun|]. split; [exact Htrace|]. split; [exact Hviews|].
  split; [exact Hgs|]. split; [exact Hlen|].
  exact (Hwritten 0%nat _ (Nat.lt_0_succ 1) eq_refl).
Defined.

(** The frame is latched, the first eye is drawn, the second eye's image
    cannot be acquired: the latched frame is not released. *)
Lemma failed_layer_releases_nothing_witness :
  exists w' l' evs,
    RenderLayer sample_quaternion sample_translation failing_acquire_runtime 1000
      sample_world render_locals0
    = Thrown (XrResultError (-2) "xrAcquireSwapchainImage") w' l'
    /\ trace w' = trace sample_world ++ evs
    /\ count_events is_release evs = 0%nat
    /\ count_events is_latch (trace w') = 1%nat.
Proof.
  pose (run := RenderLayer sample_quaternion sample_translation failing_acquire_runtime 1000
                 sample_world render_locals0).
  assert (Hrun : run = Thrown (XrResultError (-2) "xrAcquireSwapchainImage")
                         (final_world run) (final_locals run))
    by (vm_compute; reflexivity).
  destruct (failed_layer_releases_nothing sample_quaternion sample_translation
              failing_acquire_runtime 1000 sample_world render_locals0
              (XrResultError (-2) "xrAcquireSwapchainImage") (final_world run)
              (final_locals run) I Hrun)
    as (evs & Ht & Hcount).
  exists (final_world run), (final_locals run), evs.
  split; [exact Hrun|]. split; [exact Ht|]. split; [exact Hcount|].
  vm_compute. reflexivity.
Defined.

Lemma frame_is_not_ended_unless_begun_witness :
  RenderFrame sample_quaternion sample_translation failing_begin_runtime sample_world tt
  = Thrown (XrResultError (-2) "xrBeginFrame")
      (emits [EvXrWaitFrame; EvXrBeginFrame] sample_world) tt.
Proof.
  destruct (frame_is_not_ended_unless_begun sample_quaternion sample_translation
              failing_begin_runtime sample_world) as (_ & _ & Hbegin).
  apply Hbegin; [discriminate | reflexivity | reflexivity].
Defined.

(** The last poll found the left hand active and the right hand not; both
    aim spaces then answer with a qualified success. *)
Lemma tracking_loss_is_logged_for_active_hands_witness :
  exists w1 l1 w2 l2 tick,
    PollActions sample_buttons sample_analogs left_pose_runtime sample_world poll_locals0
    = Ret false w1 l1
    /\ RenderLayer sample_quaternion sample_translation unlocated_hands_runtime 1000 w1
         render_locals0 = Ret true w2 l2
    /\ trace w2 = trace w1 ++ tick
    /\ count_events is_loss_log tick = 1%nat.
Proof.
  pose (run1 := PollActions sample_buttons sample_analogs left_pose_runtime sample_world
                  poll_locals0).
  pose (run2 := RenderLayer sample_quaternion sample_translation unlocated_hands_runtime
                  1000 (final_world run1) render_locals0).
  assert (Hrun1 : run1 = Ret false (final_world run1) (final_locals run1))
    by (vm_compute; reflexivity).
  assert (Hrun2 : run2 = Ret true (final_world run2) (final_locals run2))
    by (vm_compute; reflexivity).
  destruct (tracking_loss_is_logged_for_active_hands sample_buttons sample_analogs
              sample_quaternion sample_translation left_pose_runtime unlocated_hands_runtime
              1000 sample_world poll_locals0 _ _ _ render_locals0 _ _ _ Hrun1 Hrun2)
    as (tick & Ht & Hcount).
  exists (final_world run1), (final_locals run1), (final_world run2), (final_locals run2), tick.
  auto.
Defined.

(** ** Set-up examples *)

(** The sample headset sets up: two swapchains of 1832 x 1920. *)
Lemma sample_setup_returns :
  CreateSwapchains sample_setup_runtime fresh_world (sample_frame tt)
  = Ret tt (created_world sample_setup_runtime fresh_world) (sample_frame tt).
Proof. vm_compute. reflexivity. Qed.

Lemma one_swapchain_per_view_witness :
  exists w',
    CreateSwapchains sample_setup_runtime fresh_world (sample_frame tt)
    = Ret tt w' (sample_frame tt)
    /\ m_swapchains w' = [ {| handle := 100; width := 1832; height := 1920 |};
                          {| handle := 101; width := 1832; height := 1920 |} ]
    /\ length (m_swapchains w') = 2%nat
    /\ length (m_views w') = 2%nat
    /\ (2 <= length (m_configViews w'))%nat
    /\ forall i sc,
         m_swapchains w' !! i = Some sc ->
         exists vp,
           m_configViews w' !! i = Some vp
           /\ handle sc = created_handle sample_setup_runtime i
           /\ width sc = int32 (recommendedImageRectWidth vp)
           /\ height sc = int32 (recommendedImageRectHeight vp)
           /\ (0 <= recommendedImageRectWidth vp < 2 ^ 31 ->
               width sc = recommendedImageRectWidth vp)
           /\ (0 <= recommendedImageRectHeight vp < 2 ^ 31 ->
               height sc = recommendedImageRectHeight vp)
           /\ (2 ^ 31 <= recommendedImageRectWidth vp < 2 ^ 32 ->
               width sc = recommendedImageRectWidth vp - 2 ^ 32)
           /\ (2 ^ 31 <= recommendedImageRectHeight vp < 2 ^ 32 ->
               height sc = recommendedImageRectHeight vp - 2 ^ 32).
Proof.
  exists (created_world sample_setup_runtime fresh_world).
  split; [exact sample_setup_returns|]. split; [vm_compute; reflexivity|].
  exact (one_swapchain_per_view sample_setup_runtime fresh_world (sample_frame tt) tt
           (created_world sample_setup_runtime fresh_world) (sample_frame tt)
           sample_setup_returns).
Defined.

(** A headset that recommends a width of 4294967295: the swapchain's width is
    -1. *)
Lemma oversized_width_wraps :
  exists w',
    CreateSwapchains wide_setup_runtime fresh_world (sample_frame tt)
    = Ret tt w' (sample_frame tt)
    /\ m_configViews w' = [(4294967295, 1920); (1832, 1920)]
    /\ m_swapchains w' = [ {| handle := 100; width := -1; height := 1920 |};
                          {| handle := 101; width := 1832; height := 1920 |} ].
Proof.
  exists (created_world wide_setup_runtime fresh_world). vm_compute. repeat split.
Qed.

(** Setting the sample headset up a second time. *)
Lemma swapchains_are_created_once_witness :
  exists w',
    CreateSwapchains sample_setup_runtime fresh_world (sample_frame tt)
    = Ret tt w' (sample_frame tt)
    /\ CreateSwapchains sample_setup_runtime w' (sample_frame tt)
       = Thrown (CheckFailed "m_swapchains.empty()") w' (sample_frame tt).
Proof.
  exists (created_world sample_setup_runtime fresh_world).
  split; [exact sample_setup_returns|].
  apply (swapchains_are_created_once sample_setup_runtime sample_setup_runtime fresh_world
           (sample_frame tt) (sample_frame tt) tt
           (created_world sample_setup_runtime fresh_world) (sample_frame tt)
           sample_setup_returns).
  vm_compute. lia.
Defined.

Lemma every_swapchain_has_images_witness :
  exists w',
    CreateSwapchains sample_setup_runtime fresh_world (sample_frame tt)
    = Ret tt w' (sample_frame tt)
    /\ m_swapchainImages w' !! 101 = Some [1010; 1011; 1012]
    /\ forall i sc,
         m_swapchains w' !! i = Some sc ->
         exists j,
           (j <= i)%nat /\ created_handle sample_setup_runtime j = handle sc
           /\ (forall j', (j' < j)%nat -> created_handle sample_setup_runtime j' <> handle sc)
           /\ m_swapchainImages w' !! handle sc
              = Some (allocated_images sample_setup_runtime j)
           /\ allocated_images sample_setup_runtime j <> [].
Proof.
  exists (created_world sample_setup_runtime fresh_world).
  split; [exact sample_setup_returns|]. split; [vm_compute; reflexivity|].
  exact (every_swapchain_has_images sample_setup_runtime fresh_world (sample_frame tt) tt
           (created_world sample_setup_runtime fresh_world) (sample_frame tt)
           sample_setup_returns eq_refl).
Defined.



(** Set-up of the sample headset, then a frame. *)
Lemma eyes_render_at_recommended_size_witness :
  exists w1 w2 l2,
    CreateSwapchains sample_setup_runtime fresh_world (sample_frame tt)
    = Ret tt w1 (sample_frame tt)
    /\ RenderLayer sample_quaternion sample_translation (latched_runtime 3) 1000 w1
         render_locals0 = Ret true w2 l2
    /\ length (projectionLayerViews l2) = 2%nat
    /\ forall i v,
         projectionLayerViews l2 !! i = Some v ->
         exists vp,
           m_configViews w1 !! i = Some vp
           /\ sub_swapchain (subImage v) = created_handle sample_setup_runtime i
           /\ imageRect (subImage v)
              = {| offset := (0, 0);
                   extent := (int32 (recommendedImageRectWidth vp),
                              int32 (recommendedImageRectHeight vp)) |}
           /\ (0 <= recommendedImageRectWidth vp < 2 ^ 31 ->
               0 <= recommendedImageRectHeight vp < 2 ^ 31 ->
               extent (imageRect (subImage v))
               = (recommendedImageRectWidth vp, recommendedImageRectHeight vp)).
Proof.
  pose (w1 := created_world sample_setup_runtime fresh_world).
  pose (run := RenderLayer sample_quaternion sample_translation (latched_runtime 3) 1000 w1
                 render_locals0).
  assert (Hrun : run = Ret true (final_world run) (final_locals run))
    by (vm_compute; reflexivity).
  exists w1, (final_world run), (final_locals run).
  split; [exact sample_setup_returns|]. split; [exact Hrun|].
  exact (eyes_render_at_recommended_size sample_quaternion sample_translation
           sample_setup_runtime (latched_runtime 3) fresh_world (sample_frame tt) tt w1
           (sample_frame tt) 1000 render_locals0 true (final_world run) (final_locals run)
           sample_setup_returns Hrun).
Defined.
